(** * geminicli-anyllm: the provider abstraction and the response utilities

    A shallow embedding of

    - [packages/core/src/utils/generateContentResponseUtilities.ts]
      (text and function-call extraction from a generation response),
    - [llmProvider.ts] (the OpenAI-compatible provider: request shaping,
      header selection, the HTTP exchange and its error handling),
    - [contentGenerator.ts] (the factory [createContentGenerator]),

    together with the properties of these functions that the specification
    of the repository relies on.

    Conventions.  A JavaScript string is a sequence of code units; the
    embedding uses Rocq's [string], so it covers the code units below 256
    and coincides with JavaScript on ASCII text.  [undefined] is [None].
    A JavaScript number is kept as an exact decimal [m * 10^e]; rounding to
    binary64 is not followed, so a number of a parsed text is the number
    JavaScript holds when it is an integer of magnitude at most 2^53
    written without fraction and exponent.  For the same reason of
    alphabet the parser of JSON texts reads the escape [\uXXXX] only
    below [\u0100]: a text with a higher one is outside the embedding.
    Request values follow their TypeScript
    types; the JSON that comes back from the server is untyped ([json]). *)

From Stdlib Require Import ZArith Ascii.
From Stdlib Require String.
From stdpp Require Import base option list strings pretty gmap fin_maps.

Open Scope Z_scope.

(** ** JavaScript string primitives *)

Module JsString.

(** [s.startsWith(p)] *)
Definition startsWith (s p : string) : bool := String.prefix p s.

(** [s.includes(sub)] *)
Fixpoint includes (s sub : string) : bool :=
  String.prefix sub s ||
  match s with
  | EmptyString => false
  | String _ s' => includes s' sub
  end.

(** [s.endsWith(p)] *)
Definition endsWith (s p : string) : bool :=
  let n := String.length s in
  let k := String.length p in
  (k <=? n)%nat && String.eqb (String.substring (n - k) k s) p.

(** [s.slice(n)] *)
Fixpoint drop (n : nat) (s : string) : string :=
  match n, s with
  | O, _ => s
  | S n', String _ s' => drop n' s'
  | S _, EmptyString => EmptyString
  end.

(** [s.substring(a, b)] for [a <= b] *)
Definition substring (s : string) (a b : nat) : string :=
  String.substring a (b - a) s.

(** White space and line terminators recognised by [trim] among the code
    units below 256: TAB, LF, VT, FF, CR, SP and NBSP. *)
Definition is_white (c : ascii) : bool :=
  match c with
  | "009" | "010" | "011" | "012" | "013" | " " | "160" => true
  | _ => false
  end%char.

Fixpoint trimStart (s : string) : string :=
  match s with
  | String c s' => if is_white c then trimStart s' else s
  | EmptyString => EmptyString
  end.

(** Drops the trailing white space: a character is kept when it is not
    white or when something is kept after it. *)
Fixpoint trimEnd (s : string) : string :=
  match s with
  | EmptyString => EmptyString
  | String c s' =>
      match trimEnd s' with
      | EmptyString => if is_white c then EmptyString else String c EmptyString
      | t => String c t
      end
  end.

(** [s.trim()] *)
Definition trim (s : string) : string := trimEnd (trimStart s).

(** [l.join(sep)] on an array of strings *)
Fixpoint join (sep : string) (l : list string) : string :=
  match l with
  | [] => ""
  | [x] => x
  | x :: rest => x +:+ sep +:+ join sep rest
  end.

(** A JavaScript string is truthy when it is not empty. *)
Definition truthy (s : string) : bool :=
  match s with EmptyString => false | _ => true end.

Definition LF : string := String "010"%char EmptyString.

End JsString.

(** [o && ...] on a value of type [string | undefined] *)
Definition truthy_opt (o : option string) : bool :=
  match o with
  | Some s => JsString.truthy s
  | None => false
  end.

(** A value of type [string | undefined] that is a non-empty string is
    truthy; [is_Some_b] tells whether an optional value is there at all. *)
Definition is_Some_b {A} (o : option A) : bool :=
  match o with
  | Some _ => true
  | None => false
  end.

(** [s.slice(0, -1)] *)
Fixpoint dropLast (s : string) : string :=
  match s with
  | EmptyString => EmptyString
  | String c EmptyString => EmptyString
  | String c s' => String c (dropLast s')
  end.

(** ** JSON values and [JSON.stringify] *)

(** A JSON value.  [JNum m e] is the number [m * 10^e].  An object keeps
    its properties in enumeration order. *)
#[warnings="-register-all"]
Inductive json : Type :=
| JNull
| JBool (b : bool)
| JNum (m e : Z)
| JStr (s : string)
| JArr (items : list json)
| JObj (props : list (string * json)).

Module Json.

(** Truthiness of a JSON value ([!!v]). *)
Definition truthy (v : json) : bool :=
  match v with
  | JNull => false
  | JBool b => b
  | JNum m _ => negb (m =? 0)
  | JStr s => JsString.truthy s
  | JArr _ | JObj _ => true
  end.

Fixpoint zeros (n : nat) : string :=
  match n with
  | O => ""
  | S n' => String "0"%char (zeros n')
  end.

(** Number of trailing ["0"] characters of a digit string, and the string
    without them. *)
Fixpoint strip_zeros (s : string) : string * nat :=
  match s with
  | EmptyString => (EmptyString, O)
  | String c s' =>
      match strip_zeros s' with
      | (EmptyString, z) =>
          if Ascii.eqb c "0"%char then (EmptyString, S z)
          else (String c EmptyString, z)
      | (t, z) => (String c t, z)
      end
  end.

(** [Number::toString] on the decimal [m * 10^e]: with [k] significant
    digits and the decimal point after digit [n], the plain notation is
    used for [-6 < n <= 21] and the exponent notation otherwise. *)
Definition number_to_string (m e : Z) : string :=
  if m =? 0 then "0" else
  let (digits, z) := strip_zeros (pretty (Z.abs m)) in
  let k := Z.of_nat (String.length digits) in
  let n := k + e + Z.of_nat z in
  let body :=
    if (k <=? n) && (n <=? 21) then
      digits +:+ zeros (Z.to_nat (n - k))
    else if (0 <? n) && (n <=? 21) then
      String.substring 0 (Z.to_nat n) digits +:+ "." +:+
      String.substring (Z.to_nat n) (Z.to_nat (k - n)) digits
    else if (-6 <? n) && (n <=? 0) then
      "0." +:+ zeros (Z.to_nat (- n)) +:+ digits
    else
      let x := n - 1 in
      let sign := if x <? 0 then "-" else "+" in
      let mant :=
        if k =? 1 then digits
        else String.substring 0 1 digits +:+ "." +:+
             String.substring 1 (Z.to_nat (k - 1)) digits in
      mant +:+ "e" +:+ sign +:+ pretty (Z.abs x) in
  if m <? 0 then "-" +:+ body else body.

Definition hex_digit (n : N) : ascii :=
  match n with
  | 0 => "0" | 1 => "1" | 2 => "2" | 3 => "3" | 4 => "4" | 5 => "5"
  | 6 => "6" | 7 => "7" | 8 => "8" | 9 => "9" | 10 => "a" | 11 => "b"
  | 12 => "c" | 13 => "d" | 14 => "e" | _ => "f"
  end%N%char.

(** One character of [QuoteJSONString]. *)
Definition quote_char (c : ascii) : string :=
  match c with
  | "008"%char => "\b"
  | "009"%char => "\t"
  | "010"%char => "\n"
  | "012"%char => "\f"
  | "013"%char => "\r"
  | "034"%char => String "\"%char (String "034"%char EmptyString)
  | "\"%char => "\\"
  | _ =>
      let n := N_of_ascii c in
      if (n <? 32)%N then
        "\u00" +:+ String (hex_digit (n / 16)) (String (hex_digit (n mod 16)) EmptyString)
      else String c EmptyString
  end.

Fixpoint quote_body (s : string) : string :=
  match s with
  | EmptyString => EmptyString
  | String c s' => quote_char c +:+ quote_body s'
  end.

Definition DQ : string := String "034"%char EmptyString.

(** [QuoteJSONString] *)
Definition quote (s : string) : string := DQ +:+ quote_body s +:+ DQ.

(** The closing steps of [SerializeJSONArray] and [SerializeJSONObject]:
    [partial] holds the serialized elements, [stepback] the indentation
    of the enclosing value and [indent] that of the elements. *)
Definition wrap (opening closing gap stepback indent : string)
    (partial : list string) : string :=
  match partial with
  | [] => opening +:+ closing
  | _ =>
      if JsString.truthy gap then
        opening +:+ JsString.LF +:+ indent +:+
        JsString.join ("," +:+ JsString.LF +:+ indent) partial +:+
        JsString.LF +:+ stepback +:+ closing
      else opening +:+ JsString.join "," partial +:+ closing
  end.

(** [SerializeJSONProperty] with the given [gap], at indentation
    [indent]. *)
Fixpoint serialize (gap indent : string) (v : json) : string :=
  match v with
  | JNull => "null"
  | JBool true => "true"
  | JBool false => "false"
  | JNum m e => number_to_string m e
  | JStr s => quote s
  | JArr items =>
      wrap "[" "]" gap indent (indent +:+ gap)
        (List.map (serialize gap (indent +:+ gap)) items)
  | JObj props =>
      wrap "{" "}" gap indent (indent +:+ gap)
        (List.map (fun kv : string * json =>
                     quote (fst kv) +:+ ":" +:+
                     (if JsString.truthy gap then " " else "") +:+
                     serialize gap (indent +:+ gap) (snd kv)) props)
  end.

(** [JSON.stringify(v)] *)
Definition stringify (v : json) : string := serialize "" "" v.

(** [JSON.stringify(v, null, 2)] *)
Definition stringify2 (v : json) : string := serialize "  " "" v.

(** [o[k]] on an object's property list. *)
Fixpoint lookup (k : string) (props : list (string * json)) : option json :=
  match props with
  | [] => None
  | (k', v) :: rest => if String.eqb k k' then Some v else lookup k rest
  end.

End Json.

(** ** The vendor-neutral data model (types of [@google/genai])

    [Part], [Content], [Candidate] and [GenerateContentResponse] are the
    interfaces the source imports; every field is optional there.  [other]
    holds the properties of a part besides [text] and [functionCall]
    (inline data, a function response, ...).  When a record is serialized
    its keys come in the order of the fields below. *)

Record Part : Type := mkPart {
  text : option string;
  functionCall : option json;
  other : list (string * json)
}.

Record Content : Type := mkContent {
  role : option string;
  parts : option (list Part)
}.

Record Candidate : Type := mkCandidate {
  content : option Content
}.

Record UsageMetadata : Type := mkUsage {
  promptTokenCount : option json;
  candidatesTokenCount : option json;
  totalTokenCount : option json
}.

Record GenerateContentResponse : Type := mkResponse {
  candidates : option (list Candidate);
  usageMetadata : option UsageMetadata
}.

Definition textPart (s : string) : Part :=
  {| text := Some s; functionCall := None; other := [] |}.

Definition callPart (fc : json) : Part :=
  {| text := None; functionCall := Some fc; other := [] |}.

(** ** generateContentResponseUtilities.ts *)

Definition is_lower (c : ascii) : bool :=
  let n := N_of_ascii c in ((97 <=? n) && (n <=? 122))%N.

(** The rest of a string after its leading run of [[a-z]]. *)
Fixpoint skip_lower (s : string) : string :=
  match s with
  | String c s' => if is_lower c then skip_lower s' else s
  | EmptyString => EmptyString
  end.

Definition FENCE : string := "```".

(** [text.replace(/^```[a-z]*\n/, '')]: the pattern can only match at the
    start of the input; the letters never include the line feed, so the
    greedy run is the only way to match. *)
Definition strip_open_fence (text : string) : string :=
  if JsString.startsWith text FENCE then
    match skip_lower (JsString.drop 3 text) with
    | String c rest => if Ascii.eqb c "010" then rest else text
    | EmptyString => text
    end
  else text.

(** [text.replace(/\n```$/, '')]: without the [m] flag [$] is the end of
    the input, so the only match is the last four characters. *)
Definition strip_close_fence (text : string) : string :=
  if JsString.endsWith text (JsString.LF +:+ FENCE)
  then JsString.substring text 0 (String.length text - 4)
  else text.

Definition stripMarkdownCodeBlocks (text : string) : string :=
  strip_close_fence (strip_open_fence text).

(** [response.candidates?.[0]?.content?.parts] *)
Definition first_candidate_parts (response : GenerateContentResponse)
  : option (list Part) :=
  match candidates response with
  | Some (c :: _) =>
      match content c with
      | Some ct => parts ct
      | None => None
      end
  | _ => None
  end.

(** [parts.map((part) => part.text).filter((text) => typeof text === 'string')] *)
Fixpoint textSegments (ps : list Part) : list string :=
  match ps with
  | [] => []
  | p :: rest =>
      match text p with
      | Some s => s :: textSegments rest
      | None => textSegments rest
      end
  end.

Definition getResponseTextFromParts (ps : option (list Part)) : option string :=
  match ps with
  | None => None
  | Some ps =>
      match textSegments ps with
      | [] => None
      | segs => Some (stripMarkdownCodeBlocks (JsString.join "" segs))
      end
  end.

Definition getResponseText (response : GenerateContentResponse) : option string :=
  getResponseTextFromParts (first_candidate_parts response).

(** [parts.filter((part) => !!part.functionCall).map((part) => part.functionCall)] *)
Fixpoint functionCallParts (ps : list Part) : list json :=
  match ps with
  | [] => []
  | p :: rest =>
      match functionCall p with
      | Some fc => if Json.truthy fc then fc :: functionCallParts rest
                   else functionCallParts rest
      | None => functionCallParts rest
      end
  end.

Definition getFunctionCallsFromParts (ps : option (list Part)) : option (list json) :=
  match ps with
  | None => None
  | Some ps =>
      match functionCallParts ps with
      | [] => None
      | calls => Some calls
      end
  end.

Definition getFunctionCalls (response : GenerateContentResponse) : option (list json) :=
  getFunctionCallsFromParts (first_candidate_parts response).

Definition getFunctionCallsFromPartsAsJson (ps : option (list Part)) : option string :=
  match getFunctionCallsFromParts ps with
  | None => None
  | Some calls => Some (Json.stringify2 (JArr calls))
  end.

Definition getFunctionCallsAsJson (response : GenerateContentResponse) : option string :=
  match getFunctionCalls response with
  | None => None
  | Some calls => Some (Json.stringify2 (JArr calls))
  end.

(** The three [if]s that end [getStructuredResponse] and
    [getStructuredResponseFromParts]. *)
Definition structured (textContent functionCallsJson : option string) : option string :=
  if truthy_opt textContent && truthy_opt functionCallsJson then
    match textContent, functionCallsJson with
    | Some t, Some f => Some (t +:+ JsString.LF +:+ f)
    | _, _ => None
    end
  else if truthy_opt textContent then textContent
  else if truthy_opt functionCallsJson then functionCallsJson
  else None.

Definition getStructuredResponse (response : GenerateContentResponse) : option string :=
  structured (getResponseText response) (getFunctionCallsAsJson response).

Definition getStructuredResponseFromParts (ps : option (list Part)) : option string :=
  structured (getResponseTextFromParts ps) (getFunctionCallsFromPartsAsJson ps).

(** ** JSON objects as the engine keeps them, and [JSON.parse] *)

Module JsObject.

Fixpoint all_digits (s : string) : bool :=
  match s with
  | EmptyString => true
  | String c s' =>
      match Ascii.is_nat c with
      | Some _ => all_digits s'
      | None => false
      end
  end.

Fixpoint digits_value (acc : N) (s : string) : N :=
  match s with
  | EmptyString => acc
  | String c s' =>
      digits_value (10 * acc + N.of_nat (default O (Ascii.is_nat c)))%N s'
  end.

(** A property key is an array index when it is the canonical decimal
    form of an integer below [2^32 - 1]. *)
Definition array_index (k : string) : option N :=
  match k with
  | EmptyString => None
  | String "0" EmptyString => Some 0%N
  | String "0" _ => None
  | _ =>
      if all_digits k && (String.length k <=? 10)%nat then
        let n := digits_value 0 k in
        if (n <? 4294967295)%N then Some n else None
      else None
  end.

Fixpoint replace (k : string) (v : json) (props : list (string * json))
  : list (string * json) :=
  match props with
  | [] => []
  | (k', v') :: rest =>
      if String.eqb k k' then (k', v) :: rest
      else (k', v') :: replace k v rest
  end.

(** Position of a new index key [n]: before the first key that is not an
    index or is a larger one. *)
Fixpoint insert_index (n : N) (k : string) (v : json)
    (props : list (string * json)) : list (string * json) :=
  match props with
  | [] => [(k, v)]
  | (k', v') :: rest =>
      match array_index k' with
      | Some n' =>
          if (n' <? n)%N then (k', v') :: insert_index n k v rest
          else (k, v) :: props
      | None => (k, v) :: props
      end
  end.

(** [o[k] = v]: an existing property keeps its place; a new one is
    enumerated after the existing ones, index keys first in ascending
    order. *)
Definition set (k : string) (v : json) (props : list (string * json))
  : list (string * json) :=
  match Json.lookup k props with
  | Some _ => replace k v props
  | None =>
      match array_index k with
      | Some n => insert_index n k v props
      | None => props ++ [(k, v)]
      end
  end.

(** [{...o, ...src}]: the properties of [src] are set one by one. *)
Definition spread (o src : list (string * json)) : list (string * json) :=
  fold_left (fun acc kv => set (fst kv) (snd kv) acc) src o.

(** An object literal [{k1: v1, ..., kn: vn}]. *)
Definition literal (props : list (string * json)) : list (string * json) :=
  spread [] props.

End JsObject.

Module JsonParser.

(** JSON white space: SP, TAB, LF and CR only. *)
Definition is_ws (c : ascii) : bool :=
  Ascii.eqb c " " || Ascii.eqb c "009" || Ascii.eqb c "010" || Ascii.eqb c "013".

Fixpoint skip_ws (s : string) : string :=
  match s with
  | String c s' => if is_ws c then skip_ws s' else s
  | EmptyString => EmptyString
  end.

(** The rest of the input after the character [c], when it starts with
    it. *)
Definition after_char (c : ascii) (s : string) : option string :=
  match s with
  | String c' r => if Ascii.eqb c' c then Some r else None
  | EmptyString => None
  end.

(** The leading run of decimal digits and what follows it. *)
Fixpoint take_digits (s : string) : string * string :=
  match s with
  | String c s' =>
      match Ascii.is_nat c with
      | Some _ => let (d, r) := take_digits s' in (String c d, r)
      | None => (EmptyString, s)
      end
  | EmptyString => (EmptyString, EmptyString)
  end.

(** A run of digits that is not empty. *)
Definition some_digits (s : string) : option (string * string) :=
  match take_digits s with
  | (EmptyString, _) => None
  | (d, r) => Some (d, r)
  end.

Definition digits_Z (d : string) : Z := Z.of_N (JsObject.digits_value 0 d).

(** The integer part: a single ["0"], or a run of digits that does not
    start with ["0"]. *)
Definition parse_int (s : string) : option (string * string) :=
  match after_char "0" s with
  | Some r => Some ("0", r)
  | None => some_digits s
  end.

Definition parse_frac (s : string) : option (string * string) :=
  match after_char "." s with
  | Some r => some_digits r
  | None => Some (EmptyString, s)
  end.

Definition signed_digits (neg : bool) (s : string) : option (Z * string) :=
  match some_digits s with
  | Some (d, r) => Some (if neg then - digits_Z d else digits_Z d, r)
  | None => None
  end.

Definition parse_exp (s : string) : option (Z * string) :=
  match s with
  | String c r =>
      if Ascii.eqb c "e" || Ascii.eqb c "E" then
        match after_char "-" r with
        | Some r' => signed_digits true r'
        | None =>
            match after_char "+" r with
            | Some r' => signed_digits false r'
            | None => signed_digits false r
            end
        end
      else Some (0, s)
  | EmptyString => Some (0, s)
  end.

Definition parse_number (s : string) : option (json * string) :=
  let (neg, s1) :=
    match after_char "-" s with
    | Some r => (true, r)
    | None => (false, s)
    end in
  match parse_int s1 with
  | None => None
  | Some (i, s2) =>
      match parse_frac s2 with
      | None => None
      | Some (f, s3) =>
          match parse_exp s3 with
          | None => None
          | Some (x, s4) =>
              let m := digits_Z (i +:+ f) in
              Some (JNum (if neg then - m else m)
                         (x - Z.of_nat (String.length f)), s4)
          end
      end
  end.

Definition hex_value (c : ascii) : option N :=
  let n := N_of_ascii c in
  if ((48 <=? n) && (n <=? 57))%N then Some (n - 48)%N
  else if ((97 <=? n) && (n <=? 102))%N then Some (n - 87)%N
  else if ((65 <=? n) && (n <=? 70))%N then Some (n - 55)%N
  else None.

(** The code unit written [\uXXXX]; those from 256 on are outside the
    alphabet of the embedding. *)
Definition unicode_escape (a b c d : ascii) : option ascii :=
  match hex_value a, hex_value b, hex_value c, hex_value d with
  | Some 0%N, Some 0%N, Some h, Some l => Some (ascii_of_N (16 * h + l))
  | _, _, _, _ => None
  end.

(** The character written with a backslash and [e]. *)
Definition escape_char (e : ascii) : option ascii :=
  match e with
  | "034" => Some "034"
  | "\" => Some "\"
  | "/" => Some "/"
  | "b" => Some "008"
  | "f" => Some "012"
  | "n" => Some "010"
  | "r" => Some "013"
  | "t" => Some "009"
  | _ => None
  end%char.

Definition cons_char (c : ascii) (r : option (string * string))
  : option (string * string) :=
  match r with
  | Some (t, r') => Some (String c t, r')
  | None => None
  end.

(** The characters of a string literal after its opening quote, up to
    the closing one. *)
Fixpoint parse_string_body (s : string) : option (string * string) :=
  match s with
  | EmptyString => None
  | String c r =>
      if Ascii.eqb c "034" then Some (EmptyString, r)
      else if Ascii.eqb c "\" then
        match r with
        | EmptyString => None
        | String e r1 =>
            if Ascii.eqb e "u" then
              match r1 with
              | String h1 (String h2 (String h3 (String h4 r2))) =>
                  match unicode_escape h1 h2 h3 h4 with
                  | Some u => cons_char u (parse_string_body r2)
                  | None => None
                  end
              | _ => None
              end
            else
              match escape_char e with
              | Some x => cons_char x (parse_string_body r1)
              | None => None
              end
        end
      else if (N_of_ascii c <? 32)%N then None
      else cons_char c (parse_string_body r)
  end.

Definition keyword (kw : string) (v : json) (s : string) : option (json * string) :=
  if String.prefix kw s then Some (v, JsString.drop (String.length kw) s) else None.

(** A JSON value, then the rest of the input.  [fuel] bounds the depth of
    the calls: a call on the same input takes one unit and every other
    call is on a shorter input, so twice the length of the input, plus
    two, is enough; [parse] supplies that much. *)
Fixpoint parse_value (fuel : nat) (s : string) : option (json * string) :=
  match fuel with
  | O => None
  | S fuel' =>
      match skip_ws s with
      | EmptyString => None
      | String c r as s1 =>
          if Ascii.eqb c "{" then
            match after_char "}" (skip_ws r) with
            | Some r' => Some (JObj [], r')
            | None => parse_members fuel' (skip_ws r) []
            end
          else if Ascii.eqb c "[" then
            match after_char "]" (skip_ws r) with
            | Some r' => Some (JArr [], r')
            | None => parse_elements fuel' (skip_ws r) []
            end
          else if Ascii.eqb c "034" then
            match parse_string_body r with
            | Some (t, r') => Some (JStr t, r')
            | None => None
            end
          else if Ascii.eqb c "t" then keyword "true" (JBool true) s1
          else if Ascii.eqb c "f" then keyword "false" (JBool false) s1
          else if Ascii.eqb c "n" then keyword "null" JNull s1
          else parse_number s1
      end
  end
with parse_elements (fuel : nat) (s : string) (acc : list json)
  : option (json * string) :=
  match fuel with
  | O => None
  | S fuel' =>
      match parse_value fuel' s with
      | Some (v, r) =>
          match after_char "," (skip_ws r) with
          | Some r' => parse_elements fuel' r' (v :: acc)
          | None =>
              match after_char "]" (skip_ws r) with
              | Some r' => Some (JArr (rev (v :: acc)), r')
              | None => None
              end
          end
      | None => None
      end
  end
with parse_members (fuel : nat) (s : string) (acc : list (string * json))
  : option (json * string) :=
  match fuel with
  | O => None
  | S fuel' =>
      match after_char "034" (skip_ws s) with
      | Some r =>
          match parse_string_body r with
          | Some (k, r1) =>
              match after_char ":" (skip_ws r1) with
              | Some r2 =>
                  match parse_value fuel' r2 with
                  | Some (v, r3) =>
                      match after_char "," (skip_ws r3) with
                      | Some r4 => parse_members fuel' r4 (JsObject.set k v acc)
                      | None =>
                          match after_char "}" (skip_ws r3) with
                          | Some r4 => Some (JObj (JsObject.set k v acc), r4)
                          | None => None
                          end
                      end
                  | None => None
                  end
              | None => None
              end
          | None => None
          end
      | None => None
      end
  end.

(** [JSON.parse(text)]; [None] stands for the [SyntaxError]. *)
Definition parse (s : string) : option json :=
  match parse_value (2 * String.length s + 2) s with
  | Some (v, r) =>
      match skip_ws r with
      | EmptyString => Some v
      | _ => None
      end
  | None => None
  end.

End JsonParser.

(** ** Errors, the runtime and the effect monad *)

Inductive JsError : Type :=
| Error (msg : string)
| TypeError (msg : string)
| SyntaxError (msg : string).

(** [error.message] *)
Definition message (e : JsError) : string :=
  match e with
  | Error m | TypeError m | SyntaxError m => m
  end.

(** How a call ends. *)
Inductive Outcome (A : Type) : Type :=
| Returned (a : A)
| Thrown (e : JsError).
Arguments Returned {A} a.
Arguments Thrown {A} e.

(** One [fetch] call as it leaves the process. *)
Record Request : Type := mkRequest {
  req_url : string;
  req_method : string;
  req_headers : gmap string string;
  req_body : string
}.

(** What [response.text()] gives. *)
Inductive BodyRead : Type :=
| BodyText (t : string)
| BodyFailed (e : JsError).

Record Response : Type := mkHttpResponse {
  status : Z;
  body : BodyRead
}.

(** [response.ok]: the status is in the range 200-299. *)
Definition ok (r : Response) : bool := (200 <=? status r) && (status r <=? 299).

Inductive FetchResult : Type :=
| Rejected (e : JsError)
| Resolved (r : Response).

(** What the code cannot see into: the network, which answers a request
    knowing the earlier ones, and the wording the engine gives to the
    [SyntaxError] of [JSON.parse]. *)
Record Runtime : Type := mkRuntime {
  fetch : list Request -> Request -> FetchResult;
  syntaxErrorMessage : string -> string
}.

(** A computation reads the runtime and extends the log of the requests
    sent so far. *)
Definition IO (A : Type) : Type :=
  Runtime -> list Request -> Outcome A * list Request.

Definition ret {A} (a : A) : IO A := fun _ log => (Returned a, log).

Definition throw {A} (e : JsError) : IO A := fun _ log => (Thrown e, log).

Definition bind {A B} (m : IO A) (k : A -> IO B) : IO B :=
  fun rt log =>
    match m rt log with
    | (Returned a, log') => k a rt log'
    | (Thrown e, log') => (Thrown e, log')
    end.

(** [try { m } catch (error) { handler }] *)
Definition try_catch {A} (m : IO A) (handler : JsError -> IO A) : IO A :=
  fun rt log =>
    match m rt log with
    | (Returned a, log') => (Returned a, log')
    | (Thrown e, log') => handler e rt log'
    end.

Definition lift {A} (o : Outcome A) : IO A := fun _ log => (o, log).

Notation "'let*' x ':=' m 'in' k" := (bind m (fun x => k))
  (at level 10, x name, m at level 100, k at level 200).

(** [await fetch(url, {method, headers, body})] *)
Definition js_fetch (r : Request) : IO Response :=
  fun rt log =>
    match fetch rt log r with
    | Resolved resp => (Returned resp, log ++ [r])
    | Rejected e => (Thrown e, log ++ [r])
    end.

(** [await response.text()] *)
Definition response_text (r : Response) : IO string :=
  match body r with
  | BodyText t => ret t
  | BodyFailed e => throw e
  end.

(** [JSON.parse(text)] *)
Definition JSON_parse (text : string) : IO json :=
  fun rt log =>
    match JsonParser.parse text with
    | Some v => (Returned v, log)
    | None => (Thrown (SyntaxError (syntaxErrorMessage rt text)), log)
    end.

(** ** Reading untyped JSON the way the engine does *)

Module JsDyn.

Definition outcome_bind {A B} (o : Outcome A) (k : A -> Outcome B) : Outcome B :=
  match o with
  | Returned a => k a
  | Thrown e => Thrown e
  end.

Definition char_string (c : ascii) : string := String c EmptyString.

(** [v[k]] for a value that is neither [null] nor [undefined], where [k]
    is not the name of a method. *)
Definition get (v : json) (k : string) : option json :=
  match v with
  | JObj props => Json.lookup k props
  | JArr items =>
      if String.eqb k "length" then Some (JNum (Z.of_nat (length items)) 0)
      else match JsObject.array_index k with
           | Some n => items !! N.to_nat n
           | None => None
           end
  | JStr s =>
      if String.eqb k "length" then Some (JNum (Z.of_nat (String.length s)) 0)
      else match JsObject.array_index k with
           | Some n => option_map (fun c => JStr (char_string c)) (String.get (N.to_nat n) s)
           | None => None
           end
  | _ => None
  end.

(** [v.k]: reading a property of [null] or [undefined] is a
    [TypeError]. *)
Definition prop (v : option json) (k : string) : Outcome (option json) :=
  match v with
  | None =>
      Thrown (TypeError ("Cannot read properties of undefined (reading '" +:+ k +:+ "')"))
  | Some JNull =>
      Thrown (TypeError ("Cannot read properties of null (reading '" +:+ k +:+ "')"))
  | Some v' => Returned (get v' k)
  end.

(** [v?.k] *)
Definition opt_prop (v : option json) (k : string) : option json :=
  match v with
  | None | Some JNull => None
  | Some v' => get v' k
  end.

Definition truthy (v : option json) : bool :=
  match v with
  | Some v' => Json.truthy v'
  | None => false
  end.

(** [String(v)].  An object is converted by [Object.prototype.toString]
    unless a property of its own hides that method. *)
Fixpoint to_string (v : json) : Outcome string :=
  match v with
  | JNull => Returned "null"
  | JBool true => Returned "true"
  | JBool false => Returned "false"
  | JNum m e => Returned (Json.number_to_string m e)
  | JStr s => Returned s
  | JArr items =>
      (fix join_items (l : list json) : Outcome string :=
         match l with
         | [] => Returned ""
         | x :: rest =>
             outcome_bind
               (match x with JNull => Returned "" | _ => to_string x end)
               (fun sx =>
                  match rest with
                  | [] => Returned sx
                  | _ => outcome_bind (join_items rest)
                           (fun sr => Returned (sx +:+ "," +:+ sr))
                  end)
         end) items
  | JObj props =>
      match Json.lookup "toString" props with
      | Some _ => Thrown (TypeError "Cannot convert object to primitive value")
      | None => Returned "[object Object]"
      end
  end.

Fixpoint all_chars (f : ascii -> bool) (s : string) : bool :=
  match s with
  | EmptyString => true
  | String c s' => f c && all_chars f s'
  end.

Fixpoint some_char (f : ascii -> bool) (s : string) : bool :=
  match s with
  | EmptyString => false
  | String c s' => f c || some_char f s'
  end.

Definition nonzero (c : ascii) : bool := negb (Ascii.eqb c "0").

Definition in_range (lo hi : N) (c : ascii) : bool :=
  let n := N_of_ascii c in ((lo <=? n) && (n <=? hi))%N.

Definition is_hex (c : ascii) : bool :=
  match JsonParser.hex_value c with Some _ => true | None => false end.

(** An exponent part, possibly absent, up to the end of the string. *)
Definition exponent_ok (s : string) : bool :=
  match s with
  | EmptyString => true
  | String c r =>
      (Ascii.eqb c "e" || Ascii.eqb c "E") &&
      let d := match r with
               | String "+" r' | String "-" r' => r'
               | _ => r
               end in
      match JsonParser.take_digits d with
      | (EmptyString, _) => false
      | (_, EmptyString) => true
      | _ => false
      end
  end.

(** [StringToNumber(s) > 0]: the string is a numeric literal of the
    [StrNumericLiteral] grammar whose value is positive. *)
Definition string_positive (s : string) : bool :=
  match JsString.trim s with
  | String "0" (String x (String d ds)) as t =>
      let digits := String d ds in
      if Ascii.eqb x "x" || Ascii.eqb x "X" then
        all_chars is_hex digits && some_char nonzero digits
      else if Ascii.eqb x "o" || Ascii.eqb x "O" then
        all_chars (in_range 48 55) digits && some_char nonzero digits
      else if Ascii.eqb x "b" || Ascii.eqb x "B" then
        all_chars (in_range 48 49) digits && some_char nonzero digits
      else
        let (d1, r1) := JsonParser.take_digits t in
        let (d2, r2) :=
          match r1 with
          | String "." r => JsonParser.take_digits r
          | _ => (EmptyString, r1)
          end in
        JsString.truthy (d1 +:+ d2) && exponent_ok r2 &&
        some_char nonzero (d1 +:+ d2)
  | t =>
      let (neg, u) :=
        match t with
        | String "-" r => (true, r)
        | String "+" r => (false, r)
        | _ => (false, t)
        end in
      if String.eqb u "Infinity" then negb neg
      else
        let (d1, r1) := JsonParser.take_digits u in
        let (d2, r2) :=
          match r1 with
          | String "." r => JsonParser.take_digits r
          | _ => (EmptyString, r1)
          end in
        negb neg && JsString.truthy (d1 +:+ d2) && exponent_ok r2 &&
        some_char nonzero (d1 +:+ d2)
  end.

(** [v > 0] *)
Definition gt_zero (v : option json) : Outcome bool :=
  match v with
  | None | Some JNull => Returned false
  | Some (JBool b) => Returned b
  | Some (JNum m _) => Returned (0 <? m)
  | Some (JStr s) => Returned (string_positive s)
  | Some v' => outcome_bind (to_string v') (fun s => Returned (string_positive s))
  end.

End JsDyn.

(** ** llmProvider.ts *)

Module LlmProvider.

Record LLMProviderConfig : Type := mkConfig {
  apiUrl : string;
  apiKey : option string;
  model : string;
  headers : option (gmap string string);
  proxy : option string
}.

(** [class OpenAICompatibleProvider]: its only field is [this.config]. *)
Record OpenAICompatibleProvider : Type := new_OpenAICompatibleProvider {
  this_config : LLMProviderConfig
}.

(** The generation settings the provider reads; [convertConfigToOpenAIParams]
    takes them as [any] and copies the values untouched. *)
Record GenerateContentConfig : Type := mkGenConfig {
  temperature : option json;
  maxOutputTokens : option json;
  topP : option json;
  stopSequences : option json
}.

(** An element of [ContentListUnion]: a string, a [Content] or a [Part]. *)
Inductive ContentItem : Type :=
| ItemString (s : string)
| ItemContent (c : Content)
| ItemPart (p : Part).

(** [ContentListUnion = Content | Content[] | PartUnion | PartUnion[]] *)
Inductive ContentListUnion : Type :=
| Single (item : ContentItem)
| Many (items : list ContentItem).

Record GenerateContentParameters : Type := mkParams {
  requestModel : string;
  contents : ContentListUnion;
  config : option GenerateContentConfig
}.

Definition optional {A} (k : string) (f : A -> json) (o : option A)
  : list (string * json) :=
  match o with
  | Some a => [(k, f a)]
  | None => []
  end.

(** The JSON form of a part and of a content, for [JSON.stringify]. *)
Definition Part_to_json (p : Part) : json :=
  JObj (optional "text" JStr (text p) ++
        optional "functionCall" id (functionCall p) ++ other p).

Definition Content_to_json (c : Content) : json :=
  JObj (optional "role" JStr (role c) ++
        optional "parts" (fun ps => JArr (List.map Part_to_json ps)) (parts c)).

(** [Array.isArray(contents) ? contents : [contents]] *)
Definition contentArray (cs : ContentListUnion) : list ContentItem :=
  match cs with
  | Single item => [item]
  | Many items => items
  end.

Definition message_of (r c : string) : json :=
  JObj (JsObject.literal [("role", JStr r); ("content", JStr c)]).

(** [content.parts.filter((part) => part.text)] *)
Definition textParts (ps : list Part) : list Part :=
  List.filter (fun p => truthy_opt (text p)) ps.

(** [textParts.map((part) => part.text).join('\n')] *)
Definition joinedText (ps : list Part) : string :=
  JsString.join JsString.LF (List.map (fun p => default "" (text p)) (textParts ps)).

(** The callback of [convertContentsToMessages]. *)
Definition convertContentToMessage (item : ContentItem) : json :=
  match item with
  | ItemString s => message_of "user" s
  | ItemContent c =>
      match role c, parts c with
      | Some r, Some ps =>
          if JsString.truthy r
          then message_of (if String.eqb r "model" then "assistant" else r)
                          (joinedText ps)
          else message_of "user" (Json.stringify (Content_to_json c))
      | _, _ => message_of "user" (Json.stringify (Content_to_json c))
      end
  | ItemPart p => message_of "user" (Json.stringify (Part_to_json p))
  end.

Definition convertContentsToMessages (cs : ContentListUnion) : list json :=
  List.map convertContentToMessage (contentArray cs).

(** [part.text ? part.text : JSON.stringify(part)] *)
Definition partPrompt (p : Part) : string :=
  match text p with
  | Some t => if JsString.truthy t then t else Json.stringify (Part_to_json p)
  | None => Json.stringify (Part_to_json p)
  end.

(** The callback of [convertContentsToPrompt]. *)
Definition convertContentToPrompt (item : ContentItem) : string :=
  match item with
  | ItemString s => s
  | ItemContent c =>
      match parts c with
      | Some ps => JsString.join JsString.LF (List.map partPrompt ps)
      | None => Json.stringify (Content_to_json c)
      end
  | ItemPart p => Json.stringify (Part_to_json p)
  end.

Definition convertContentsToPrompt (cs : ContentListUnion) : string :=
  JsString.join (JsString.LF +:+ JsString.LF)
    (List.map convertContentToPrompt (contentArray cs)).

(** [if (config.x !== undefined) openAIParams.y = config.x] *)
Definition assign (k : string) (v : option json) (o : list (string * json))
  : list (string * json) :=
  match v with
  | Some v' => JsObject.set k v' o
  | None => o
  end.

Definition convertConfigToOpenAIParams (cfg : option GenerateContentConfig)
  : list (string * json) :=
  match cfg with
  | None => []
  | Some c =>
      assign "stop" (stopSequences c)
        (assign "top_p" (topP c)
           (assign "max_tokens" (maxOutputTokens c)
              (assign "temperature" (temperature c) [])))
  end.

Definition prepareGenerateContentRequest (this : OpenAICompatibleProvider)
    (request : GenerateContentParameters) (isChatCompletion : bool)
  : list (string * json) :=
  if isChatCompletion then
    JsObject.spread
      (JsObject.literal
         [("model", JStr (model (this_config this)));
          ("messages", JArr (convertContentsToMessages (contents request)))])
      (convertConfigToOpenAIParams (config request))
  else
    JsObject.spread
      (JsObject.literal
         [("model", JStr (model (this_config this)));
          ("prompt", JStr (convertContentsToPrompt (contents request)))])
      (convertConfigToOpenAIParams (config request)).

(** [{...o, ...src}] on string maps: the properties of [src] win. *)
Definition spread_map (o src : gmap string string) : gmap string string :=
  src ∪ o.

(** The headers [makeApiRequest] sends: the content type, the static
    headers of the configuration spread over it, then the header
    derived from the API key. *)
Definition composeHeaders (this : OpenAICompatibleProvider) (url : string)
  : gmap string string :=
  let headers0 :=
    spread_map {[ "Content-Type" := "application/json" ]}
               (default ∅ (headers (this_config this))) in
  match apiKey (this_config this) with
  | Some key =>
      if JsString.truthy key then
        if JsString.includes url "openai.com" || JsString.includes url "api.openai.com"
        then <[ "Authorization" := "Bearer " +:+ key ]> headers0
        else if JsString.includes url "openrouter.ai"
        then <[ "Authorization" := "Bearer " +:+ key ]> headers0
        else <[ "X-API-Key" := key ]> headers0
      else headers0
  | None => headers0
  end.

(** [`${t.substring(0, 200)}${t.length > 200 ? '...' : ''}`] *)
Definition excerpt (t : string) : string :=
  JsString.substring t 0 200 +:+
  (if (200 <? String.length t)%nat then "..." else "").

(** [t.trim().startsWith('{') || t.trim().startsWith('[')] *)
Definition looksLikeJson (t : string) : bool :=
  JsString.startsWith (JsString.trim t) "{" ||
  JsString.startsWith (JsString.trim t) "[".

(** The three [console.log] lines of the source write to the console and
    are not part of the log of requests. *)
Definition makeApiRequest (this : OpenAICompatibleProvider) (url : string)
    (requestBody : list (string * json)) : IO json :=
  let headers := composeHeaders this url in
  let* response :=
    try_catch
      (js_fetch {| req_url := url; req_method := "POST";
                   req_headers := headers;
                   req_body := Json.stringify (JObj requestBody) |})
      (fun error =>
         throw (Error ("Network error when making API request: " +:+ message error))) in
  if negb (ok response) then
    let* errorText :=
      try_catch (response_text response)
        (fun error => ret ("Failed to read error response: " +:+ message error)) in
    if looksLikeJson errorText then
      try_catch
        (let* errorJson := JSON_parse errorText in
         throw (Error ("API request failed with status " +:+ pretty (status response) +:+
                       ": " +:+ Json.stringify errorJson)))
        (fun jsonError =>
           throw (Error ("API request failed with status " +:+ pretty (status response) +:+
                         ": " +:+ errorText)))
    else
      throw (Error ("API request failed with status " +:+ pretty (status response) +:+
                    ". Server returned: " +:+ excerpt errorText))
  else
    let* responseText :=
      try_catch (response_text response)
        (fun error => throw (Error ("Failed to read response: " +:+ message error))) in
    if looksLikeJson responseText then
      try_catch (JSON_parse responseText)
        (fun error =>
           throw (Error ("Failed to parse JSON response: " +:+ message error +:+
                         ". Response text: " +:+ excerpt responseText)))
    else
      throw (Error ("API returned non-JSON response. Response starts with: " +:+
                    excerpt responseText)).

(** [v || ''] *)
Definition or_empty (v : option json) : json :=
  match v with
  | Some v' => if Json.truthy v' then v' else JStr ""
  | None => JStr ""
  end.

(** The part [{text: v}].  The field is declared [string]; a value of
    another type is kept among the other properties of the part, where
    no reader takes it for a text. *)
Definition part_of_text (v : json) : Part :=
  match v with
  | JStr s => textPart s
  | _ => {| text := None; functionCall := None; other := [("text", v)] |}
  end.

(** [choice.message?.content || ''] for a chat completion,
    [choice.text || ''] for a completion. *)
Definition choiceText (choice : option json) (isChatCompletion : bool)
  : Outcome json :=
  if isChatCompletion then
    JsDyn.outcome_bind (JsDyn.prop choice "message")
      (fun m => Returned (or_empty (JsDyn.opt_prop m "content")))
  else
    JsDyn.outcome_bind (JsDyn.prop choice "text")
      (fun t => Returned (or_empty t)).

Definition parseCandidates (response : json) (isChatCompletion : bool)
  : Outcome (option (list Candidate)) :=
  JsDyn.outcome_bind (JsDyn.prop (Some response) "choices") (fun choices =>
  if JsDyn.truthy choices then
    JsDyn.outcome_bind (JsDyn.prop choices "length") (fun len =>
    JsDyn.outcome_bind (JsDyn.gt_zero len) (fun positive =>
    if positive : bool then
      JsDyn.outcome_bind (JsDyn.prop choices "0") (fun choice =>
      JsDyn.outcome_bind (choiceText choice isChatCompletion) (fun t =>
      Returned (Some [ {| content :=
                 Some {| role := Some "model"; parts := Some [part_of_text t] |} |} ])))
    else Returned None))
  else Returned None).

Definition parseUsage (response : json) : Outcome (option UsageMetadata) :=
  JsDyn.outcome_bind (JsDyn.prop (Some response) "usage") (fun usage =>
  if JsDyn.truthy usage then
    Returned (Some {| promptTokenCount := JsDyn.opt_prop usage "prompt_tokens";
                      candidatesTokenCount := JsDyn.opt_prop usage "completion_tokens";
                      totalTokenCount := JsDyn.opt_prop usage "total_tokens" |})
  else Returned None).

Definition parseGenerateContentResponse (response : json) (isChatCompletion : bool)
  : Outcome GenerateContentResponse :=
  JsDyn.outcome_bind (parseCandidates response isChatCompletion) (fun cands =>
  JsDyn.outcome_bind (parseUsage response) (fun usage =>
  Returned {| candidates := cands; usageMetadata := usage |})).

Definition generateContent (this : OpenAICompatibleProvider)
    (request : GenerateContentParameters) : IO GenerateContentResponse :=
  let isChatCompletion :=
    JsString.includes (apiUrl (this_config this)) "chat/completions" in
  let requestBody := prepareGenerateContentRequest this request isChatCompletion in
  let* response := makeApiRequest this (apiUrl (this_config this)) requestBody in
  lift (parseGenerateContentResponse response isChatCompletion).

(** The generator that yields the one response is the list of what it
    yields. *)
Definition generateContentStream (this : OpenAICompatibleProvider)
    (request : GenerateContentParameters) : IO (list GenerateContentResponse) :=
  let* response := generateContent this request in
  ret [response].

Record CountTokensParameters : Type := mkCountParams {
  countModel : string;
  countContents : ContentListUnion
}.

Record CountTokensResponse : Type := mkCountResponse {
  totalTokens : Z
}.

Record EmbedContentParameters : Type := mkEmbedParams {
  embedModel : string;
  embedContents : ContentListUnion
}.

Record EmbedContentResponse : Type := mkEmbedResponse {
  embeddings : list (list json)
}.

Definition countTokens (this : OpenAICompatibleProvider)
    (request : CountTokensParameters) : IO CountTokensResponse :=
  ret {| totalTokens := 0 |}.

Definition embedContent (this : OpenAICompatibleProvider)
    (request : EmbedContentParameters) : IO EmbedContentResponse :=
  throw (Error "Embedding not supported for this provider").

Definition getProviderName (this : OpenAICompatibleProvider) : string :=
  "OpenAICompatible".

Definition createLLMProvider (config : LLMProviderConfig) : OpenAICompatibleProvider :=
  new_OpenAICompatibleProvider config.

End LlmProvider.

(** ** contentGenerator.ts *)

Module ContentGenerator.

Inductive AuthType : Type :=
| LOGIN_WITH_GOOGLE
| USE_GEMINI
| USE_VERTEX_AI
| CLOUD_SHELL.

(** The string an enum member stands for. *)
Definition AuthType_value (a : AuthType) : string :=
  match a with
  | LOGIN_WITH_GOOGLE => "oauth-personal"
  | USE_GEMINI => "gemini-api-key"
  | USE_VERTEX_AI => "vertex-ai"
  | CLOUD_SHELL => "cloud-shell"
  end.

(** The object that the enumeration is at run time, one property for
    each member; [AuthType.X] reads the property [X] and is [undefined]
    for a name the enumeration does not declare. *)
Definition AuthType_object : list (string * string) :=
  [("LOGIN_WITH_GOOGLE", AuthType_value LOGIN_WITH_GOOGLE);
   ("USE_GEMINI", AuthType_value USE_GEMINI);
   ("USE_VERTEX_AI", AuthType_value USE_VERTEX_AI);
   ("CLOUD_SHELL", AuthType_value CLOUD_SHELL)].

Fixpoint property (name : string) (object : list (string * string)) : option string :=
  match object with
  | [] => None
  | (k, v) :: rest => if String.eqb k name then Some v else property name rest
  end.

Definition AuthType_member (name : string) : option string :=
  property name AuthType_object.

(** [authType] holds the value found at run time: one of the strings of
    [AuthType], any other string the settings carry, or [undefined]. *)
Record ContentGeneratorConfig : Type := mkGeneratorConfig {
  model : string;
  apiKey : option string;
  vertexai : option bool;
  authType : option string;
  proxy : option string
}.

(** What the function reads of [process]. *)
Record Process : Type := mkProcess {
  env : gmap string string;
  version : string;
  platform : string;
  arch : string
}.

(** [config.authType === AuthType.X] *)
Definition authType_is (config : ContentGeneratorConfig) (a : AuthType) : bool :=
  match authType config with
  | Some s => String.eqb s (AuthType_value a)
  | None => false
  end.

(** [`${config.authType}`] *)
Definition authType_text (config : ContentGeneratorConfig) : string :=
  default "undefined" (authType config).

(** The generators the factory can hand back.  [CodeAssist] stands for
    the result of [createCodeAssistContentGenerator] and [GoogleGenAI]
    for the client that [GoogleGenAIWrapper] wraps, both called with the
    arguments recorded here; [gcConfig] is passed through unread and is
    left out. *)
Inductive Generator : Type :=
| OpenAICompatible (provider : LlmProvider.OpenAICompatibleProvider)
| CodeAssist (httpHeaders : gmap string string) (auth : string)
             (sessionId : option string)
| GoogleGenAIWrapper (key : option string) (vertex : option bool)
                     (httpHeaders : gmap string string).

(** The state in which a promise settles. *)
Inductive Promise (A : Type) : Type :=
| Fulfilled (a : A)
| Rejected (e : JsError).
Arguments Fulfilled {A} a.
Arguments Rejected {A} e.

(** The call of an [async function]: the call itself never throws, it
    returns a promise, fulfilled with what the body returns and rejected
    with what the body throws (a promise that the body returns is
    adopted, so its rejection is a failure of the body here). *)
Definition async {A} (body : Outcome A) : Outcome (Promise A) :=
  match body with
  | Returned a => Returned (Fulfilled a)
  | Thrown e => Returned (Rejected e)
  end.

(** The two functions that the factory calls and that these files do not
    hold: [createCodeAssistContentGenerator] (code_assist/codeAssist.js)
    and the constructor of [GoogleGenAI] (@google/genai).  Each may fail
    on the arguments it is given; the field gives the error when it
    does, by a throw or by the rejection of the promise it returns. *)
Record Libraries : Type := mkLibraries {
  createCodeAssistContentGenerator_error :
    gmap string string -> string -> option string -> option JsError;
  GoogleGenAI_error :
    option string -> option bool -> gmap string string -> option JsError
}.

(** [process.env.CLI_VERSION || process.version] *)
Definition cliVersion (process : Process) : string :=
  match env process !! "CLI_VERSION" with
  | Some v => if JsString.truthy v then v else version process
  | None => version process
  end.

Definition httpOptions_headers (process : Process) : gmap string string :=
  {[ "User-Agent" :=
       "GeminiCLI/" +:+ cliVersion process +:+ " (" +:+ platform process +:+
       "; " +:+ arch process +:+ ")" ]}.

(** [createCodeAssistContentGenerator(httpOptions, config.authType, gcConfig, sessionId)] *)
Definition createCodeAssistContentGenerator (libs : Libraries)
    (httpHeaders : gmap string string) (auth : string) (sessionId : option string)
  : Outcome Generator :=
  match createCodeAssistContentGenerator_error libs httpHeaders auth sessionId with
  | Some e => Thrown e
  | None => Returned (CodeAssist httpHeaders auth sessionId)
  end.

(** [new GoogleGenAIWrapper(new GoogleGenAI({apiKey, vertexai, httpOptions}))] *)
Definition new_GoogleGenAIWrapper (libs : Libraries)
    (key : option string) (vertex : option bool) (httpHeaders : gmap string string)
  : Outcome Generator :=
  match GoogleGenAI_error libs key vertex httpHeaders with
  | Some e => Thrown e
  | None => Returned (GoogleGenAIWrapper key vertex httpHeaders)
  end.

(** The body of [createContentGenerator].  The promise of
    [createLLMProvider] is always fulfilled, with the provider. *)
Definition createContentGenerator_body (libs : Libraries) (process : Process)
    (config : ContentGeneratorConfig) (sessionId : option string)
  : Outcome Generator :=
  let llmApiUrl := env process !! "LLM_API_URL" in
  let llmApiKey := env process !! "LLM_API_KEY" in
  let llmModel := env process !! "LLM_MODEL" in
  if truthy_opt llmApiUrl && truthy_opt llmApiKey && truthy_opt llmModel then
    let llmProviderConfig :=
      {| LlmProvider.apiUrl := default "" llmApiUrl;
         LlmProvider.apiKey := llmApiKey;
         LlmProvider.model := default "" llmModel;
         LlmProvider.headers := Some (httpOptions_headers process);
         LlmProvider.proxy := proxy config |} in
    Returned (OpenAICompatible (LlmProvider.createLLMProvider llmProviderConfig))
  else if authType_is config LOGIN_WITH_GOOGLE || authType_is config CLOUD_SHELL then
    createCodeAssistContentGenerator libs
      (httpOptions_headers process) (authType_text config) sessionId
  else if authType_is config USE_GEMINI || authType_is config USE_VERTEX_AI then
    new_GoogleGenAIWrapper libs
      (match apiKey config with
       | Some k => if String.eqb k "" then None else Some k
       | None => None
       end)
      (vertexai config)
      (httpOptions_headers process)
  else
    Thrown (Error ("Error creating contentGenerator: Unsupported authType: " +:+
                   authType_text config)).

(** [export async function createContentGenerator] *)
Definition createContentGenerator (libs : Libraries) (process : Process)
    (config : ContentGeneratorConfig) (sessionId : option string)
  : Outcome (Promise Generator) :=
  async (createContentGenerator_body libs process config sessionId).

(** What [createContentGeneratorConfig] reads of the [Config] object. *)
Record Config : Type := mkConfigObject {
  getModel : string;
  getProxy : option string
}.

(** [process.env.X || undefined] *)
Definition env_or_undefined (process : Process) (name : string) : option string :=
  match env process !! name with
  | Some v => if JsString.truthy v then Some v else None
  | None => None
  end.

(** [createContentGeneratorConfig].  [DEFAULT_GEMINI_MODEL] is the
    constant of [config/models.js]; [authType] holds the value found at
    run time.  The call of [getEffectiveModel] in the branch of the Gemini
    key starts a check that the function neither waits for nor reads, so
    the configuration returned does not depend on it. *)
Definition createContentGeneratorConfig (DEFAULT_GEMINI_MODEL : string)
    (process : Process) (config : Config) (authType : option string)
  : ContentGeneratorConfig :=
  let llmApiUrl := env process !! "LLM_API_URL" in
  let llmApiKey := env process !! "LLM_API_KEY" in
  let llmModel := env process !! "LLM_MODEL" in
  if truthy_opt llmApiUrl && truthy_opt llmApiKey && truthy_opt llmModel then
    {| model := default "" llmModel;
       apiKey := llmApiKey;
       vertexai := None;
       authType := Some (AuthType_value USE_GEMINI);
       proxy := getProxy config |}
  else
    let geminiApiKey := env_or_undefined process "GEMINI_API_KEY" in
    let googleApiKey := env_or_undefined process "GOOGLE_API_KEY" in
    let googleCloudProject := env_or_undefined process "GOOGLE_CLOUD_PROJECT" in
    let googleCloudLocation := env_or_undefined process "GOOGLE_CLOUD_LOCATION" in
    let effectiveModel :=
      if JsString.truthy (getModel config) then getModel config
      else DEFAULT_GEMINI_MODEL in
    let contentGeneratorConfig :=
      {| model := effectiveModel;
         apiKey := None;
         vertexai := None;
         authType := authType;
         proxy := getProxy config |} in
    if authType_is contentGeneratorConfig LOGIN_WITH_GOOGLE ||
       authType_is contentGeneratorConfig CLOUD_SHELL
    then contentGeneratorConfig
    else if authType_is contentGeneratorConfig USE_GEMINI && is_Some_b geminiApiKey
    then {| model := effectiveModel;
            apiKey := geminiApiKey;
            vertexai := Some false;
            authType := authType;
            proxy := getProxy config |}
    else if authType_is contentGeneratorConfig USE_VERTEX_AI &&
            (is_Some_b googleApiKey ||
             (is_Some_b googleCloudProject && is_Some_b googleCloudLocation))
    then {| model := effectiveModel;
            apiKey := googleApiKey;
            vertexai := Some true;
            authType := authType;
            proxy := getProxy config |}
    else contentGeneratorConfig.

End ContentGenerator.

(** ** MultiLLMConfigDialog.tsx: the state of the dialog and its keys *)

Module MultiLLMConfigDialog.

(** ['url' | 'key' | 'model'] *)
Inductive Field : Type :=
| url
| key
| model.

(** The five [useState] cells of the component. *)
Record State : Type := mkState {
  llmApiUrl : string;
  llmApiKey : string;
  llmModel : string;
  currentField : Field;
  errorMessage : option string
}.

(** The flags of an ink [Key] that the handler reads. *)
Record Key : Type := mkKey {
  escape : bool;
  tab : bool;
  return_ : bool;
  backspace : bool
}.

(** What the handler does outside the component, in order: an assignment
    to [process.env], the call of [fs.writeFileSync] on the [.env] file
    of the working directory, and the call of [onSelect], whose second
    argument is [SettingScope.User] at both call sites. *)
Inductive Effect : Type :=
| SetEnv (name value : string)
| WriteEnvFile (content : string)
| OnSelect (authMethod : option string).

(** [AuthType.USE_MULTI_LLM], read from the enumeration of
    contentGenerator.ts, which declares no member of that name. *)
Definition USE_MULTI_LLM : option string :=
  ContentGenerator.AuthType_member "USE_MULTI_LLM".

(** [useState(process.env.X || '')] and the two other initial values. *)
Definition initialState (env : gmap string string) : State :=
  let initial (name : string) :=
    match env !! name with
    | Some v => v
    | None => ""
    end in
  {| llmApiUrl := initial "LLM_API_URL";
     llmApiKey := initial "LLM_API_KEY";
     llmModel := initial "LLM_MODEL";
     currentField := url;
     errorMessage := None |}.

Definition setErrorMessage (m : string) (st : State) : State :=
  {| llmApiUrl := llmApiUrl st; llmApiKey := llmApiKey st; llmModel := llmModel st;
     currentField := currentField st; errorMessage := Some m |}.

Definition setCurrentField (f : Field) (st : State) : State :=
  {| llmApiUrl := llmApiUrl st; llmApiKey := llmApiKey st; llmModel := llmModel st;
     currentField := f; errorMessage := errorMessage st |}.

Definition setLlmApiUrl (f : string -> string) (st : State) : State :=
  {| llmApiUrl := f (llmApiUrl st); llmApiKey := llmApiKey st; llmModel := llmModel st;
     currentField := currentField st; errorMessage := errorMessage st |}.

Definition setLlmApiKey (f : string -> string) (st : State) : State :=
  {| llmApiUrl := llmApiUrl st; llmApiKey := f (llmApiKey st); llmModel := llmModel st;
     currentField := currentField st; errorMessage := errorMessage st |}.

Definition setLlmModel (f : string -> string) (st : State) : State :=
  {| llmApiUrl := llmApiUrl st; llmApiKey := llmApiKey st; llmModel := f (llmModel st);
     currentField := currentField st; errorMessage := errorMessage st |}.

(** The text written to the [.env] file. *)
Definition envContent (st : State) : string :=
  "LLM_API_URL=" +:+ Json.DQ +:+ llmApiUrl st +:+ Json.DQ +:+ JsString.LF +:+
  "LLM_API_KEY=" +:+ Json.DQ +:+ llmApiKey st +:+ Json.DQ +:+ JsString.LF +:+
  "LLM_MODEL=" +:+ Json.DQ +:+ llmModel st +:+ Json.DQ +:+ JsString.LF.

(** [handleSave].  [writeFails] tells whether [fs.writeFileSync] throws
    on the text it is given; the [console.error] line of the handler of
    that failure is left out. *)
Definition handleSave (writeFails : string -> bool) (st : State)
  : State * list Effect :=
  if negb (JsString.truthy (llmApiUrl st)) ||
     negb (JsString.truthy (llmApiKey st)) ||
     negb (JsString.truthy (llmModel st))
  then (setErrorMessage "All fields are required to configure Multi-LLM provider." st, [])
  else
    let st' :=
      if writeFails (envContent st)
      then setErrorMessage
             "Failed to save configuration to .env file. Configuration will only persist for this session."
             st
      else st in
    (st', [SetEnv "LLM_API_URL" (llmApiUrl st);
           SetEnv "LLM_API_KEY" (llmApiKey st);
           SetEnv "LLM_MODEL" (llmModel st);
           WriteEnvFile (envContent st);
           OnSelect USE_MULTI_LLM]).

Definition handleCancel (st : State) : State * list Effect :=
  (st, [OnSelect None]).

(** The text input of one field: [prev.slice(0, -1)] on backspace, else
    [prev + input] when there is input. *)
Definition edit (input : string) (k : Key) (prev : string) : string :=
  if backspace k then dropLast prev
  else if (0 <? String.length input)%nat then prev +:+ input
  else prev.

(** The callback given to [useInput]. *)
Definition handleInput (writeFails : string -> bool) (st : State)
    (input : string) (k : Key) : State * list Effect :=
  if escape k then handleCancel st
  else if tab k then
    match currentField st with
    | url => (setCurrentField key st, [])
    | key => (setCurrentField model st, [])
    | model => (setCurrentField url st, [])
    end
  else if return_ k then
    match currentField st with
    | model => handleSave writeFails st
    | url => (setCurrentField key st, [])
    | key => (setCurrentField model st, [])
    end
  else
    match currentField st with
    | url => (setLlmApiUrl (edit input k) st, [])
    | key => (setLlmApiKey (edit input k) st, [])
    | model => (setLlmModel (edit input k) st, [])
    end.

(** The assignments to [process.env] among the effects, applied. *)
Fixpoint applyEnv (effects : list Effect) (env : gmap string string)
  : gmap string string :=
  match effects with
  | [] => env
  | SetEnv name value :: rest => applyEnv rest (<[ name := value ]> env)
  | _ :: rest => applyEnv rest env
  end.

End MultiLLMConfigDialog.

(** ** Vocabulary of the properties *)

(** ['] for the double quote, to write JSON texts legibly. *)
Fixpoint dq (s : string) : string :=
  match s with
  | EmptyString => EmptyString
  | String c s' => String (if Ascii.eqb c "'" then "034"%char else c) (dq s')
  end.

Definition all_lower (s : string) : bool := JsDyn.all_chars is_lower s.

(** The text [t] without its opening fence marker: three backquotes, a
    run of lower-case letters and a line feed at the very start are
    removed; a text that does not start so is left as it is. *)
Inductive OpenFenceStripped (t : string) : string -> Prop :=
| fence_opened (lang rest : string) :
    all_lower lang = true ->
    t = FENCE +:+ lang +:+ JsString.LF +:+ rest ->
    OpenFenceStripped t rest
| fence_not_opened :
    (forall lang rest, all_lower lang = true ->
                       t <> FENCE +:+ lang +:+ JsString.LF +:+ rest) ->
    OpenFenceStripped t t.

(** The text [t] without its closing marker: a line feed and three
    backquotes at the very end are removed; a text that does not end so is
    left as it is. *)
Inductive CloseFenceStripped (t : string) : string -> Prop :=
| fence_closed (body : string) :
    t = body +:+ JsString.LF +:+ FENCE ->
    CloseFenceStripped t body
| fence_not_closed :
    (forall body, t <> body +:+ JsString.LF +:+ FENCE) ->
    CloseFenceStripped t t.

(** The response whose first candidate holds the given parts. *)
Definition response_of_parts (ps : list Part) : GenerateContentResponse :=
  {| candidates := Some [ {| content := Some {| role := Some "model"; parts := Some ps |} |} ];
     usageMetadata := None |}.

(** The text parts of the first candidate, none when there is no
    candidate or no part. *)
Definition firstCandidateTexts (response : GenerateContentResponse) : list string :=
  textSegments (default [] (first_candidate_parts response)).

(** The reading under which the two markers go together: the extracted
    text is the concatenation itself, unless the concatenation is an
    opening marker, a body and the closing marker, and then it is the
    body. *)
Definition fences_stripped_only_together (response : GenerateContentResponse) : Prop :=
  let t := JsString.join "" (firstCandidateTexts response) in
  forall u, getResponseText response = Some u ->
    u = t \/
    exists lang body, all_lower lang = true /\
      t = FENCE +:+ lang +:+ JsString.LF +:+ body +:+ JsString.LF +:+ FENCE /\
      u = body.

(** A response whose only text opens a fence and never closes it. *)
Definition open_fence_only : GenerateContentResponse :=
  response_of_parts [textPart ("```js" +:+ JsString.LF +:+ "foo")].

(** Parts with an empty text and one function call. *)
Definition empty_text_and_call : list Part :=
  [textPart ""; callPart (JObj [("name", JStr "f")])].





(** Two turns of texts. *)
Definition two_text_turns : LlmProvider.ContentListUnion :=
  LlmProvider.Many
    [LlmProvider.ItemString "hi";
     LlmProvider.ItemContent
       {| role := Some "model"; parts := Some [textPart "Hello"; textPart "world"] |}].






(** The request that carries [props] to the endpoint of the provider. *)
Definition post_of (this : LlmProvider.OpenAICompatibleProvider) (url : string)
    (props : list (string * json)) : Request :=
  {| req_url := url;
     req_method := "POST";
     req_headers := LlmProvider.composeHeaders this url;
     req_body := Json.stringify (JObj props) |}.

(** The shape of a body: [messages] and no [prompt] for a chat endpoint,
    [prompt] and no [messages] otherwise. *)
Definition body_shape (chat : bool) (props : list (string * json)) : Prop :=
  if chat
  then is_Some (Json.lookup "messages" props) /\ Json.lookup "prompt" props = None
  else is_Some (Json.lookup "prompt" props) /\ Json.lookup "messages" props = None.

(** A call of [generateContent] adds one request to the log, to the
    configured endpoint, with a body of the shape that goes with the
    endpoint URL. *)
Definition sends_shaped_body (this : LlmProvider.OpenAICompatibleProvider)
    (request : LlmProvider.GenerateContentParameters)
    (rt : Runtime) (log : list Request) : Prop :=
  let url := LlmProvider.apiUrl (LlmProvider.this_config this) in
  exists props,
    snd (LlmProvider.generateContent this request rt log)
    = log ++ [post_of this url props] /\
    body_shape (JsString.includes url "chat/completions") props.

(** The provider after its configuration got another endpoint URL. *)
Definition with_apiUrl (url : string) (this : LlmProvider.OpenAICompatibleProvider)
  : LlmProvider.OpenAICompatibleProvider :=
  let c := LlmProvider.this_config this in
  LlmProvider.new_OpenAICompatibleProvider
    {| LlmProvider.apiUrl := url;
       LlmProvider.apiKey := LlmProvider.apiKey c;
       LlmProvider.model := LlmProvider.model c;
       LlmProvider.headers := LlmProvider.headers c;
       LlmProvider.proxy := LlmProvider.proxy c |}.

(** The kinds of error of the pipeline, told apart by the way their
    messages start. *)
Definition is_api_error (e : JsError) : bool :=
  JsString.startsWith (message e) "API request failed with status ".

Definition is_network_error (e : JsError) : bool :=
  JsString.startsWith (message e) "Network error".

(** The reading under which the message of an API error carries the
    status code and what the body parses to or, for a body that does not
    parse, an excerpt of it. *)
Definition api_error_carries_json_or_excerpt
    (this : LlmProvider.OpenAICompatibleProvider) (url : string)
    (props : list (string * json)) (rt : Runtime) (log : list Request) : Prop :=
  forall resp t,
    fetch rt log (post_of this url props) = Resolved resp ->
    ok resp = false ->
    body resp = BodyText t ->
    exists e,
      fst (LlmProvider.makeApiRequest this url props rt log) = Thrown e /\
      is_api_error e = true /\
      JsString.includes (message e) (pretty (status resp)) = true /\
      match JsonParser.parse t with
      | Some errorJson => JsString.includes (message e) (Json.stringify errorJson) = true
      | None => JsString.includes (message e) (LlmProvider.excerpt t) = true
      end.

(** The reading under which a body that cannot be read makes a network
    error. *)
Definition unreadable_body_is_network_error
    (this : LlmProvider.OpenAICompatibleProvider) (url : string)
    (props : list (string * json)) (rt : Runtime) (log : list Request) : Prop :=
  forall resp cause,
    fetch rt log (post_of this url props) = Resolved resp ->
    ok resp = false ->
    body resp = BodyFailed cause ->
    exists e,
      fst (LlmProvider.makeApiRequest this url props rt log) = Thrown e /\
      is_network_error e = true /\
      is_api_error e = false.

(** A runtime whose network gives the same answer to every request. *)
Definition answering (st : Z) (b : BodyRead) : Runtime :=
  {| fetch := fun _ _ => Resolved {| status := st; body := b |};
     syntaxErrorMessage := fun _ => "Unexpected token" |}.

Definition local_provider : LlmProvider.OpenAICompatibleProvider :=
  LlmProvider.createLLMProvider
    {| LlmProvider.apiUrl := "http://localhost:8080/v1/chat/completions";
       LlmProvider.apiKey := Some "secret";
       LlmProvider.model := "m";
       LlmProvider.headers := None;
       LlmProvider.proxy := None |}.

Definition local_url : string := "http://localhost:8080/v1/chat/completions".

Fixpoint repeat_char (c : ascii) (n : nat) : string :=
  match n with
  | O => EmptyString
  | S n' => String c (repeat_char c n')
  end.

(** An error body of 251 characters that opens a brace and is not JSON. *)
Definition long_broken_json : string := "{" +:+ repeat_char "x" 250.

(** The name of the header derived from the API key, and its value. *)
Definition derived_header (url : string) : string :=
  if JsString.includes url "openai.com" || JsString.includes url "openrouter.ai"
  then "Authorization" else "X-API-Key".

Definition derived_value (url key : string) : string :=
  if JsString.includes url "openai.com" || JsString.includes url "openrouter.ai"
  then "Bearer " +:+ key else key.

(** The reading under which the derived header wins and the content type
    is always JSON. *)
Definition derived_wins_and_json_content_type
    (this : LlmProvider.OpenAICompatibleProvider) (url key : string) : Prop :=
  LlmProvider.composeHeaders this url !! derived_header url
    = Some (derived_value url key) /\
  LlmProvider.composeHeaders this url !! "Content-Type" = Some "application/json".

(** A provider whose static headers set a content type and a key header. *)
Definition plain_text_provider : LlmProvider.OpenAICompatibleProvider :=
  LlmProvider.createLLMProvider
    {| LlmProvider.apiUrl := local_url;
       LlmProvider.apiKey := Some "secret";
       LlmProvider.model := "m";
       LlmProvider.headers :=
         Some {[ "Content-Type" := "text/plain"; "X-API-Key" := "static" ]};
       LlmProvider.proxy := None |}.

(** The reading under which the error of [embedContent] gives the name of
    the provider. *)
Definition embed_error_names_provider
    (this : LlmProvider.OpenAICompatibleProvider)
    (request : LlmProvider.EmbedContentParameters)
    (rt : Runtime) (log : list Request) : Prop :=
  exists e,
    LlmProvider.embedContent this request rt log = (Thrown e, log) /\
    JsString.includes (message e) (LlmProvider.getProviderName this) = true.

(** The three settings of the generic provider are all there. *)
Definition genericConfigured (process : ContentGenerator.Process) : bool :=
  truthy_opt (ContentGenerator.env process !! "LLM_API_URL") &&
  truthy_opt (ContentGenerator.env process !! "LLM_API_KEY") &&
  truthy_opt (ContentGenerator.env process !! "LLM_MODEL").

(** The auth types that the factory has a branch for, as strings. *)
Definition vendor_auth (authType : option string) : bool :=
  match authType with
  | Some a =>
      String.eqb a "oauth-personal" || String.eqb a "cloud-shell" ||
      String.eqb a "gemini-api-key" || String.eqb a "vertex-ai"
  | None => false
  end.

(** How a message names an auth type: by its string, and by
    [undefined] when there is none. *)
Definition auth_name (authType : option string) : string :=
  match authType with
  | Some a => a
  | None => "undefined"
  end.

(** The configuration error of the factory for an auth type. *)
Definition unsupported_auth_error (authType : option string) : JsError :=
  Error ("Error creating contentGenerator: Unsupported authType: " +:+
         auth_name authType).

(** The process with the three settings of the generic provider taken
    out of its environment. *)
Definition without_generic (process : ContentGenerator.Process)
  : ContentGenerator.Process :=
  {| ContentGenerator.env :=
       delete "LLM_API_URL"
         (delete "LLM_API_KEY" (delete "LLM_MODEL" (ContentGenerator.env process)));
     ContentGenerator.version := ContentGenerator.version process;
     ContentGenerator.platform := ContentGenerator.platform process;
     ContentGenerator.arch := ContentGenerator.arch process |}.

(** Libraries that never fail. *)
Definition reliable (libs : ContentGenerator.Libraries) : Prop :=
  (forall h a s, ContentGenerator.createCodeAssistContentGenerator_error libs h a s = None) /\
  (forall k v h, ContentGenerator.GoogleGenAI_error libs k v h = None).

Definition working_libraries : ContentGenerator.Libraries :=
  {| ContentGenerator.createCodeAssistContentGenerator_error := fun _ _ _ => None;
     ContentGenerator.GoogleGenAI_error := fun _ _ _ => None |}.

(** The second part of the claim as it is written: when no branch
    applies, the call of the factory itself throws, and the message of
    the error names the auth type. *)
Definition fails_synchronously
    (libs : ContentGenerator.Libraries) (process : ContentGenerator.Process)
    (config : ContentGenerator.ContentGeneratorConfig) (sessionId : option string)
  : Prop :=
  genericConfigured process = false ->
  vendor_auth (ContentGenerator.authType config) = false ->
  exists e,
    ContentGenerator.createContentGenerator libs process config sessionId = Thrown e /\
    JsString.includes (message e) (auth_name (ContentGenerator.authType config)) = true.

(** A configuration with an auth type that the factory does not know. *)
Definition unknown_auth_config : ContentGenerator.ContentGeneratorConfig :=
  {| ContentGenerator.model := "gemini"; ContentGenerator.apiKey := None;
     ContentGenerator.vertexai := None;
     ContentGenerator.authType := Some "multi-llm";
     ContentGenerator.proxy := None |}.

(** A JSON error body with a space after the colon. *)
Definition spaced_json : string := dq "{'error': 'bad key'}".

Definition some_embed_request : LlmProvider.EmbedContentParameters :=
  {| LlmProvider.embedModel := "m";
     LlmProvider.embedContents := LlmProvider.Single (LlmProvider.ItemString "hi") |}.

(** A process with the three settings of the generic provider, and one
    with two of them. *)
Definition generic_process : ContentGenerator.Process :=
  {| ContentGenerator.env :=
       {[ "LLM_API_URL" := local_url; "LLM_API_KEY" := "secret";
          "LLM_MODEL" := "m" ]};
     ContentGenerator.version := "v20.0.0";
     ContentGenerator.platform := "linux";
     ContentGenerator.arch := "x64" |}.

Definition partial_process : ContentGenerator.Process :=
  {| ContentGenerator.env :=
       {[ "LLM_API_URL" := local_url; "LLM_MODEL" := "m" ]};
     ContentGenerator.version := "v20.0.0";
     ContentGenerator.platform := "linux";
     ContentGenerator.arch := "x64" |}.

(** Case analysis on the test that tells JSON from other text. *)
Ltac case_looks :=
  match goal with
  | |- context [LlmProvider.looksLikeJson ?t] =>
      destruct (LlmProvider.looksLikeJson t) eqn:?
  end.

(** Inputs of the scenarios. *)
Definition hello_world_turn : LlmProvider.ContentItem :=
  LlmProvider.ItemContent
    {| role := Some "model"; parts := Some [textPart "Hello"; textPart "world"] |}.

Definition provider_at (url : string) : LlmProvider.OpenAICompatibleProvider :=
  LlmProvider.createLLMProvider
    {| LlmProvider.apiUrl := url;
       LlmProvider.apiKey := Some "secret";
       LlmProvider.model := "m";
       LlmProvider.headers := None;
       LlmProvider.proxy := None |}.

Definition sampling : LlmProvider.GenerateContentConfig :=
  {| LlmProvider.temperature := Some (JNum 2 (-1));
     LlmProvider.maxOutputTokens := Some (JNum 50 0);
     LlmProvider.topP := Some (JNum 9 (-1));
     LlmProvider.stopSequences := Some (JArr [JStr "STOP"]) |}.

Definition hi_request : LlmProvider.GenerateContentParameters :=
  {| LlmProvider.requestModel := "m";
     LlmProvider.contents := LlmProvider.Single (LlmProvider.ItemString "hi");
     LlmProvider.config := None |}.

(** The answer of a chat endpoint that says [hi] back. *)
Definition echo_chat : Runtime :=
  answering 200 (BodyText (dq "{'choices':[{'message':{'content':'hi'}}]}")).

Definition html_page : string := "<html>" +:+ repeat_char "x" 300.

(** ** Vocabulary of the further properties *)

(** A part carries a function call that the filter keeps. *)
Definition has_call (p : Part) : bool :=
  match functionCall p with
  | Some fc => Json.truthy fc
  | None => false
  end.

(** The chat message [{role, content}] of two strings. *)
Definition chat_message (r c : string) : json :=
  JObj [("role", JStr r); ("content", JStr c)].

(** The names of the sampling parameters on the wire. *)
Definition sampling_keys : list string :=
  ["temperature"; "max_tokens"; "top_p"; "stop"].

(** A JSON value that is an object or an array. *)
Definition is_container (v : json) : bool :=
  match v with
  | JObj _ | JArr _ => true
  | _ => false
  end.

(** The first character of the text after its leading white space is an
    opening brace or bracket. *)
Definition opens_bracket (t : string) : bool :=
  match JsString.trimStart t with
  | String c _ => Ascii.eqb c "{" || Ascii.eqb c "["
  | EmptyString => false
  end.

(** The text has no escape [\u] in it. *)
Definition no_unicode_escape (t : string) : bool :=
  negb (JsString.includes t "\u").

(** Every number of the value is an integer written without fraction
    and exponent, of magnitude at most 2^53: a number that binary64
    holds as it is written. *)
Fixpoint exact_numbers (v : json) : bool :=
  match v with
  | JNum m e => (e =? 0) && (Z.abs m <=? 2 ^ 53)
  | JArr items => forallb exact_numbers items
  | JObj props => forallb (fun kv : string * json => exact_numbers (snd kv)) props
  | _ => true
  end.

(** The errors of [makeApiRequest] on a status in 200-299. *)
Definition not_json_error (t : string) : JsError :=
  Error ("API returned non-JSON response. Response starts with: " +:+
         LlmProvider.excerpt t).

Definition broken_json_error (rt : Runtime) (t : string) : JsError :=
  Error ("Failed to parse JSON response: " +:+ syntaxErrorMessage rt t +:+
         ". Response text: " +:+ LlmProvider.excerpt t).

(** The response with one candidate of role [model] and one text. *)
Definition model_text_response (t : string) (usage : option UsageMetadata)
  : GenerateContentResponse :=
  {| candidates :=
       Some [ {| content := Some {| role := Some "model"; parts := Some [textPart t] |} |} ];
     usageMetadata := usage |}.

(** The text of the first choice of a parsed answer, as a chat endpoint
    and as a completion endpoint give it. *)
Definition first_choice_text (chat : bool) (response : json) : option json :=
  match response with
  | JObj props =>
      match Json.lookup "choices" props with
      | Some (JArr (JObj choice :: _)) =>
          if chat then
            match Json.lookup "message" choice with
            | Some (JObj m) => Json.lookup "content" m
            | _ => None
            end
          else Json.lookup "text" choice
      | _ => None
      end
  | _ => None
  end.

(** A runtime whose network refuses every request. *)
Definition unreachable : Runtime :=
  {| fetch := fun _ _ => Rejected (TypeError "fetch failed");
     syntaxErrorMessage := fun _ => "Unexpected token" |}.

Definition keyless_provider : LlmProvider.OpenAICompatibleProvider :=
  LlmProvider.createLLMProvider
    {| LlmProvider.apiUrl := local_url;
       LlmProvider.apiKey := Some "";
       LlmProvider.model := "m";
       LlmProvider.headers := Some {[ "User-Agent" := "GeminiCLI" ]};
       LlmProvider.proxy := None |}.

(** The process after the assignments to [process.env] among the
    effects. *)
Definition process_after (effects : list MultiLLMConfigDialog.Effect)
    (process : ContentGenerator.Process) : ContentGenerator.Process :=
  {| ContentGenerator.env :=
       MultiLLMConfigDialog.applyEnv effects (ContentGenerator.env process);
     ContentGenerator.version := ContentGenerator.version process;
     ContentGenerator.platform := ContentGenerator.platform process;
     ContentGenerator.arch := ContentGenerator.arch process |}.

(** The three fields of the dialog are filled. *)
Definition complete (st : MultiLLMConfigDialog.State) : bool :=
  JsString.truthy (MultiLLMConfigDialog.llmApiUrl st) &&
  JsString.truthy (MultiLLMConfigDialog.llmApiKey st) &&
  JsString.truthy (MultiLLMConfigDialog.llmModel st).

(** A key with no flag set, and the keys with one flag. *)
Definition plainKey : MultiLLMConfigDialog.Key :=
  {| MultiLLMConfigDialog.escape := false; MultiLLMConfigDialog.tab := false;
     MultiLLMConfigDialog.return_ := false; MultiLLMConfigDialog.backspace := false |}.

Definition tabKey : MultiLLMConfigDialog.Key :=
  {| MultiLLMConfigDialog.escape := false; MultiLLMConfigDialog.tab := true;
     MultiLLMConfigDialog.return_ := false; MultiLLMConfigDialog.backspace := false |}.

Definition returnKey : MultiLLMConfigDialog.Key :=
  {| MultiLLMConfigDialog.escape := false; MultiLLMConfigDialog.tab := false;
     MultiLLMConfigDialog.return_ := true; MultiLLMConfigDialog.backspace := false |}.

Definition backspaceKey : MultiLLMConfigDialog.Key :=
  {| MultiLLMConfigDialog.escape := false; MultiLLMConfigDialog.tab := false;
     MultiLLMConfigDialog.return_ := false; MultiLLMConfigDialog.backspace := true |}.

(** The field of the dialog that has the focus, read and written. *)
Definition focused (st : MultiLLMConfigDialog.State) : string :=
  match MultiLLMConfigDialog.currentField st with
  | MultiLLMConfigDialog.url => MultiLLMConfigDialog.llmApiUrl st
  | MultiLLMConfigDialog.key => MultiLLMConfigDialog.llmApiKey st
  | MultiLLMConfigDialog.model => MultiLLMConfigDialog.llmModel st
  end.

(** A dialog filled for a local endpoint, the focus on the model. *)
Definition filled_dialog : MultiLLMConfigDialog.State :=
  {| MultiLLMConfigDialog.llmApiUrl := local_url;
     MultiLLMConfigDialog.llmApiKey := "secret";
     MultiLLMConfigDialog.llmModel := "llama-3";
     MultiLLMConfigDialog.currentField := MultiLLMConfigDialog.model;
     MultiLLMConfigDialog.errorMessage := None |}.

Definition bare_process : ContentGenerator.Process :=
  {| ContentGenerator.env := ∅;
     ContentGenerator.version := "v20.0.0";
     ContentGenerator.platform := "linux";
     ContentGenerator.arch := "x64" |}.

(** The auth type given to the builder of the configuration is the
    member [a] of the enumeration. *)
Definition auth_eq (authType : option string) (a : ContentGenerator.AuthType) : bool :=
  match authType with
  | Some s => String.eqb s (ContentGenerator.AuthType_value a)
  | None => false
  end.

Definition some_config : ContentGenerator.Config :=
  {| ContentGenerator.getModel := ""; ContentGenerator.getProxy := None |}.

(** A process with keys of the vendor and no generic setting. *)
Definition vendor_process : ContentGenerator.Process :=
  {| ContentGenerator.env :=
       {[ "GEMINI_API_KEY" := "g-key"; "GOOGLE_API_KEY" := "v-key" ]};
     ContentGenerator.version := "v20.0.0";
     ContentGenerator.platform := "linux";
     ContentGenerator.arch := "x64" |}.

(** ** Facts about strings *)

Section StringFacts.

Implicit Types s t u : string.

Lemma app_cons c s t : String c s +:+ t = String c (s +:+ t).
Proof. reflexivity. Qed.

Lemma app_nil_l s : "" +:+ s = s.
Proof. reflexivity. Qed.

Lemma app_nil_r s : s +:+ "" = s.
Proof. induction s as [|c s IH]; [reflexivity|]. by rewrite app_cons, IH. Qed.

Lemma app_assoc s t u : (s +:+ t) +:+ u = s +:+ t +:+ u.
Proof. induction s as [|c s IH]; [reflexivity|]. by rewrite !app_cons, IH. Qed.

Lemma length_app s t :
  String.length (s +:+ t) = (String.length s + String.length t)%nat.
Proof. induction s as [|c s IH]; [reflexivity|]. rewrite app_cons. simpl. by rewrite IH. Qed.

Lemma prefix_app p s : String.prefix p (p +:+ s) = true.
Proof.
  induction p as [|c p IH]; [by destruct s|].
  rewrite app_cons. simpl. by destruct (ascii_dec c c).
Qed.

Lemma prefix_split p s : String.prefix p s = true -> exists r, s = p +:+ r.
Proof.
  revert s. induction p as [|c p IH]; intros s H.
  - by exists s.
  - destruct s as [|d s]; [discriminate|]. simpl in H.
    destruct (ascii_dec c d) as [->|]; [|discriminate].
    destruct (IH s H) as [r ->]. by exists r.
Qed.

Lemma includes_unfold s sub :
  JsString.includes s sub =
  String.prefix sub s ||
  match s with
  | EmptyString => false
  | String _ s' => JsString.includes s' sub
  end.
Proof. by destruct s. Qed.

Lemma includes_prefix s sub : String.prefix sub s = true -> JsString.includes s sub = true.
Proof. intros H. by rewrite includes_unfold, H. Qed.

Lemma includes_app a b c : JsString.includes (a +:+ b +:+ c) b = true.
Proof.
  induction a as [|x a IH].
  - rewrite app_nil_l. apply includes_prefix, prefix_app.
  - rewrite app_cons, includes_unfold, IH. apply orb_true_r.
Qed.

(** [includes] is the substring test. *)
Lemma includes_spec s sub :
  JsString.includes s sub = true <-> exists a b, s = a +:+ sub +:+ b.
Proof.
  split; [|intros (a & b & ->); apply includes_app].
  induction s as [|c s IH]; rewrite includes_unfold.
  - rewrite orb_false_r. intros [r ->]%prefix_split. by exists "", r.
  - intros [[r ->]%prefix_split|(a & b & ->)%IH]%orb_true_iff.
    + by exists "", r.
    + by exists (String c a), b.
Qed.

Lemma includes_app_r a b : JsString.includes (a +:+ b) b = true.
Proof. rewrite <- (app_nil_r b) at 1. apply includes_app. Qed.

Lemma substring_0_app a b : String.substring 0 (String.length a) (a +:+ b) = a.
Proof.
  induction a as [|c a IH]; [by destruct b|].
  rewrite app_cons. simpl. by rewrite IH.
Qed.

Lemma substring_all s : String.substring 0 (String.length s) s = s.
Proof. induction s as [|c s IH]; [reflexivity|]. simpl. by rewrite IH. Qed.

Lemma substring_skip_app a b n :
  String.substring (String.length a) n (a +:+ b) = String.substring 0 n b.
Proof. induction a as [|c a IH]; [reflexivity|]. rewrite app_cons. simpl. apply IH. Qed.

Lemma substring_split s n :
  (n <= String.length s)%nat ->
  s = String.substring 0 n s +:+ String.substring n (String.length s - n) s.
Proof.
  revert n. induction s as [|c s IH]; intros [|n] H; simpl in *; try lia.
  - reflexivity.
  - by rewrite app_nil_l, substring_all.
  - rewrite app_cons. f_equal. apply IH. lia.
Qed.

Lemma substring_length_le s n : (String.length (String.substring 0 n s) <= n)%nat.
Proof.
  revert n. induction s as [|c s IH]; intros [|n]; simpl; try lia.
  specialize (IH n). lia.
Qed.

Lemma substring_short s n :
  (String.length s <= n)%nat -> String.substring 0 n s = s.
Proof.
  revert n. induction s as [|c s IH]; intros [|n] H; simpl in *; try reflexivity; try lia.
  f_equal. apply IH. lia.
Qed.

Lemma endsWith_app a b : JsString.endsWith (a +:+ b) b = true.
Proof.
  unfold JsString.endsWith. rewrite length_app.
  replace (String.length a + String.length b - String.length b)%nat
    with (String.length a) by lia.
  rewrite substring_skip_app, substring_all, String.eqb_refl.
  rewrite andb_true_r. apply Nat.leb_le. lia.
Qed.

Lemma endsWith_split t s :
  JsString.endsWith t s = true ->
  t = String.substring 0 (String.length t - String.length s) t +:+ s.
Proof.
  unfold JsString.endsWith. intros [Hle Heq]%andb_true_iff.
  apply Nat.leb_le in Hle. apply String.eqb_eq in Heq.
  pose proof (substring_split t (String.length t - String.length s)) as H.
  replace (String.length t - (String.length t - String.length s))%nat
    with (String.length s) in H by lia.
  rewrite Heq in H. apply H. lia.
Qed.

End StringFacts.

(** ** Fence markers *)

Section Fences.

Implicit Types s t u : string.

Lemma drop_app a b : JsString.drop (String.length a) (a +:+ b) = b.
Proof. induction a as [|c a IH]; [reflexivity|]. rewrite app_cons. apply IH. Qed.

Lemma skip_lower_app lang c r :
  all_lower lang = true -> is_lower c = false ->
  skip_lower (lang +:+ String c r) = String c r.
Proof.
  induction lang as [|x lang IH]; intros Hl Hc.
  - rewrite app_nil_l. simpl. by rewrite Hc.
  - apply andb_true_iff in Hl as [Hx Hl]. rewrite app_cons. simpl.
    rewrite Hx. by apply IH.
Qed.

Lemma skip_lower_split s :
  exists lang, all_lower lang = true /\ s = lang +:+ skip_lower s.
Proof.
  induction s as [|c s (lang & Hl & Hs)].
  - by exists "".
  - simpl. destruct (is_lower c) eqn:Hc.
    + exists (String c lang). split.
      * unfold all_lower in *. simpl. by rewrite Hc, Hl.
      * rewrite app_cons. by f_equal.
    + by exists "".
Qed.

Lemma LF_app r : JsString.LF +:+ r = String "010" r.
Proof. reflexivity. Qed.

Lemma fence_decompose lang rest :
  all_lower lang = true ->
  skip_lower (JsString.drop 3 (FENCE +:+ lang +:+ JsString.LF +:+ rest))
  = JsString.LF +:+ rest.
Proof.
  intros Hl. change 3%nat with (String.length FENCE). rewrite drop_app.
  rewrite !LF_app. by apply skip_lower_app.
Qed.

Lemma strip_open_fence_spec t : OpenFenceStripped t (strip_open_fence t).
Proof.
  unfold strip_open_fence, JsString.startsWith.
  destruct (String.prefix FENCE t) eqn:Hp.
  - destruct (prefix_split _ _ Hp) as [r ->].
    destruct (skip_lower_split r) as (lang & Hl & Hr).
    change 3%nat with (String.length FENCE). rewrite drop_app.
    destruct (skip_lower r) as [|c rest] eqn:Hs.
    + apply fence_not_opened. intros lang' rest' Hl' Heq.
      apply (inj (String.app FENCE)) in Heq. rewrite Heq, LF_app in Hs.
      by rewrite skip_lower_app in Hs.
    + destruct (Ascii.eqb_spec c "010") as [->|Hc].
      * apply (fence_opened _ lang rest Hl). by rewrite Hr at 1.
      * apply fence_not_opened. intros lang' rest' Hl' Heq.
        apply (inj (String.app FENCE)) in Heq. rewrite Heq, LF_app in Hs.
        rewrite skip_lower_app in Hs by done. by injection Hs as <- _.
  - apply fence_not_opened. intros lang rest _ ->.
    by rewrite prefix_app in Hp.
Qed.

Lemma strip_close_fence_spec t : CloseFenceStripped t (strip_close_fence t).
Proof.
  unfold strip_close_fence.
  destruct (JsString.endsWith t (JsString.LF +:+ FENCE)) eqn:He.
  - apply fence_closed. unfold JsString.substring. rewrite Nat.sub_0_r.
    apply (endsWith_split _ _ He).
  - apply fence_not_closed. intros body ->. by rewrite endsWith_app in He.
Qed.

Lemma OpenFenceStripped_fun t u u' :
  OpenFenceStripped t u -> OpenFenceStripped t u' -> u = u'.
Proof.
  intros [lang rest Hl ->|Hno] [lang' rest' Hl' Heq|Hno']; try done.
  - pose proof (fence_decompose lang rest Hl) as H1.
    rewrite Heq, (fence_decompose lang' rest' Hl') in H1.
    by apply (inj (String.app JsString.LF)) in H1.
  - by destruct (Hno' lang rest Hl).
  - by destruct (Hno lang' rest' Hl').
Qed.

Lemma app_inj_r a b s : a +:+ s = b +:+ s -> a = b.
Proof.
  intros H. assert (String.length a = String.length b) as Hlen.
  { apply (f_equal String.length) in H. rewrite !length_app in H. lia. }
  rewrite <- (substring_0_app a s), H, Hlen. apply substring_0_app.
Qed.

Lemma CloseFenceStripped_fun t u u' :
  CloseFenceStripped t u -> CloseFenceStripped t u' -> u = u'.
Proof.
  intros [body ->|Hno] [body' Heq|Hno']; try done.
  - symmetry. by apply app_inj_r in Heq.
  - by destruct (Hno' body).
  - by destruct (Hno body').
Qed.

End Fences.

(** ** The parser does not depend on its fuel *)

Section ParserFacts.

Import JsonParser.

Implicit Types s r : string.

Lemma skip_ws_length s : (String.length (skip_ws s) <= String.length s)%nat.
Proof.
  induction s as [|c s IH]; simpl; [done|].
  destruct (is_ws c); simpl; lia.
Qed.

Lemma after_char_length c s r : after_char c s = Some r -> String.length s = S (String.length r).
Proof.
  destruct s as [|c' s]; simpl; [done|].
  destruct (Ascii.eqb c' c); [|done]. by intros [= ->].
Qed.

Lemma take_digits_length s :
  String.length s = (String.length (take_digits s).1 + String.length (take_digits s).2)%nat.
Proof.
  induction s as [|c s IH]; simpl; [done|].
  destruct (Ascii.is_nat c); [|done].
  destruct (take_digits s) as [d r]. simpl in *. lia.
Qed.

Lemma some_digits_length s d r :
  some_digits s = Some (d, r) -> (String.length r < String.length s)%nat.
Proof.
  unfold some_digits. pose proof (take_digits_length s) as H.
  destruct (take_digits s) as [[|c d'] r']; [done|].
  intros [= <- <-]. simpl in H. lia.
Qed.

Lemma parse_int_length s d r : parse_int s = Some (d, r) -> (String.length r < String.length s)%nat.
Proof.
  unfold parse_int. destruct (after_char "0" s) as [r'|] eqn:H.
  - intros [= _ <-]. apply after_char_length in H. lia.
  - apply some_digits_length.
Qed.

Lemma parse_frac_length s d r : parse_frac s = Some (d, r) -> (String.length r <= String.length s)%nat.
Proof.
  unfold parse_frac. destruct (after_char "." s) as [r'|] eqn:H.
  - intros H'%some_digits_length. apply after_char_length in H. lia.
  - by intros [= _ <-].
Qed.

Lemma signed_digits_length neg s x r :
  signed_digits neg s = Some (x, r) -> (String.length r < String.length s)%nat.
Proof.
  unfold signed_digits. destruct (some_digits s) as [[d r']|] eqn:H; [|done].
  intros [= _ <-]. by apply some_digits_length in H.
Qed.

Lemma parse_exp_length s x r : parse_exp s = Some (x, r) -> (String.length r <= String.length s)%nat.
Proof.
  destruct s as [|c s]; simpl; [by intros [= _ <-]|].
  destruct (_ || _); [|by intros [= _ <-]].
  destruct (after_char "-" s) as [r'|] eqn:Hm.
  { intros H%signed_digits_length. apply after_char_length in Hm. lia. }
  destruct (after_char "+" s) as [r'|] eqn:Hp.
  { intros H%signed_digits_length. apply after_char_length in Hp. lia. }
  intros H%signed_digits_length. lia.
Qed.

Lemma parse_number_length s v r :
  parse_number s = Some (v, r) -> (String.length r < String.length s)%nat.
Proof.
  unfold parse_number.
  assert (exists neg s1,
            match after_char "-" s with
            | Some r0 => (true, r0)
            | None => (false, s)
            end = (neg, s1) /\ (String.length s1 <= String.length s)%nat) as (neg & s1 & -> & Hs1).
  { destruct (after_char "-" s) as [r0|] eqn:H; eexists _, _; split; try done.
    apply after_char_length in H. lia. }
  destruct (parse_int s1) as [[i s2]|] eqn:Hi; [|done].
  destruct (parse_frac s2) as [[f s3]|] eqn:Hf; [|done].
  destruct (parse_exp s3) as [[x s4]|] eqn:Hx; [|done].
  intros [= _ <-].
  apply parse_int_length in Hi. apply parse_frac_length in Hf.
  apply parse_exp_length in Hx. lia.
Qed.

Lemma cons_char_Some c o t r :
  cons_char c o = Some (t, r) -> exists t', o = Some (t', r).
Proof. destruct o as [[t' r']|]; [|done]. intros [= _ <-]. by exists t'. Qed.

Lemma parse_string_body_length s t r :
  parse_string_body s = Some (t, r) -> (String.length r < String.length s)%nat.
Proof.
  remember (String.length s) as n eqn:Hn. revert s t r Hn.
  induction n as [n IH] using lt_wf_ind. intros s t r -> .
  destruct s as [|c s]; simpl; [done|].
  destruct (Ascii.eqb c "034"); [intros [= _ <-]; lia|].
  destruct (Ascii.eqb c "\").
  - destruct s as [|e r1]; [done|].
    destruct (Ascii.eqb e "u").
    + destruct r1 as [|h1 [|h2 [|h3 [|h4 r2]]]]; try done.
      destruct (unicode_escape h1 h2 h3 h4); [|done].
      intros [t' H]%cons_char_Some.
      apply (IH (String.length r2)) in H; simpl; [lia | lia | done].
    + destruct (escape_char e); [|done].
      intros [t' H]%cons_char_Some.
      apply (IH (String.length r1)) in H; simpl; [lia | lia | done].
  - destruct (N_of_ascii c <? 32)%N; [done|].
    intros [t' H]%cons_char_Some.
    apply (IH (String.length s)) in H; simpl; [lia | lia | done].
Qed.

Lemma keyword_length kw v s v' r :
  (0 < String.length kw)%nat -> keyword kw v s = Some (v', r) -> (String.length r < String.length s)%nat.
Proof.
  unfold keyword. intros Hkw. destruct (String.prefix kw s) eqn:Hp; [|done].
  intros [= _ <-]. destruct (prefix_split _ _ Hp) as [x ->].
  rewrite drop_app, length_app. lia.
Qed.

(** What one unit of fuel buys, for each of the three functions. *)
Lemma parse_value_S f s :
  parse_value (S f) s =
  match skip_ws s with
  | EmptyString => None
  | String c r as s1 =>
      if Ascii.eqb c "{" then
        match after_char "}" (skip_ws r) with
        | Some r' => Some (JObj [], r')
        | None => parse_members f (skip_ws r) []
        end
      else if Ascii.eqb c "[" then
        match after_char "]" (skip_ws r) with
        | Some r' => Some (JArr [], r')
        | None => parse_elements f (skip_ws r) []
        end
      else if Ascii.eqb c "034" then
        match parse_string_body r with
        | Some (t, r') => Some (JStr t, r')
        | None => None
        end
      else if Ascii.eqb c "t" then keyword "true" (JBool true) s1
      else if Ascii.eqb c "f" then keyword "false" (JBool false) s1
      else if Ascii.eqb c "n" then keyword "null" JNull s1
      else parse_number s1
  end.
Proof. reflexivity. Qed.

Lemma parse_elements_S f s acc :
  parse_elements (S f) s acc =
  match parse_value f s with
  | Some (v, r) =>
      match after_char "," (skip_ws r) with
      | Some r' => parse_elements f r' (v :: acc)
      | None =>
          match after_char "]" (skip_ws r) with
          | Some r' => Some (JArr (rev (v :: acc)), r')
          | None => None
          end
      end
  | None => None
  end.
Proof. reflexivity. Qed.

Lemma parse_members_S f s acc :
  parse_members (S f) s acc =
  match after_char "034" (skip_ws s) with
  | Some r =>
      match parse_string_body r with
      | Some (k, r1) =>
          match after_char ":" (skip_ws r1) with
          | Some r2 =>
              match parse_value f r2 with
              | Some (v, r3) =>
                  match after_char "," (skip_ws r3) with
                  | Some r4 => parse_members f r4 (JsObject.set k v acc)
                  | None =>
                      match after_char "}" (skip_ws r3) with
                      | Some r4 => Some (JObj (JsObject.set k v acc), r4)
                      | None => None
                      end
                  end
              | None => None
              end
          | None => None
          end
      | None => None
      end
  | None => None
  end.
Proof. reflexivity. Qed.

(** A value, a list of elements and a list of members use up some
    input. *)
Lemma parse_consumes f :
  (forall s v r, parse_value f s = Some (v, r) -> (String.length r < String.length s)%nat) /\
  (forall s acc v r, parse_elements f s acc = Some (v, r) -> (String.length r < String.length s)%nat) /\
  (forall s acc v r, parse_members f s acc = Some (v, r) -> (String.length r < String.length s)%nat).
Proof.
  induction f as [|f (IHv & IHe & IHm)]; [done|]. split; [|split].
  - intros s v r. rewrite parse_value_S.
    pose proof (skip_ws_length s) as Hs.
    destruct (skip_ws s) as [|c r0]; [done|]. simpl in Hs.
    pose proof (skip_ws_length r0) as Hr0.
    destruct (Ascii.eqb c "{").
    { destruct (after_char "}" (skip_ws r0)) as [r'|] eqn:H.
      - intros [= _ <-]. apply after_char_length in H. lia.
      - intros H'%IHm. lia. }
    destruct (Ascii.eqb c "[").
    { destruct (after_char "]" (skip_ws r0)) as [r'|] eqn:H.
      - intros [= _ <-]. apply after_char_length in H. lia.
      - intros H'%IHe. lia. }
    destruct (Ascii.eqb c "034").
    { destruct (parse_string_body r0) as [[t r']|] eqn:H; [|done].
      intros [= _ <-]. apply parse_string_body_length in H. lia. }
    destruct (Ascii.eqb c "t").
    { intros H%keyword_length; simpl in *; lia. }
    destruct (Ascii.eqb c "f").
    { intros H%keyword_length; simpl in *; lia. }
    destruct (Ascii.eqb c "n").
    { intros H%keyword_length; simpl in *; lia. }
    intros H%parse_number_length. simpl in H. lia.
  - intros s acc v r. rewrite parse_elements_S.
    destruct (parse_value f s) as [[v0 r0]|] eqn:Hv; [|done].
    apply IHv in Hv. pose proof (skip_ws_length r0) as Hr0.
    destruct (after_char "," (skip_ws r0)) as [r'|] eqn:Hc.
    { intros H%IHe. apply after_char_length in Hc. lia. }
    destruct (after_char "]" (skip_ws r0)) as [r'|] eqn:Hb; [|done].
    intros [= _ <-]. apply after_char_length in Hb. lia.
  - intros s acc v r. rewrite parse_members_S.
    pose proof (skip_ws_length s) as Hs.
    destruct (after_char "034" (skip_ws s)) as [r0|] eqn:Hq; [|done].
    apply after_char_length in Hq.
    destruct (parse_string_body r0) as [[k r1]|] eqn:Hk; [|done].
    apply parse_string_body_length in Hk. pose proof (skip_ws_length r1) as Hr1.
    destruct (after_char ":" (skip_ws r1)) as [r2|] eqn:Hcolon; [|done].
    apply after_char_length in Hcolon.
    destruct (parse_value f r2) as [[v0 r3]|] eqn:Hv; [|done].
    apply IHv in Hv. pose proof (skip_ws_length r3) as Hr3.
    destruct (after_char "," (skip_ws r3)) as [r4|] eqn:Hc.
    { intros H%IHm. apply after_char_length in Hc. lia. }
    destruct (after_char "}" (skip_ws r3)) as [r4|] eqn:Hb; [|done].
    intros [= _ <-]. apply after_char_length in Hb. lia.
Qed.

(** Past twice the length of the input, more fuel changes nothing. *)
Lemma parse_fuel_enough f :
  (forall s f', (2 * String.length s + 1 <= f)%nat -> (f <= f')%nat ->
                parse_value f' s = parse_value f s) /\
  (forall s acc f', (2 * String.length s + 2 <= f)%nat -> (f <= f')%nat ->
                    parse_elements f' s acc = parse_elements f s acc) /\
  (forall s acc f', (2 * String.length s + 2 <= f)%nat -> (f <= f')%nat ->
                    parse_members f' s acc = parse_members f s acc).
Proof.
  induction f as [|f (IHv & IHe & IHm)]; [split; [|split]; intros; lia|].
  split; [|split].
  - intros s [|f'] Hf Hf'; [lia|]. rewrite !parse_value_S.
    pose proof (skip_ws_length s) as Hs.
    destruct (skip_ws s) as [|c r0]; [done|]. simpl in Hs.
    pose proof (skip_ws_length r0) as Hr0.
    destruct (Ascii.eqb c "{").
    { destruct (after_char "}" (skip_ws r0)); [done|]. apply IHm; lia. }
    destruct (Ascii.eqb c "["); [|done].
    destruct (after_char "]" (skip_ws r0)); [done|]. apply IHe; lia.
  - intros s acc [|f'] Hf Hf'; [lia|]. rewrite !parse_elements_S.
    rewrite (IHv s f') by lia.
    destruct (parse_value f s) as [[v0 r0]|] eqn:Hv; [|done].
    apply (proj1 (parse_consumes f)) in Hv. pose proof (skip_ws_length r0) as Hr0.
    destruct (after_char "," (skip_ws r0)) as [r'|] eqn:Hc; [|done].
    apply after_char_length in Hc. apply IHe; lia.
  - intros s acc [|f'] Hf Hf'; [lia|]. rewrite !parse_members_S.
    pose proof (skip_ws_length s) as Hs.
    destruct (after_char "034" (skip_ws s)) as [r0|] eqn:Hq; [|done].
    apply after_char_length in Hq.
    destruct (parse_string_body r0) as [[k r1]|] eqn:Hk; [|done].
    apply parse_string_body_length in Hk. pose proof (skip_ws_length r1) as Hr1.
    destruct (after_char ":" (skip_ws r1)) as [r2|] eqn:Hcolon; [|done].
    apply after_char_length in Hcolon.
    rewrite (IHv r2 f') by lia.
    destruct (parse_value f r2) as [[v0 r3]|] eqn:Hv; [|done].
    apply (proj1 (parse_consumes f)) in Hv. pose proof (skip_ws_length r3) as Hr3.
    destruct (after_char "," (skip_ws r3)) as [r4|] eqn:Hc; [|done].
    apply after_char_length in Hc. apply IHm; lia.
Qed.

(** [parse] gives what any larger amount of fuel gives. *)
Lemma parse_fuel s f :
  (2 * String.length s + 2 <= f)%nat ->
  parse_value f s = parse_value (2 * String.length s + 2) s.
Proof. intros H. apply (proj1 (parse_fuel_enough _)); lia. Qed.

End ParserFacts.

(** The text of a response in terms of its parts. *)
Lemma getResponseText_unfold response :
  getResponseText response =
  match firstCandidateTexts response with
  | [] => None
  | segs => Some (stripMarkdownCodeBlocks (JsString.join "" segs))
  end.
Proof.
  unfold getResponseText, firstCandidateTexts, getResponseTextFromParts.
  by destruct (first_candidate_parts response).
Qed.

(** C4 (as amended): [getResponseText] is absent exactly when the first
    candidate has no text part; otherwise it is the in-order concatenation
    of the text parts from which an opening fence marker at the start is
    removed if there is one and then, independently, a closing marker at
    the end is removed if there is one. *)
Theorem getResponseText_fences (response : GenerateContentResponse) :
  (getResponseText response = None <-> firstCandidateTexts response = []) /\
  (forall u, getResponseText response = Some u <->
     firstCandidateTexts response <> [] /\
     exists v,
       OpenFenceStripped (JsString.join "" (firstCandidateTexts response)) v /\
       CloseFenceStripped v u).
Proof.
  rewrite getResponseText_unfold.
  destruct (firstCandidateTexts response) as [|seg segs] eqn:Hsegs.
  - split; [done|]. intros u. split; [done|]. by intros [? _].
  - split; [done|]. intros u. split.
    + intros [= <-]. split; [done|].
      exists (strip_open_fence (JsString.join "" (seg :: segs))).
      split; [apply strip_open_fence_spec | apply strip_close_fence_spec].
    + intros [_ (v & Ho & Hc)]. f_equal. unfold stripMarkdownCodeBlocks.
      rewrite <- (OpenFenceStripped_fun _ _ _ Ho (strip_open_fence_spec _)).
      symmetry. apply (CloseFenceStripped_fun _ _ _ Hc (strip_close_fence_spec _)).
Qed.

(** C4, the claim as written, fails: a text with an opening marker and no
    closing one loses the opening marker. *)
Lemma getResponseText_fence_alone_counterexample :
  ~ fences_stripped_only_together open_fence_only.
Proof.
  intros H. destruct (H "foo" eq_refl) as [Heq|(lang & body & _ & Heq & _)].
  - discriminate Heq.
  - assert (JsString.endsWith
              (JsString.join "" (firstCandidateTexts open_fence_only))
              (JsString.LF +:+ FENCE) = true) as He; [|discriminate He].
    rewrite Heq.
    replace (FENCE +:+ lang +:+ JsString.LF +:+ body +:+ JsString.LF +:+ FENCE)
      with ((FENCE +:+ lang +:+ JsString.LF +:+ body) +:+ (JsString.LF +:+ FENCE))
      by (by rewrite !app_assoc).
    apply endsWith_app.
Qed.

(** ** The structured response *)

Lemma getFunctionCallsFromParts_nonempty ps calls :
  getFunctionCallsFromParts ps = Some calls -> calls <> [].
Proof.
  destruct ps as [ps|]; [|done]. simpl.
  by destruct (functionCallParts ps); intros [= <-].
Qed.

Lemma stringify2_array_bracket call calls :
  exists rest, Json.stringify2 (JArr (call :: calls)) = "[" +:+ rest.
Proof. unfold Json.stringify2. simpl. unfold Json.wrap. simpl. by eexists. Qed.

Lemma structured_empty_text calls_json :
  structured (Some "") calls_json =
  if truthy_opt calls_json then calls_json else None.
Proof. reflexivity. Qed.

(** C10: when the extracted text is the empty string, the structured
    response is the function-calls JSON alone, which starts with its
    opening bracket and not with a line feed, and it is absent when there
    is no function call; this holds for a bare parts sequence and for a
    response alike. *)
Theorem getStructuredResponse_empty_text (ps : option (list Part)) :
  getResponseTextFromParts ps = Some "" ->
  getStructuredResponseFromParts ps = getFunctionCallsFromPartsAsJson ps /\
  (forall response, first_candidate_parts response = ps ->
     getStructuredResponse response = getFunctionCallsAsJson response) /\
  match getFunctionCallsFromParts ps with
  | Some calls =>
      exists rest, Json.stringify2 (JArr calls) = "[" +:+ rest /\
                   getStructuredResponseFromParts ps = Some ("[" +:+ rest)
  | None => getStructuredResponseFromParts ps = None
  end.
Proof.
  intros Htext.
  assert (getStructuredResponseFromParts ps = getFunctionCallsFromPartsAsJson ps) as Hps.
  { unfold getStructuredResponseFromParts. rewrite Htext, structured_empty_text.
    unfold getFunctionCallsFromPartsAsJson.
    destruct (getFunctionCallsFromParts ps) as [calls|] eqn:Hcalls; [|done].
    destruct calls as [|call calls]; [by apply getFunctionCallsFromParts_nonempty in Hcalls|].
    by destruct (stringify2_array_bracket call calls) as [rest ->]. }
  split; [done|]. split.
  - intros response <-. unfold getStructuredResponse, getFunctionCallsAsJson, getFunctionCalls.
    apply Hps.
  - rewrite Hps. unfold getFunctionCallsFromPartsAsJson.
    destruct (getFunctionCallsFromParts ps) as [calls|] eqn:Hcalls; [|done].
    destruct calls as [|call calls]; [by apply getFunctionCallsFromParts_nonempty in Hcalls|].
    destruct (stringify2_array_bracket call calls) as [rest Hrest].
    exists rest. by rewrite Hrest.
Qed.

Lemma getStructuredResponse_empty_text_witness :
  getStructuredResponseFromParts (Some empty_text_and_call)
  = getFunctionCallsFromPartsAsJson (Some empty_text_and_call) /\
  getStructuredResponse (response_of_parts empty_text_and_call)
  = getFunctionCallsAsJson (response_of_parts empty_text_and_call).
Proof.
  destruct (getStructuredResponse_empty_text (Some empty_text_and_call) eq_refl)
    as (H1 & H2 & _).
  split; [exact H1 | exact (H2 (response_of_parts empty_text_and_call) eq_refl)].
Defined.

(** ** Request translation *)

Section Translation.

Import LlmProvider.




Lemma partPrompt_no_text p :
  truthy_opt (text p) = false -> partPrompt p = Json.stringify (Part_to_json p).
Proof.
  unfold partPrompt, truthy_opt. destruct (text p) as [t|]; [|done].
  by intros ->.
Qed.













End Translation.



(** ** Properties of objects *)

Section Objects.

Implicit Types (k : string) (v : json) (o : list (string * json)).

Lemma lookup_replace k k' v o :
  is_Some (Json.lookup k' o) ->
  Json.lookup k (JsObject.replace k' v o)
  = if String.eqb k k' then Some v else Json.lookup k o.
Proof.
  induction o as [|[k0 v0] o IH]; simpl; [by intros [? ?]|].
  intros Hin.
  destruct (String.eqb_spec k' k0) as [->|Hne]; simpl.
  - by destruct (String.eqb k k0).
  - destruct (String.eqb_spec k k0) as [->|Hne'].
    + by destruct (String.eqb_spec k0 k').
    + by apply IH.
Qed.

Lemma lookup_insert_index n k k' v o :
  Json.lookup k' o = None ->
  Json.lookup k (JsObject.insert_index n k' v o)
  = if String.eqb k k' then Some v else Json.lookup k o.
Proof.
  induction o as [|[k0 v0] o IH]; simpl; [done|].
  destruct (String.eqb_spec k' k0) as [->|Hne]; [done|]. intros Hnone.
  destruct (JsObject.array_index k0) as [n0|]; [destruct (n0 <? n)%N|]; simpl;
    try done.
  destruct (String.eqb_spec k k0) as [->|Hne'].
  - by destruct (String.eqb_spec k0 k').
  - by apply IH.
Qed.

Lemma lookup_snoc k k' v o :
  Json.lookup k' o = None ->
  Json.lookup k (o ++ [(k', v)])
  = if String.eqb k k' then Some v else Json.lookup k o.
Proof.
  induction o as [|[k0 v0] o IH]; simpl; [done|].
  destruct (String.eqb_spec k' k0) as [->|Hne]; [done|]. intros Hnone.
  destruct (String.eqb_spec k k0) as [->|Hne'].
  - by destruct (String.eqb_spec k0 k').
  - by apply IH.
Qed.

(** Reading a property after [o[k'] = v]. *)
Lemma lookup_set k k' v o :
  Json.lookup k (JsObject.set k' v o)
  = if String.eqb k k' then Some v else Json.lookup k o.
Proof.
  unfold JsObject.set. destruct (Json.lookup k' o) eqn:Hk'.
  - apply lookup_replace. by rewrite Hk'.
  - destruct (JsObject.array_index k').
    + by apply lookup_insert_index.
    + by apply lookup_snoc.
Qed.

(** A spread leaves alone the properties that its source does not have. *)
Lemma lookup_spread k o src :
  Json.lookup k src = None ->
  Json.lookup k (JsObject.spread o src) = Json.lookup k o.
Proof.
  unfold JsObject.spread. revert o.
  induction src as [|[k' v'] src IH]; intros o; simpl; [done|].
  destruct (String.eqb_spec k k') as [->|Hne]; [done|]. intros Hnone.
  rewrite (IH _ Hnone), lookup_set. by destruct (String.eqb_spec k k').
Qed.

Lemma lookup_assign k k' (ov : option json) o :
  Json.lookup k (LlmProvider.assign k' ov o)
  = match ov with
    | Some v => if String.eqb k k' then Some v else Json.lookup k o
    | None => Json.lookup k o
    end.
Proof. destruct ov; [apply lookup_set | done]. Qed.

Lemma params_no_messages cfg :
  Json.lookup "messages" (LlmProvider.convertConfigToOpenAIParams cfg) = None.
Proof.
  destruct cfg as [[t m p s]|]; [|done]. unfold LlmProvider.convertConfigToOpenAIParams.
  rewrite !lookup_assign. simpl. by destruct s, p, m, t.
Qed.

Lemma params_no_prompt cfg :
  Json.lookup "prompt" (LlmProvider.convertConfigToOpenAIParams cfg) = None.
Proof.
  destruct cfg as [[t m p s]|]; [|done]. unfold LlmProvider.convertConfigToOpenAIParams.
  rewrite !lookup_assign. simpl. by destruct s, p, m, t.
Qed.

End Objects.

(** ** The request pipeline *)

Section Pipeline.

Import LlmProvider.

(** The body built by [prepareGenerateContentRequest] has the shape that
    goes with the flag. *)
Lemma prepareGenerateContentRequest_shape this request chat :
  body_shape chat (prepareGenerateContentRequest this request chat).
Proof.
  unfold body_shape, prepareGenerateContentRequest. destruct chat.
  - rewrite !lookup_spread by apply params_no_messages || apply params_no_prompt.
    split; [by eexists | done].
  - rewrite !lookup_spread by apply params_no_messages || apply params_no_prompt.
    split; [by eexists | done].
Qed.

(** Whatever the answer, [makeApiRequest] has sent one request. *)
Lemma makeApiRequest_log this url props rt log :
  snd (makeApiRequest this url props rt log) = log ++ [post_of this url props].
Proof.
  unfold makeApiRequest, bind, try_catch, js_fetch, throw, ret, response_text, JSON_parse.
  fold (post_of this url props).
  destruct (fetch rt log (post_of this url props)) as [e|resp]; [done|].
  destruct (ok resp); simpl.
  - destruct (body resp) as [t|e]; simpl; [|done].
    destruct (looksLikeJson t); [|done].
    by destruct (JsonParser.parse t).
  - destruct (body resp) as [t|e]; simpl.
    + destruct (looksLikeJson t); [|done].
      by destruct (JsonParser.parse t).
    + by case_looks.
Qed.

Lemma generateContent_log this request rt log :
  snd (generateContent this request rt log)
  = log ++ [post_of this (apiUrl (this_config this))
              (prepareGenerateContentRequest this request
                 (JsString.includes (apiUrl (this_config this)) "chat/completions"))].
Proof.
  unfold generateContent, bind, lift.
  match goal with
  | |- context [makeApiRequest ?t ?u ?p rt log] =>
      pose proof (makeApiRequest_log t u p rt log) as H;
      destruct (makeApiRequest t u p rt log) as [[resp|e] log']
  end; exact H.
Qed.

End Pipeline.

(** C1: every call of [generateContent] sends one request whose body has
    [messages] and no [prompt] when the endpoint URL contains
    [chat/completions], and [prompt] and no [messages] otherwise; the URL
    is read again at each call, so after the URL of the same provider has
    changed, the next call has the shape that goes with the new URL. *)
Theorem generateContent_body_shape
    (this : LlmProvider.OpenAICompatibleProvider)
    (request : LlmProvider.GenerateContentParameters)
    (rt : Runtime) (log : list Request) :
  sends_shaped_body this request rt log /\
  forall url' request',
    sends_shaped_body (with_apiUrl url' this) request' rt
      (snd (LlmProvider.generateContent this request rt log)).
Proof.
  assert (forall this request log, sends_shaped_body this request rt log) as H.
  { clear. intros this request log. unfold sends_shaped_body.
    eexists. split; [apply generateContent_log|].
    apply prepareGenerateContentRequest_shape. }
  split; [apply H|]. intros url' request'. apply H.
Qed.

(** ** Errors of the pipeline *)

Section ApiErrors.

Import LlmProvider.

Lemma excerpt_short t : (String.length t <= 200)%nat -> excerpt t = t.
Proof.
  intros H. unfold excerpt, JsString.substring.
  rewrite substring_short by lia.
  destruct (Nat.ltb_spec 200 (String.length t)); [lia|]. apply app_nil_r.
Qed.

Lemma excerpt_long t :
  (200 < String.length t)%nat ->
  excerpt t = JsString.substring t 0 200 +:+ "...".
Proof.
  intros H. unfold excerpt.
  by destruct (Nat.ltb_spec 200 (String.length t)); [|lia].
Qed.

Lemma excerpt_length t : (String.length (excerpt t) <= 203)%nat.
Proof.
  unfold excerpt, JsString.substring. rewrite length_app, Nat.sub_0_r.
  pose proof (substring_length_le t 200) as H.
  destruct (200 <? String.length t)%nat;
    [change (String.length "...") with 3%nat | change (String.length "") with 0%nat];
    lia.
Qed.

Lemma trimEnd_head c s : JsString.is_white c = false ->
  exists r, JsString.trimEnd (String c s) = String c r.
Proof.
  intros Hc. simpl. destruct (JsString.trimEnd s); rewrite ?Hc; by eexists.
Qed.

(** A text that starts with a letter does not look like JSON. *)
Lemma looksLikeJson_failed m :
  looksLikeJson ("Failed to read error response: " +:+ m) = false.
Proof.
  unfold looksLikeJson, JsString.trim.
  change ("Failed to read error response: " +:+ m)
    with (String "F" ("ailed to read error response: " +:+ m)).
  change (JsString.trimStart (String "F" ?s)) with (String "F" s).
  destruct (trimEnd_head "F" ("ailed to read error response: " +:+ m) eq_refl) as [r ->].
  reflexivity.
Qed.

Lemma is_api_error_failed rest :
  is_api_error (Error ("API request failed with status " +:+ rest)) = true.
Proof. apply prefix_app. Qed.

(** What [makeApiRequest] does with a status outside 200-299 whose body
    is read. *)
Lemma makeApiRequest_error_text this url props rt log resp t :
  fetch rt log (post_of this url props) = Resolved resp ->
  ok resp = false ->
  body resp = BodyText t ->
  makeApiRequest this url props rt log =
  (Thrown (Error ("API request failed with status " +:+ pretty (status resp) +:+
                  (if looksLikeJson t then ": " +:+ t
                   else ". Server returned: " +:+ excerpt t))),
   log ++ [post_of this url props]).
Proof.
  intros Hfetch Hok Hbody.
  unfold makeApiRequest, bind, try_catch, js_fetch, throw, ret, response_text, JSON_parse.
  fold (post_of this url props). rewrite Hfetch, Hok, Hbody. simpl.
  destruct (looksLikeJson t); [|done]. by destruct (JsonParser.parse t).
Qed.

(** The same when the body cannot be read. *)
Lemma makeApiRequest_error_unread this url props rt log resp cause :
  fetch rt log (post_of this url props) = Resolved resp ->
  ok resp = false ->
  body resp = BodyFailed cause ->
  makeApiRequest this url props rt log =
  (Thrown (Error ("API request failed with status " +:+ pretty (status resp) +:+
                  ". Server returned: " +:+
                  excerpt ("Failed to read error response: " +:+ message cause))),
   log ++ [post_of this url props]).
Proof.
  intros Hfetch Hok Hbody.
  unfold makeApiRequest, bind, try_catch, js_fetch, throw, ret, response_text, JSON_parse.
  fold (post_of this url props). rewrite Hfetch, Hok, Hbody. simpl.
  by rewrite looksLikeJson_failed.
Qed.

End ApiErrors.

(** C2 (as amended): on a status outside 200-299 whose body is read, the
    call fails, after the one request, with an API error whose message
    contains the status code; when the trimmed body does not start with a
    brace or a bracket, whether it parses as JSON or not, the message
    ends with an excerpt of the body, cut to 200 characters and followed
    by an ellipsis when the body is longer; when the trimmed body starts
    with a brace or a bracket and does not parse as JSON, the message ends
    with the whole body, uncut. *)
Theorem makeApiRequest_api_error
    (this : LlmProvider.OpenAICompatibleProvider) (url : string)
    (props : list (string * json)) (rt : Runtime) (log : list Request)
    (resp : Response) (t : string) :
  fetch rt log (post_of this url props) = Resolved resp ->
  ok resp = false ->
  body resp = BodyText t ->
  exists e,
    LlmProvider.makeApiRequest this url props rt log
    = (Thrown e, log ++ [post_of this url props]) /\
    is_api_error e = true /\
    JsString.includes (message e) (pretty (status resp)) = true /\
    (LlmProvider.looksLikeJson t = false ->
       message e = "API request failed with status " +:+ pretty (status resp) +:+
                   ". Server returned: " +:+ LlmProvider.excerpt t /\
       (String.length (LlmProvider.excerpt t) <= 203)%nat /\
       ((String.length t <= 200)%nat -> LlmProvider.excerpt t = t) /\
       ((200 < String.length t)%nat ->
          LlmProvider.excerpt t = JsString.substring t 0 200 +:+ "...")) /\
    (LlmProvider.looksLikeJson t = true -> JsonParser.parse t = None ->
       message e = "API request failed with status " +:+ pretty (status resp) +:+
                   ": " +:+ t).
Proof.
  intros Hfetch Hok Hbody. eexists. split.
  { by apply makeApiRequest_error_text with (resp := resp). }
  split; [apply is_api_error_failed|]. split; [apply includes_app|]. split.
  - intros ->. simpl. split; [done|]. split; [apply excerpt_length|].
    split; [apply excerpt_short | apply excerpt_long].
  - by intros -> _.
Qed.

Lemma makeApiRequest_api_error_witness :
  exists e,
    LlmProvider.makeApiRequest local_provider local_url []
      (answering 500 (BodyText "<html>")) []
    = (Thrown e, [post_of local_provider local_url []]) /\
    message e = "API request failed with status 500. Server returned: <html>".
Proof.
  destruct (makeApiRequest_api_error local_provider local_url []
              (answering 500 (BodyText "<html>")) []
              {| status := 500; body := BodyText "<html>" |} "<html>"
              eq_refl eq_refl eq_refl) as (e & Hrun & _ & _ & Hplain & _).
  exists e. split; [exact Hrun|]. exact (proj1 (Hplain eq_refl)).
Defined.

(** C2, the claim as written, fails: a body of 251 characters that opens
    a brace and is not JSON comes back whole in the message, which has no
    excerpt with an ellipsis in it. *)
Lemma makeApiRequest_broken_json_counterexample :
  ~ api_error_carries_json_or_excerpt local_provider local_url []
      (answering 500 (BodyText long_broken_json)) [].
Proof.
  intros H.
  destruct (H {| status := 500; body := BodyText long_broken_json |}
              long_broken_json eq_refl eq_refl eq_refl) as (e & Hrun & _ & _ & Hcarry).
  vm_compute in Hrun. injection Hrun as <-. vm_compute in Hcarry. discriminate Hcarry.
Qed.

(** C5 (as amended): on a status outside 200-299 whose body cannot be
    read, the failure of the read is not raised; its message, after the
    words [Failed to read error response: ], stands for the body, and the
    call fails with the API error that carries the status code and the
    excerpt of that text. *)
Theorem makeApiRequest_unreadable_error_body
    (this : LlmProvider.OpenAICompatibleProvider) (url : string)
    (props : list (string * json)) (rt : Runtime) (log : list Request)
    (resp : Response) (cause : JsError) :
  fetch rt log (post_of this url props) = Resolved resp ->
  ok resp = false ->
  body resp = BodyFailed cause ->
  exists e,
    LlmProvider.makeApiRequest this url props rt log
    = (Thrown e, log ++ [post_of this url props]) /\
    message e = "API request failed with status " +:+ pretty (status resp) +:+
                ". Server returned: " +:+
                LlmProvider.excerpt ("Failed to read error response: " +:+ message cause) /\
    is_api_error e = true /\
    is_network_error e = false.
Proof.
  intros Hfetch Hok Hbody. eexists. split.
  { by apply makeApiRequest_error_unread with (resp := resp). }
  split; [done|]. split; [apply is_api_error_failed | reflexivity].
Qed.

Lemma makeApiRequest_unreadable_error_body_witness :
  exists e,
    LlmProvider.makeApiRequest local_provider local_url []
      (answering 502 (BodyFailed (TypeError "terminated"))) []
    = (Thrown e, [post_of local_provider local_url []]) /\
    is_api_error e = true.
Proof.
  destruct (makeApiRequest_unreadable_error_body local_provider local_url []
              (answering 502 (BodyFailed (TypeError "terminated"))) []
              {| status := 502; body := BodyFailed (TypeError "terminated") |}
              (TypeError "terminated") eq_refl eq_refl eq_refl)
    as (e & Hrun & _ & Hapi & _).
  exists e. split; [exact Hrun | exact Hapi].
Defined.

(** C5, the claim as written, fails: the error raised when the body of a
    502 answer cannot be read is an API error and not a network error. *)
Lemma makeApiRequest_unreadable_body_counterexample :
  ~ unreadable_body_is_network_error local_provider local_url []
      (answering 502 (BodyFailed (TypeError "terminated"))) [].
Proof.
  intros H.
  destruct (H {| status := 502; body := BodyFailed (TypeError "terminated") |}
              (TypeError "terminated") eq_refl eq_refl eq_refl)
    as (e & Hrun & Hnet & _).
  vm_compute in Hrun. injection Hrun as <-. vm_compute in Hnet. discriminate Hnet.
Qed.

(** The error that [makeApiRequest] builds from the parsed body is thrown
    inside the [try] block and so is replaced by the handler of that
    block: the message has the body as it came, not as
    [JSON.stringify] writes it. *)
Example makeApiRequest_parsed_json_replaced :
  is_Some (JsonParser.parse spaced_json) /\
  exists e,
    fst (LlmProvider.makeApiRequest local_provider local_url []
           (answering 401 (BodyText spaced_json)) []) = Thrown e /\
    message e = "API request failed with status 401: " +:+ spaced_json /\
    JsString.includes (message e)
      (Json.stringify (default JNull (JsonParser.parse spaced_json))) = false.
Proof. split; [by eexists|]. eexists. by vm_compute. Qed.

(** ** Headers *)

Section Headers.

Import LlmProvider.

Lemma derived_header_not_content_type url : derived_header url <> "Content-Type".
Proof. unfold derived_header. by destruct (_ || _). Qed.

(** The test of the source names [openai.com] twice. *)
Lemma includes_api_openai url :
  JsString.includes url "openai.com" || JsString.includes url "api.openai.com"
  = JsString.includes url "openai.com".
Proof.
  destruct (JsString.includes url "openai.com") eqn:H; [done|]. simpl.
  destruct (JsString.includes url "api.openai.com") eqn:H'; [|done].
  exfalso. revert H H'. induction url as [|c url IH]; [done|].
  rewrite (includes_unfold (String c url) "openai.com"),
          (includes_unfold (String c url) "api.openai.com").
  intros [Hp Hi]%orb_false_iff [Hp'|Hi']%orb_true_iff; [|by apply IH].
  destruct (prefix_split _ _ Hp') as [r Hr].
  change ("api.openai.com" +:+ r) with ("api." +:+ "openai.com" +:+ r) in Hr.
  injection Hr as _ Hr. rewrite Hr in Hi.
  by rewrite includes_app in Hi.
Qed.

(** The headers sent when there is a key: the static headers over the
    content type, and the derived header over both. *)
Lemma composeHeaders_with_key this url key :
  apiKey (this_config this) = Some key ->
  JsString.truthy key = true ->
  composeHeaders this url
  = <[ derived_header url := derived_value url key ]>
      (default ∅ (headers (this_config this)) ∪
       {[ "Content-Type" := "application/json" ]}).
Proof.
  intros Hkey Htruthy. unfold composeHeaders, derived_header, derived_value, spread_map.
  rewrite Hkey, Htruthy, includes_api_openai.
  destruct (JsString.includes url "openai.com"); [done|]. simpl.
  by destruct (JsString.includes url "openrouter.ai").
Qed.

End Headers.

(** C9 (as amended): with an API key, the static headers are applied
    first and the header derived from the key afterwards, so the derived
    value wins over a static header of the same name; every other static
    header is sent as it is, a static [Content-Type] included, and
    [Content-Type: application/json] is sent when the static headers have
    no [Content-Type]. *)
Theorem composeHeaders_precedence
    (this : LlmProvider.OpenAICompatibleProvider) (url key : string) :
  LlmProvider.apiKey (LlmProvider.this_config this) = Some key ->
  JsString.truthy key = true ->
  let static := default ∅ (LlmProvider.headers (LlmProvider.this_config this)) in
  let sent := LlmProvider.composeHeaders this url in
  sent !! derived_header url = Some (derived_value url key) /\
  sent !! "Content-Type"
    = Some (default "application/json" (static !! "Content-Type")) /\
  (forall k, k <> derived_header url -> k <> "Content-Type" ->
             sent !! k = static !! k).
Proof.
  intros Hkey Htruthy static sent. subst sent.
  rewrite (composeHeaders_with_key _ _ _ Hkey Htruthy). fold static.
  split; [apply lookup_insert_eq|]. split.
  - rewrite lookup_insert_ne by apply derived_header_not_content_type.
    rewrite lookup_union, lookup_singleton_eq. by destruct (static !! "Content-Type").
  - intros k Hk Hct. rewrite lookup_insert_ne by done.
    rewrite lookup_union, lookup_singleton_ne by done.
    by destruct (static !! k).
Qed.

Lemma composeHeaders_precedence_witness :
  LlmProvider.composeHeaders plain_text_provider local_url !! "X-API-Key"
    = Some "secret" /\
  LlmProvider.composeHeaders plain_text_provider local_url !! "Content-Type"
    = Some "text/plain".
Proof.
  destruct (composeHeaders_precedence plain_text_provider local_url "secret"
              eq_refl eq_refl) as (Hderived & Hct & _).
  split; [exact Hderived | exact Hct].
Defined.

(** C9, the claim as written, fails: static headers with a
    [Content-Type] of their own replace [application/json]. *)
Lemma composeHeaders_content_type_counterexample :
  ~ derived_wins_and_json_content_type plain_text_provider local_url "secret".
Proof. intros [_ Hct]. vm_compute in Hct. discriminate Hct. Qed.

(** ** Token count and embedding *)

(** C8: [countTokens] returns [{totalTokens: 0}] for every request; it
    does not fail and sends nothing. *)
Theorem countTokens_zero
    (this : LlmProvider.OpenAICompatibleProvider)
    (request : LlmProvider.CountTokensParameters)
    (rt : Runtime) (log : list Request) :
  LlmProvider.countTokens this request rt log
  = (Returned {| LlmProvider.totalTokens := 0 |}, log).
Proof. reflexivity. Qed.

(** C7 (as amended): [embedContent] fails for every request, before
    anything is sent, with an error whose message is the fixed text
    [Embedding not supported for this provider]; the message speaks of
    the provider and does not give its name. *)
Theorem embedContent_unsupported
    (this : LlmProvider.OpenAICompatibleProvider)
    (request : LlmProvider.EmbedContentParameters)
    (rt : Runtime) (log : list Request) :
  LlmProvider.embedContent this request rt log
  = (Thrown (Error "Embedding not supported for this provider"), log) /\
  JsString.includes "Embedding not supported for this provider"
    (LlmProvider.getProviderName this) = false.
Proof. split; reflexivity. Qed.

(** C7, the claim as written, fails: the name of the provider,
    [OpenAICompatible], is not in the message. *)
Lemma embedContent_name_counterexample :
  ~ embed_error_names_provider local_provider some_embed_request
      (answering 200 (BodyText "{}")) [].
Proof.
  intros (e & Hrun & Hname). injection Hrun as <-. vm_compute in Hname.
  discriminate Hname.
Qed.

(** ** The factory *)

Section Factory.

Import ContentGenerator.

Lemma truthy_opt_Some (o : option string) :
  truthy_opt o = true -> exists s, o = Some s /\ default "" o = s.
Proof. destruct o as [s|]; [by exists s | done]. Qed.

(** With the three settings the factory builds the provider from them. *)
Lemma createContentGenerator_generic libs process config sessionId :
  genericConfigured process = true ->
  exists p,
    createContentGenerator libs process config sessionId
    = Returned (Fulfilled (OpenAICompatible p)) /\
    env process !! "LLM_API_URL" = Some (LlmProvider.apiUrl (LlmProvider.this_config p)) /\
    env process !! "LLM_API_KEY" = LlmProvider.apiKey (LlmProvider.this_config p) /\
    env process !! "LLM_MODEL" = Some (LlmProvider.model (LlmProvider.this_config p)).
Proof.
  unfold genericConfigured, createContentGenerator, createContentGenerator_body.
  intros H. rewrite H.
  apply andb_true_iff in H as [[Hurl%truthy_opt_Some Hkey]%andb_true_iff
                                 Hmodel%truthy_opt_Some].
  destruct Hurl as (u & Hu & Hdu), Hmodel as (m & Hm & Hdm).
  eexists. split; [done|]. simpl. by rewrite Hdu, Hdm.
Qed.

(** Without them the auth type decides. *)
Lemma createContentGenerator_vendor libs process config sessionId :
  genericConfigured process = false ->
  createContentGenerator libs process config sessionId =
  async
    (if authType_is config LOGIN_WITH_GOOGLE || authType_is config CLOUD_SHELL then
       createCodeAssistContentGenerator libs
         (httpOptions_headers process) (authType_text config) sessionId
     else if authType_is config USE_GEMINI || authType_is config USE_VERTEX_AI then
       new_GoogleGenAIWrapper libs
         (match apiKey config with
          | Some k => if String.eqb k "" then None else Some k
          | None => None
          end)
         (vertexai config) (httpOptions_headers process)
     else
       Thrown (Error ("Error creating contentGenerator: Unsupported authType: " +:+
                      authType_text config))).
Proof.
  unfold genericConfigured, createContentGenerator, createContentGenerator_body.
  by intros ->.
Qed.

(** The call of an async function gives a promise. *)
Lemma async_returns {A} (body : Outcome A) : exists promise, async body = Returned promise.
Proof. destruct body; by eexists. Qed.

Lemma async_fulfilled {A} (body : Outcome A) a :
  async body = Returned (Fulfilled a) -> body = Returned a.
Proof. destruct body; simpl; congruence. Qed.

Lemma async_rejected {A} (body : Outcome A) e :
  async body = Returned (Rejected e) -> body = Thrown e.
Proof. destruct body; simpl; congruence. Qed.

(** The branches of the vendors do not hand back the provider. *)
Lemma createCodeAssistContentGenerator_other libs h a s p :
  createCodeAssistContentGenerator libs h a s <> Returned (OpenAICompatible p).
Proof.
  unfold createCodeAssistContentGenerator.
  by destruct (createCodeAssistContentGenerator_error libs h a s).
Qed.

Lemma new_GoogleGenAIWrapper_other libs k v h p :
  new_GoogleGenAIWrapper libs k v h <> Returned (OpenAICompatible p).
Proof. unfold new_GoogleGenAIWrapper. by destruct (GoogleGenAI_error libs k v h). Qed.

(** The auth types of the enumeration are the four strings. *)
Lemma vendor_auth_branches config :
  vendor_auth (authType config) =
  (authType_is config LOGIN_WITH_GOOGLE || authType_is config CLOUD_SHELL) ||
  (authType_is config USE_GEMINI || authType_is config USE_VERTEX_AI).
Proof.
  unfold vendor_auth, authType_is. destruct (authType config) as [a|]; [|done].
  simpl. by rewrite !orb_assoc.
Qed.

Lemma authType_text_name config : authType_text config = auth_name (authType config).
Proof. unfold authType_text, auth_name. by destruct (authType config). Qed.

(** The three settings are not read when they are not all there. *)
Lemma genericConfigured_without process :
  genericConfigured (without_generic process) = false.
Proof.
  unfold genericConfigured, without_generic. simpl.
  by rewrite lookup_delete_eq.
Qed.

Lemma httpOptions_headers_without process :
  httpOptions_headers (without_generic process) = httpOptions_headers process.
Proof.
  unfold httpOptions_headers, cliVersion, without_generic. simpl.
  by rewrite !lookup_delete_ne.
Qed.

End Factory.

(** C6 (as amended): the call of the factory never throws, it gives a
    promise.  The promise is fulfilled with the OpenAI-compatible
    provider exactly when the endpoint URL, the API key and the model
    are all set, whatever the auth type and whatever the libraries of
    the vendors do, and the provider is built from these three values;
    when one of them is missing the factory does what it does with none
    of them, so the auth type decides; when the auth type is none of
    those the factory has a branch for, the promise is rejected with the
    configuration error, whose message ends with the auth type
    ([undefined] when there is none); with libraries that do not fail,
    this is the only failure. *)
Theorem createContentGenerator_selection
    (libs : ContentGenerator.Libraries)
    (process : ContentGenerator.Process)
    (config : ContentGenerator.ContentGeneratorConfig)
    (sessionId : option string) :
  let made := ContentGenerator.createContentGenerator libs process config sessionId in
  (exists promise, made = Returned promise) /\
  (genericConfigured process = true <->
   exists p, made = Returned (ContentGenerator.Fulfilled (ContentGenerator.OpenAICompatible p))) /\
  (forall p,
     made = Returned (ContentGenerator.Fulfilled (ContentGenerator.OpenAICompatible p)) ->
     ContentGenerator.env process !! "LLM_API_URL"
       = Some (LlmProvider.apiUrl (LlmProvider.this_config p)) /\
     ContentGenerator.env process !! "LLM_API_KEY"
       = LlmProvider.apiKey (LlmProvider.this_config p) /\
     ContentGenerator.env process !! "LLM_MODEL"
       = Some (LlmProvider.model (LlmProvider.this_config p))) /\
  (genericConfigured process = false ->
   made = ContentGenerator.createContentGenerator libs (without_generic process)
            config sessionId) /\
  (genericConfigured process = false ->
   vendor_auth (ContentGenerator.authType config) = false ->
   made = Returned (ContentGenerator.Rejected
                      (unsupported_auth_error (ContentGenerator.authType config))) /\
   JsString.endsWith
     (message (unsupported_auth_error (ContentGenerator.authType config)))
     (auth_name (ContentGenerator.authType config)) = true) /\
  (reliable libs ->
   forall e, made = Returned (ContentGenerator.Rejected e) ->
     genericConfigured process = false /\
     vendor_auth (ContentGenerator.authType config) = false /\
     e = unsupported_auth_error (ContentGenerator.authType config)).
Proof.
  cbv zeta. split; [apply async_returns|].
  destruct (genericConfigured process) eqn:Hgen.
  - destruct (createContentGenerator_generic libs process config sessionId Hgen)
      as (p & Hrun & Henv).
    rewrite Hrun. split; [split; [by exists p | done]|].
    split; [by intros p' [= <-]|]. split; [done|]. split; [done|].
    intros _ e [=].
  - pose proof (createContentGenerator_vendor libs process config sessionId Hgen) as Hrun.
    pose proof (createContentGenerator_vendor libs (without_generic process) config
                  sessionId (genericConfigured_without process)) as Hrun'.
    rewrite httpOptions_headers_without in Hrun'.
    rewrite Hrun'. clear Hrun'. rewrite Hrun. clear Hrun.
    rewrite (vendor_auth_branches config), authType_text_name.
    destruct (ContentGenerator.authType_is config ContentGenerator.LOGIN_WITH_GOOGLE
              || ContentGenerator.authType_is config ContentGenerator.CLOUD_SHELL).
    + split; [split; [done|]|].
      { intros [p Hp]. apply async_fulfilled in Hp.
        by apply createCodeAssistContentGenerator_other in Hp. }
      split.
      { intros p Hp. apply async_fulfilled in Hp.
        by apply createCodeAssistContentGenerator_other in Hp. }
      split; [done|]. split; [done|].
      intros [Hlib _] e He. apply async_rejected in He. revert He.
      unfold ContentGenerator.createCodeAssistContentGenerator. by rewrite Hlib.
    + destruct (ContentGenerator.authType_is config ContentGenerator.USE_GEMINI
                || ContentGenerator.authType_is config ContentGenerator.USE_VERTEX_AI).
      * split; [split; [done|]|].
        { intros [p Hp]. apply async_fulfilled in Hp.
          by apply new_GoogleGenAIWrapper_other in Hp. }
        split.
        { intros p Hp. apply async_fulfilled in Hp.
          by apply new_GoogleGenAIWrapper_other in Hp. }
        split; [done|]. split; [done|].
        intros [_ Hlib] e He. apply async_rejected in He. revert He.
        unfold ContentGenerator.new_GoogleGenAIWrapper. by rewrite Hlib.
      * split; [split; [done | by intros [p [=]]]|].
        split; [by intros p [=]|]. split; [done|].
        split.
        { intros _ _. split; [done|]. unfold unsupported_auth_error.
          cbn [message]. apply endsWith_app. }
        intros _ e [= <-]. done.
Qed.

(** C6, the claim as written, fails where it has the failure be
    synchronous: with two of the three settings and an auth type that
    the factory does not know, the call returns (a promise, which is
    rejected): it does not throw. *)
Lemma createContentGenerator_async_counterexample :
  ~ fails_synchronously working_libraries partial_process unknown_auth_config None.
Proof.
  intros H. destruct (H eq_refl eq_refl) as (e & He & _). by vm_compute in He.
Qed.

(** ** Scenarios of the specification, run on the embedding *)

Example role_mapping :
  LlmProvider.convertContentsToMessages (LlmProvider.Single hello_world_turn)
  = [JObj [("role", JStr "assistant");
           ("content", JStr ("Hello" +:+ JsString.LF +:+ "world"))]].
Proof. reflexivity. Qed.

Example sampling_parameters :
  LlmProvider.convertConfigToOpenAIParams (Some sampling)
  = [("temperature", JNum 2 (-1)); ("max_tokens", JNum 50 0);
     ("top_p", JNum 9 (-1)); ("stop", JArr [JStr "STOP"])] /\
  Json.stringify (JObj (LlmProvider.convertConfigToOpenAIParams (Some sampling)))
  = dq "{'temperature':0.2,'max_tokens':50,'top_p':0.9,'stop':['STOP']}" /\
  LlmProvider.convertConfigToOpenAIParams None = [].
Proof. by vm_compute. Qed.

Example auth_headers :
  LlmProvider.composeHeaders
    (provider_at "https://api.openai.com/v1/chat/completions")
    "https://api.openai.com/v1/chat/completions" !! "Authorization"
    = Some "Bearer secret" /\
  LlmProvider.composeHeaders
    (provider_at "https://openrouter.ai/api/v1/chat/completions")
    "https://openrouter.ai/api/v1/chat/completions" !! "Authorization"
    = Some "Bearer secret" /\
  LlmProvider.composeHeaders local_provider local_url !! "X-API-Key" = Some "secret" /\
  LlmProvider.composeHeaders local_provider local_url !! "Authorization" = None.
Proof. by vm_compute. Qed.

Example unauthorized_json :
  fst (LlmProvider.generateContent local_provider hi_request
         (answering 401 (BodyText (dq "{'error':'bad key'}"))) [])
  = Thrown (Error ("API request failed with status 401: " +:+ dq "{'error':'bad key'}")).
Proof. by vm_compute. Qed.

Example html_error_page :
  fst (LlmProvider.generateContent local_provider hi_request
         (answering 503 (BodyText html_page)) [])
  = Thrown (Error ("API request failed with status 503. Server returned: " +:+
                   "<html>" +:+ repeat_char "x" 194 +:+ "...")).
Proof. by vm_compute. Qed.

Example echo_round_trip :
  match LlmProvider.generateContent local_provider hi_request echo_chat [] with
  | (Returned response, log) =>
      getResponseText response = Some "hi" /\
      List.map req_body log
      = [dq "{'model':'m','messages':[{'role':'user','content':'hi'}]}"]
  | (Thrown _, _) => False
  end.
Proof. by vm_compute. Qed.

Example factory_generic :
  exists p,
    ContentGenerator.createContentGenerator working_libraries generic_process
      {| ContentGenerator.model := "gemini"; ContentGenerator.apiKey := None;
         ContentGenerator.vertexai := None;
         ContentGenerator.authType := Some "oauth-personal";
         ContentGenerator.proxy := None |} None
    = Returned (ContentGenerator.Fulfilled (ContentGenerator.OpenAICompatible p)) /\
    LlmProvider.apiUrl (LlmProvider.this_config p) = local_url.
Proof. eexists. by vm_compute. Qed.

Example factory_partial_unsupported :
  ContentGenerator.createContentGenerator working_libraries partial_process
    unknown_auth_config None
  = Returned (ContentGenerator.Rejected
      (Error "Error creating contentGenerator: Unsupported authType: multi-llm")).
Proof. by vm_compute. Qed.

(** * Further properties *)

(** ** Code fences and the structured response *)

(** X1: a text made of an opening fence marker, a body and the closing
    marker is stripped to its body, whatever the body holds. *)
Theorem stripMarkdownCodeBlocks_fenced (lang body : string) :
  all_lower lang = true ->
  stripMarkdownCodeBlocks
    (FENCE +:+ lang +:+ JsString.LF +:+ body +:+ JsString.LF +:+ FENCE) = body.
Proof.
  intros Hlang. unfold stripMarkdownCodeBlocks.
  rewrite (OpenFenceStripped_fun _ _ _ (strip_open_fence_spec _)
             (fence_opened _ lang (body +:+ JsString.LF +:+ FENCE) Hlang eq_refl)).
  apply (CloseFenceStripped_fun _ _ _ (strip_close_fence_spec _)).
  by apply fence_closed.
Qed.

Lemma stripMarkdownCodeBlocks_fenced_witness :
  stripMarkdownCodeBlocks
    (FENCE +:+ "js" +:+ JsString.LF +:+ "foo" +:+ JsString.LF +:+ FENCE) = "foo".
Proof. exact (stripMarkdownCodeBlocks_fenced "js" "foo" eq_refl). Defined.

(** X2: stripping only removes from the two ends: the result is a piece
    of the text, so it is never longer; a text that does not start with
    three backquotes and does not end with a line feed and three
    backquotes comes back as it is. *)
Theorem stripMarkdownCodeBlocks_piece (text : string) :
  (exists a b, text = a +:+ stripMarkdownCodeBlocks text +:+ b) /\
  (String.length (stripMarkdownCodeBlocks text) <= String.length text)%nat /\
  (JsString.startsWith text FENCE = false ->
   JsString.endsWith text (JsString.LF +:+ FENCE) = false ->
   stripMarkdownCodeBlocks text = text).
Proof.
  assert (exists a b, text = a +:+ stripMarkdownCodeBlocks text +:+ b) as Hpiece.
  { unfold stripMarkdownCodeBlocks.
    destruct (strip_open_fence_spec text) as [lang rest Hlang ->|_];
      [destruct (strip_close_fence_spec rest) as [body ->|_]
      |destruct (strip_close_fence_spec text) as [body ->|_]].
    - exists (FENCE +:+ lang +:+ JsString.LF), (JsString.LF +:+ FENCE).
      by rewrite !app_assoc.
    - exists (FENCE +:+ lang +:+ JsString.LF), "". by rewrite !app_assoc, app_nil_r.
    - by exists "", (JsString.LF +:+ FENCE).
    - exists "", "". by rewrite app_nil_r. }
  split; [done|]. split.
  - destruct Hpiece as (a & b & Heq). rewrite Heq at 2. rewrite !length_app. lia.
  - intros Hopen Hclose. unfold stripMarkdownCodeBlocks, strip_open_fence.
    rewrite Hopen. unfold strip_close_fence. by rewrite Hclose.
Qed.

(** X3: the structured response is never the empty string: with nothing
    to show it is absent. *)
Theorem getStructuredResponse_never_empty
    (response : GenerateContentResponse) (ps : option (list Part)) :
  getStructuredResponse response <> Some "" /\
  getStructuredResponseFromParts ps <> Some "".
Proof.
  assert (forall a b, structured a b <> Some "") as H.
  { intros [[|c t]|] [[|d f]|]; done. }
  split; apply H.
Qed.

(** X4: with a text that is not empty, the structured response is the
    text alone when there is no function call, and the text, a line feed
    and the function-calls JSON when there is one. *)
Theorem getStructuredResponse_with_text (ps : option (list Part)) (t : string) :
  getResponseTextFromParts ps = Some t ->
  t <> "" ->
  getStructuredResponseFromParts ps =
    Some (match getFunctionCallsFromParts ps with
          | Some calls => t +:+ JsString.LF +:+ Json.stringify2 (JArr calls)
          | None => t
          end) /\
  (forall response, first_candidate_parts response = ps ->
     getStructuredResponse response = getStructuredResponseFromParts ps).
Proof.
  intros Htext Hne. split; [|by intros response <-].
  unfold getStructuredResponseFromParts, getFunctionCallsFromPartsAsJson.
  rewrite Htext. destruct t as [|c t]; [done|].
  destruct (getFunctionCallsFromParts ps) as [calls|] eqn:Hcalls; [|done].
  destruct calls as [|call calls]; [by apply getFunctionCallsFromParts_nonempty in Hcalls|].
  destruct (stringify2_array_bracket call calls) as [rest Hrest].
  unfold structured. rewrite Hrest. reflexivity.
Qed.

Lemma getStructuredResponse_with_text_witness :
  getStructuredResponseFromParts
    (Some [textPart "done"; callPart (JObj [("name", JStr "f")])])
  = Some ("done" +:+ JsString.LF +:+ Json.stringify2 (JArr [JObj [("name", JStr "f")]])).
Proof.
  refine (proj1 (getStructuredResponse_with_text
                   (Some [textPart "done"; callPart (JObj [("name", JStr "f")])])
                   "done" eq_refl _)).
  discriminate.
Defined.

Lemma functionCallParts_app ps1 ps2 :
  functionCallParts (ps1 ++ ps2) = functionCallParts ps1 ++ functionCallParts ps2.
Proof.
  induction ps1 as [|p ps1 IH]; [done|]. simpl.
  destruct (functionCall p) as [fc|]; [destruct (Json.truthy fc)|]; simpl; by rewrite IH.
Qed.

Lemma functionCallParts_nil ps :
  functionCallParts ps = [] <-> forallb (fun p => negb (has_call p)) ps = true.
Proof.
  induction ps as [|p ps IH]; [done|]. simpl. unfold has_call at 1.
  destruct (functionCall p) as [fc|]; [destruct (Json.truthy fc)|]; simpl; done.
Qed.

(** X5: the function calls of a parts sequence are absent exactly when
    no part carries one, and are never an empty list; the calls of
    earlier parts come before those of later parts. *)
Theorem getFunctionCallsFromParts_absent (ps1 ps2 : list Part) :
  (getFunctionCallsFromParts (Some ps1) = None <->
   forallb (fun p => negb (has_call p)) ps1 = true) /\
  getFunctionCallsFromParts (Some ps1) <> Some [] /\
  getFunctionCallsFromParts (Some (ps1 ++ ps2)) =
    match functionCallParts ps1 ++ functionCallParts ps2 with
    | [] => None
    | calls => Some calls
    end.
Proof.
  split; [|split].
  - rewrite <- functionCallParts_nil. simpl. by destruct (functionCallParts ps1).
  - simpl. by destruct (functionCallParts ps1).
  - simpl. by rewrite functionCallParts_app.
Qed.

(** ** Request translation *)

Section TranslationShape.

Import LlmProvider.

Lemma message_of_chat_message r c : message_of r c = chat_message r c.
Proof. reflexivity. Qed.

(** The role and the content of the message of one turn. *)
Lemma convertContentToMessage_shape item :
  exists r c, convertContentToMessage item = chat_message r c /\
              r <> "" /\ r <> "model".
Proof.
  destruct item as [s|[r ps]|p]; unfold convertContentToMessage.
  - by exists "user", s.
  - cbn [role parts]. destruct r as [r|]; [destruct ps as [ps|]|];
      try by eexists "user", _.
    destruct (JsString.truthy r) eqn:Hr; [|by eexists "user", _].
    destruct (String.eqb_spec r "model") as [->|Hne].
    + by eexists "assistant", _.
    + exists r. eexists. split; [reflexivity|]. split; [|done].
      intros ->. discriminate Hr.
  - by eexists "user", _.
Qed.

End TranslationShape.

(** X6: the chat translation gives one message for each turn, in the
    order of the turns, and each message is an object of exactly a
    [role] and a [content], both strings, whose role is not empty and is
    never [model]. *)
Theorem convertContentsToMessages_shape (cs : LlmProvider.ContentListUnion) :
  length (LlmProvider.convertContentsToMessages cs)
    = length (LlmProvider.contentArray cs) /\
  Forall (fun m => exists r c, m = chat_message r c /\ r <> "" /\ r <> "model")
         (LlmProvider.convertContentsToMessages cs) /\
  (forall i item, LlmProvider.contentArray cs !! i = Some item ->
     LlmProvider.convertContentsToMessages cs !! i
     = Some (LlmProvider.convertContentToMessage item)).
Proof.
  unfold LlmProvider.convertContentsToMessages. split; [apply length_map|]. split.
  - apply Forall_forall. intros m (item & -> & _)%list_elem_of_fmap.
    apply convertContentToMessage_shape.
  - intros i item Hi. change (List.map ?f ?l) with (f <$> l).
    by rewrite list_lookup_fmap, Hi.
Qed.

(** X7: the sampling parameters on the wire are those the caller gave and
    no other: each of [temperature], [max_tokens], [top_p] and [stop] is
    there exactly when the matching setting is, with its value untouched,
    and no other key is ever added; without a configuration there is no
    parameter at all. *)
Theorem convertConfigToOpenAIParams_exact (c : LlmProvider.GenerateContentConfig) :
  let params := LlmProvider.convertConfigToOpenAIParams (Some c) in
  Json.lookup "temperature" params = LlmProvider.temperature c /\
  Json.lookup "max_tokens" params = LlmProvider.maxOutputTokens c /\
  Json.lookup "top_p" params = LlmProvider.topP c /\
  Json.lookup "stop" params = LlmProvider.stopSequences c /\
  (forall k, ~ In k sampling_keys -> Json.lookup k params = None) /\
  LlmProvider.convertConfigToOpenAIParams None = [].
Proof.
  destruct c as [t m p s]. intros params. subst params.
  unfold LlmProvider.convertConfigToOpenAIParams.
  cbn [LlmProvider.temperature LlmProvider.maxOutputTokens LlmProvider.topP
       LlmProvider.stopSequences].
  rewrite !lookup_assign.
  split; [by destruct s, p, m, t|]. split; [by destruct s, p, m, t|].
  split; [by destruct s, p, m, t|]. split; [by destruct s, p, m, t|].
  split; [|done]. intros k Hk. rewrite !lookup_assign.
  assert (String.eqb k "stop" = false /\ String.eqb k "top_p" = false /\
          String.eqb k "max_tokens" = false /\ String.eqb k "temperature" = false)
    as (-> & -> & -> & ->).
  { repeat split; apply String.eqb_neq; intros ->; apply Hk; simpl; tauto. }
  by destruct s, p, m, t.
Qed.

(** X8: without an API key, or with an empty one, no header is derived:
    what is sent is the static headers and, when they have none, the
    JSON content type; [Authorization] and [X-API-Key] are sent only if
    the static headers hold them. *)
Theorem composeHeaders_without_key
    (this : LlmProvider.OpenAICompatibleProvider) (url : string) :
  LlmProvider.apiKey (LlmProvider.this_config this) = None \/
  LlmProvider.apiKey (LlmProvider.this_config this) = Some "" ->
  let static := default ∅ (LlmProvider.headers (LlmProvider.this_config this)) in
  let sent := LlmProvider.composeHeaders this url in
  sent = static ∪ {[ "Content-Type" := "application/json" ]} /\
  sent !! "Authorization" = static !! "Authorization" /\
  sent !! "X-API-Key" = static !! "X-API-Key".
Proof.
  intros Hkey static sent.
  assert (sent = static ∪ {[ "Content-Type" := "application/json" ]}) as ->.
  { subst sent. unfold LlmProvider.composeHeaders, LlmProvider.spread_map.
    by destruct Hkey as [-> | ->]. }
  split; [done|]. rewrite !lookup_union, !lookup_singleton_ne by done.
  split; by destruct (static !! _).
Qed.

Lemma composeHeaders_without_key_witness :
  LlmProvider.composeHeaders keyless_provider local_url !! "X-API-Key" = None /\
  LlmProvider.composeHeaders keyless_provider local_url !! "Authorization" = None.
Proof.
  destruct (composeHeaders_without_key keyless_provider local_url (or_intror eq_refl))
    as (_ & Hauth & Hkey).
  split; [exact Hkey | exact Hauth].
Defined.

(** ** The test on the first character and the parser *)

Section Guard.

Import JsonParser.

Lemma is_ws_white c : is_ws c = true -> JsString.is_white c = true.
Proof.
  unfold is_ws. intros H.
  repeat (apply orb_true_iff in H as [H|H]);
    apply Ascii.eqb_eq in H; by subst c.
Qed.

Lemma trimStart_skip_ws s c r :
  skip_ws s = String c r -> JsString.is_white c = false ->
  JsString.trimStart s = String c r.
Proof.
  induction s as [|x s IH]; simpl; [done|].
  destruct (is_ws x) eqn:Hx.
  - rewrite (is_ws_white _ Hx). apply IH.
  - intros [= -> ->] Hc. by rewrite Hc.
Qed.

Lemma startsWith_char c r x :
  JsString.startsWith (String c r) (String x EmptyString) = Ascii.eqb c x.
Proof.
  unfold JsString.startsWith. simpl.
  destruct (ascii_dec x c) as [->|Hne].
  - rewrite Ascii.eqb_refl. by destruct r.
  - symmetry. apply Ascii.eqb_neq. congruence.
Qed.

(** The test of [makeApiRequest] on a text whose first character after
    the JSON white space is [c]. *)
Lemma looksLikeJson_first s c r :
  skip_ws s = String c r -> JsString.is_white c = false ->
  LlmProvider.looksLikeJson s = Ascii.eqb c "{" || Ascii.eqb c "[".
Proof.
  intros Hs Hc. unfold LlmProvider.looksLikeJson, JsString.trim.
  rewrite (trimStart_skip_ws _ _ _ Hs Hc).
  destruct (trimEnd_head c r Hc) as [r' ->].
  by rewrite !startsWith_char.
Qed.

Lemma is_nat_not_white c : is_Some (Ascii.is_nat c) -> JsString.is_white c = false.
Proof. destruct c as [[] [] [] [] [] [] [] []]; by intros [? ?]. Qed.

Lemma is_nat_not_bracket c :
  is_Some (Ascii.is_nat c) -> Ascii.eqb c "{" || Ascii.eqb c "[" = false.
Proof. destruct c as [[] [] [] [] [] [] [] []]; by intros [? ?]. Qed.

Lemma some_digits_first c r d r' :
  some_digits (String c r) = Some (d, r') -> is_Some (Ascii.is_nat c).
Proof.
  unfold some_digits. simpl. destruct (Ascii.is_nat c); [by eexists|done].
Qed.

(** A number starts with a sign or a digit and is a number. *)
Lemma parse_number_first c r v r' :
  parse_number (String c r) = Some (v, r') ->
  JsString.is_white c = false /\
  Ascii.eqb c "{" || Ascii.eqb c "[" = false /\
  is_container v = false.
Proof.
  unfold parse_number, after_char at 1.
  destruct (Ascii.eqb_spec c "-") as [->|Hminus].
  - destruct (parse_int r) as [[i s2]|]; [|done].
    destruct (parse_frac s2) as [[f s3]|]; [|done].
    destruct (parse_exp s3) as [[x s4]|]; [|done]. by intros [= <- _].
  - destruct (parse_int (String c r)) as [[i s2]|] eqn:Hi; [|done].
    destruct (parse_frac s2) as [[f s3]|]; [|done].
    destruct (parse_exp s3) as [[x s4]|]; [|done]. intros [= <- _].
    assert (is_Some (Ascii.is_nat c)) as Hc.
    { revert Hi. unfold parse_int, after_char.
      destruct (Ascii.eqb_spec c "0") as [->|_]; [by eexists|].
      apply some_digits_first. }
    split; [by apply is_nat_not_white|]. split; [by apply is_nat_not_bracket|done].
Qed.

Lemma keyword_value kw v s v' r : keyword kw v s = Some (v', r) -> v' = v.
Proof. unfold keyword. destruct (String.prefix kw s); [by intros [= <- _]|done]. Qed.

(** The first character of a text that parses tells whether the value is
    an object or an array. *)
Lemma parse_value_first f :
  (forall s v r, parse_value f s = Some (v, r) ->
     exists c r0, skip_ws s = String c r0 /\ JsString.is_white c = false /\
                  Ascii.eqb c "{" || Ascii.eqb c "[" = is_container v) /\
  (forall s acc v r, parse_elements f s acc = Some (v, r) -> is_container v = true) /\
  (forall s acc v r, parse_members f s acc = Some (v, r) -> is_container v = true).
Proof.
  induction f as [|f (IHv & IHe & IHm)]; [done|]. split; [|split].
  - intros s v r. rewrite parse_value_S.
    destruct (skip_ws s) as [|c r0]; [done|].
    destruct (Ascii.eqb_spec c "{") as [->|Hobj].
    { intros H. exists "{"%char, r0. split; [done|]. split; [done|].
      destruct (after_char "}" (skip_ws r0)); [by injection H as <- _|].
      symmetry. by apply IHm in H. }
    destruct (Ascii.eqb_spec c "[") as [->|Harr].
    { intros H. exists "["%char, r0. split; [done|]. split; [done|].
      destruct (after_char "]" (skip_ws r0)); [by injection H as <- _|].
      symmetry. by apply IHe in H. }
    destruct (Ascii.eqb_spec c "034") as [->|_].
    { destruct (parse_string_body r0) as [[t r']|]; [|done].
      intros [= <- _]. by exists "034"%char, r0. }
    destruct (Ascii.eqb_spec c "t") as [->|_].
    { intros ->%keyword_value. by exists "t"%char, r0. }
    destruct (Ascii.eqb_spec c "f") as [->|_].
    { intros ->%keyword_value. by exists "f"%char, r0. }
    destruct (Ascii.eqb_spec c "n") as [->|_].
    { intros ->%keyword_value. by exists "n"%char, r0. }
    intros (Hwhite & Hbracket & Hv)%parse_number_first.
    exists c, r0. by rewrite Hbracket, Hv.
  - intros s acc v r. rewrite parse_elements_S.
    destruct (parse_value f s) as [[v0 r0]|]; [|done].
    destruct (after_char "," (skip_ws r0)) as [r'|]; [apply IHe|].
    destruct (after_char "]" (skip_ws r0)); [by intros [= <- _]|done].
  - intros s acc v r. rewrite parse_members_S.
    destruct (after_char "034" (skip_ws s)) as [r0|]; [|done].
    destruct (parse_string_body r0) as [[k r1]|]; [|done].
    destruct (after_char ":" (skip_ws r1)) as [r2|]; [|done].
    destruct (parse_value f r2) as [[v0 r3]|]; [|done].
    destruct (after_char "," (skip_ws r3)) as [r4|]; [apply IHm|].
    destruct (after_char "}" (skip_ws r3)); [by intros [= <- _]|done].
Qed.

(** A text that parses passes the test of [makeApiRequest] exactly when
    it is the text of an object or of an array. *)
Lemma looksLikeJson_parse t v :
  parse t = Some v -> LlmProvider.looksLikeJson t = is_container v.
Proof.
  unfold parse.
  destruct (parse_value _ t) as [[v' r]|] eqn:Hv; [|done].
  destruct (skip_ws r); [|done]. intros [= ->].
  apply (proj1 (parse_value_first _)) in Hv as (c & r0 & Hs & Hc & <-).
  by apply looksLikeJson_first with (r := r0).
Qed.

End Guard.

(** ** The exchange on a success status and on a refused connection *)

Section Exchange.

Import LlmProvider.

(** What [makeApiRequest] gives on a status in 200-299. *)
Lemma makeApiRequest_ok this url props rt log resp :
  fetch rt log (post_of this url props) = Resolved resp ->
  ok resp = true ->
  makeApiRequest this url props rt log =
  (match body resp with
   | BodyFailed e => Thrown (Error ("Failed to read response: " +:+ message e))
   | BodyText t =>
       match JsonParser.parse t with
       | Some v =>
           if is_container v then Returned v
           else Thrown (Error ("API returned non-JSON response. Response starts with: " +:+
                               excerpt t))
       | None =>
           if looksLikeJson t
           then Thrown (Error ("Failed to parse JSON response: " +:+
                               syntaxErrorMessage rt t +:+
                               ". Response text: " +:+ excerpt t))
           else Thrown (Error ("API returned non-JSON response. Response starts with: " +:+
                               excerpt t))
       end
   end, log ++ [post_of this url props]).
Proof.
  intros Hfetch Hok.
  unfold makeApiRequest, bind, try_catch, js_fetch, throw, ret, response_text, JSON_parse.
  fold (post_of this url props). rewrite Hfetch, Hok.
  destruct (body resp) as [t|e]; simpl; [|done].
  destruct (JsonParser.parse t) as [v|] eqn:Hparse.
  - rewrite (looksLikeJson_parse _ _ Hparse). by destruct (is_container v).
  - by destruct (looksLikeJson t).
Qed.

Lemma makeApiRequest_rejected this url props rt log e :
  fetch rt log (post_of this url props) = Rejected e ->
  makeApiRequest this url props rt log =
  (Thrown (Error ("Network error when making API request: " +:+ message e)),
   log ++ [post_of this url props]).
Proof.
  intros Hfetch.
  unfold makeApiRequest, bind, try_catch, js_fetch, throw.
  fold (post_of this url props). by rewrite Hfetch.
Qed.

(** The test of [makeApiRequest] looks at the first character after the
    leading white space. *)
Lemma trimStart_head t c r :
  JsString.trimStart t = String c r -> JsString.is_white c = false.
Proof.
  induction t as [|x t IH]; simpl; [done|].
  destruct (JsString.is_white x) eqn:Hx; [done|]. by intros [= <- _].
Qed.

Lemma looksLikeJson_opens t : looksLikeJson t = opens_bracket t.
Proof.
  unfold looksLikeJson, opens_bracket, JsString.trim.
  destruct (JsString.trimStart t) as [|c r] eqn:Ht; [done|].
  destruct (trimEnd_head c r (trimStart_head _ _ _ Ht)) as [r' ->].
  by rewrite !startsWith_char.
Qed.

End Exchange.

(** X9: on a status in 200-299 the call sends its one request, and
    - a body that cannot be read is refused with the message of that
      failure;
    - a body whose first character after the white space is neither a
      brace nor a bracket is refused as not being JSON, with the excerpt
      of the body; so is every body that is the JSON text of a string, a
      number, a boolean or [null];
    - a body that is the JSON text of an object or an array is returned
      as that value (stated for numbers that binary64 holds as written);
    - a body that opens a brace or a bracket and is not a JSON text is
      refused with the message of the parser and the excerpt (stated for
      texts without a [\u] escape). *)
Theorem makeApiRequest_success
    (this : LlmProvider.OpenAICompatibleProvider) (url : string)
    (props : list (string * json)) (rt : Runtime) (log : list Request)
    (resp : Response) :
  fetch rt log (post_of this url props) = Resolved resp ->
  ok resp = true ->
  let run := LlmProvider.makeApiRequest this url props rt log in
  snd run = log ++ [post_of this url props] /\
  (forall e, body resp = BodyFailed e ->
     fst run = Thrown (Error ("Failed to read response: " +:+ message e))) /\
  (forall t, body resp = BodyText t -> opens_bracket t = false ->
     fst run = Thrown (not_json_error t)) /\
  (forall t v, body resp = BodyText t -> JsonParser.parse t = Some v ->
     is_container v = false -> fst run = Thrown (not_json_error t)) /\
  (forall t v, body resp = BodyText t -> JsonParser.parse t = Some v ->
     is_container v = true -> exact_numbers v = true -> fst run = Returned v) /\
  (forall t, body resp = BodyText t -> opens_bracket t = true ->
     JsonParser.parse t = None -> no_unicode_escape t = true ->
     fst run = Thrown (broken_json_error rt t)).
Proof.
  intros Hfetch Hok run. subst run.
  rewrite (makeApiRequest_ok _ _ _ _ _ _ Hfetch Hok). cbn [fst snd].
  split; [done|]. split; [by intros e ->|].
  split.
  { intros t -> Hopen. rewrite <- looksLikeJson_opens in Hopen.
    destruct (JsonParser.parse t) as [v|] eqn:Hparse.
    - by rewrite <- (looksLikeJson_parse _ _ Hparse), Hopen.
    - by rewrite Hopen. }
  split; [by intros t v -> -> ->|].
  split; [by intros t v -> -> -> _|].
  intros t -> Hopen -> _. by rewrite looksLikeJson_opens, Hopen.
Qed.

Lemma makeApiRequest_success_witness :
  fst (LlmProvider.makeApiRequest local_provider local_url []
         (answering 200 (BodyText "42")) [])
  = Thrown (Error "API returned non-JSON response. Response starts with: 42").
Proof.
  exact (proj1 (proj2 (proj2 (proj2
           (makeApiRequest_success local_provider local_url []
              (answering 200 (BodyText "42")) []
              {| status := 200; body := BodyText "42" |} eq_refl eq_refl))))
           "42" (JNum 42 0) eq_refl eq_refl eq_refl).
Defined.

(** X10: when the connection fails, [generateContent] fails with the
    network error that carries the message of the failure; the one
    request has been tried and no other is. *)
Theorem generateContent_network_error
    (this : LlmProvider.OpenAICompatibleProvider)
    (request : LlmProvider.GenerateContentParameters)
    (rt : Runtime) (log : list Request) (e : JsError) :
  let url := LlmProvider.apiUrl (LlmProvider.this_config this) in
  let sent :=
    post_of this url
      (LlmProvider.prepareGenerateContentRequest this request
         (JsString.includes url "chat/completions")) in
  fetch rt log sent = Rejected e ->
  LlmProvider.generateContent this request rt log
  = (Thrown (Error ("Network error when making API request: " +:+ message e)),
     log ++ [sent]) /\
  is_network_error (Error ("Network error when making API request: " +:+ message e))
  = true.
Proof.
  intros url sent Hfetch. split; [|reflexivity].
  unfold LlmProvider.generateContent, bind. fold url.
  by rewrite (makeApiRequest_rejected _ _ _ _ _ _ Hfetch).
Qed.

Lemma generateContent_network_error_witness :
  fst (LlmProvider.generateContent local_provider hi_request unreachable [])
  = Thrown (Error "Network error when making API request: fetch failed").
Proof.
  exact (f_equal fst
           (proj1 (generateContent_network_error local_provider hi_request
                     unreachable [] (TypeError "fetch failed") eq_refl))).
Defined.

(** X11: [generateContentStream] does not ask the server for a stream:
    whatever the server does, it has sent exactly one request, the one
    of [generateContent], whose body has the shape that goes with the
    endpoint and no [stream] key. *)
Theorem generateContentStream_one_plain_request
    (this : LlmProvider.OpenAICompatibleProvider)
    (request : LlmProvider.GenerateContentParameters)
    (rt : Runtime) (log : list Request) :
  let url := LlmProvider.apiUrl (LlmProvider.this_config this) in
  exists props,
    snd (LlmProvider.generateContentStream this request rt log)
    = log ++ [post_of this url props] /\
    body_shape (JsString.includes url "chat/completions") props /\
    Json.lookup "stream" props = None.
Proof.
  intros url. eexists. split; [|split].
  - transitivity (snd (LlmProvider.generateContent this request rt log)).
    + unfold LlmProvider.generateContentStream, bind, ret.
      by destruct (LlmProvider.generateContent this request rt log) as [[r|e] log'].
    + apply generateContent_log.
  - apply prepareGenerateContentRequest_shape.
  - assert (Json.lookup "stream"
              (LlmProvider.convertConfigToOpenAIParams (LlmProvider.config request))
            = None) as Hparams.
    { destruct (LlmProvider.config request) as [[t m p s]|]; [|done].
      unfold LlmProvider.convertConfigToOpenAIParams.
      rewrite !lookup_assign. simpl. by destruct s, p, m, t. }
    unfold LlmProvider.prepareGenerateContentRequest.
    destruct (JsString.includes _ "chat/completions");
      by rewrite (lookup_spread _ _ _ Hparams).
Qed.

(** ** Reading the answer *)

Section Answer.

Import LlmProvider.

(** The usage of an answer that is an object never makes the reading
    fail. *)
Lemma parseUsage_object props :
  exists usage,
    parseUsage (JObj props) = Returned usage /\
    (Json.lookup "usage" props = None -> usage = None) /\
    (forall u, Json.lookup "usage" props = Some (JObj u) ->
       usage = Some {| promptTokenCount := Json.lookup "prompt_tokens" u;
                       candidatesTokenCount := Json.lookup "completion_tokens" u;
                       totalTokenCount := Json.lookup "total_tokens" u |}).
Proof.
  unfold parseUsage. simpl.
  destruct (Json.lookup "usage" props) as [u|]; simpl.
  - destruct (Json.truthy u) eqn:Hu; eexists; (split; [reflexivity|]);
      (split; [done|]); intros u' [= ->]; [done | discriminate Hu].
  - eexists. by split; [|split].
Qed.

Lemma parseCandidates_text props chat s :
  first_choice_text chat (JObj props) = Some (JStr s) ->
  parseCandidates (JObj props) chat =
  Returned (Some [ {| content :=
                        Some {| role := Some "model"; parts := Some [textPart s] |} |} ]).
Proof.
  unfold first_choice_text, parseCandidates. simpl.
  destruct (Json.lookup "choices" props) as [[| | | |[|[| | | | |choice] rest]|]|];
    try done.
  simpl. unfold choiceText. destruct chat; simpl.
  - destruct (Json.lookup "message" choice) as [[| | | | |m]|]; try done. simpl.
    intros ->. simpl. by destruct s.
  - intros ->. simpl. by destruct s.
Qed.

(** The response read from an answer whose first choice holds a string. *)
Lemma parseGenerateContentResponse_text_aux props chat s :
  first_choice_text chat (JObj props) = Some (JStr s) ->
  exists usage,
    parseGenerateContentResponse (JObj props) chat
    = Returned (model_text_response s usage).
Proof.
  intros Htext. destruct (parseUsage_object props) as (usage & Husage & _).
  exists usage. unfold parseGenerateContentResponse.
  by rewrite (parseCandidates_text _ _ _ Htext), Husage.
Qed.

End Answer.

(** X12: an answer without choices is not an error: when [choices] is
    missing, [null] or an empty array, the response has no candidate, and
    the text, the function calls and the structured response read from it
    are all absent. *)
Theorem parseGenerateContentResponse_no_choices
    (props : list (string * json)) (chat : bool) :
  Json.lookup "choices" props = None \/
  Json.lookup "choices" props = Some JNull \/
  Json.lookup "choices" props = Some (JArr []) ->
  exists response,
    LlmProvider.parseGenerateContentResponse (JObj props) chat = Returned response /\
    candidates response = None /\
    getResponseText response = None /\
    getFunctionCalls response = None /\
    getStructuredResponse response = None.
Proof.
  intros Hchoices. destruct (parseUsage_object props) as (usage & Husage & _).
  exists {| candidates := None; usageMetadata := usage |}. split; [|done].
  unfold LlmProvider.parseGenerateContentResponse, LlmProvider.parseCandidates.
  rewrite Husage. simpl.
  by destruct Hchoices as [-> | [-> | ->]].
Qed.

Lemma parseGenerateContentResponse_no_choices_witness :
  exists response,
    LlmProvider.parseGenerateContentResponse (JObj [("choices", JArr [])]) true
    = Returned response /\
    getResponseText response = None.
Proof.
  destruct (parseGenerateContentResponse_no_choices [("choices", JArr [])] true
              (or_intror (or_intror eq_refl))) as (response & Hrun & _ & Htext & _).
  exists response. split; [exact Hrun | exact Htext].
Defined.

(** X13: when the first choice of the answer holds a string (under
    [message.content] for a chat endpoint, under [text] for a completion
    endpoint), the response has exactly one candidate, of role [model],
    with that string as its one text part; the other choices are not
    read; the usage counts are copied when the answer has a [usage]
    object and are absent when it has none. *)
Theorem parseGenerateContentResponse_text
    (props : list (string * json)) (chat : bool) (s : string) :
  first_choice_text chat (JObj props) = Some (JStr s) ->
  exists usage,
    LlmProvider.parseGenerateContentResponse (JObj props) chat
    = Returned (model_text_response s usage) /\
    (Json.lookup "usage" props = None -> usage = None) /\
    (forall u, Json.lookup "usage" props = Some (JObj u) ->
       usage = Some {| promptTokenCount := Json.lookup "prompt_tokens" u;
                       candidatesTokenCount := Json.lookup "completion_tokens" u;
                       totalTokenCount := Json.lookup "total_tokens" u |}).
Proof.
  intros Htext. destruct (parseUsage_object props) as (usage & Husage & Hnone & Hsome).
  exists usage. split; [|by split].
  unfold LlmProvider.parseGenerateContentResponse.
  by rewrite (parseCandidates_text _ _ _ Htext), Husage.
Qed.

Lemma parseGenerateContentResponse_text_witness :
  exists usage,
    LlmProvider.parseGenerateContentResponse
      (JObj [("choices", JArr [JObj [("text", JStr "hi")]; JNull])]) false
    = Returned (model_text_response "hi" usage).
Proof.
  destruct (parseGenerateContentResponse_text
              [("choices", JArr [JObj [("text", JStr "hi")]; JNull])] false "hi" eq_refl)
    as (usage & Hrun & _).
  by exists usage.
Defined.

(** X14: a first choice that is [null] is not tolerated: reading the
    answer fails with a [TypeError], whatever follows in the array. *)
Theorem parseGenerateContentResponse_null_choice
    (props : list (string * json)) (rest : list json) (chat : bool) :
  Json.lookup "choices" props = Some (JArr (JNull :: rest)) ->
  exists m,
    LlmProvider.parseGenerateContentResponse (JObj props) chat = Thrown (TypeError m).
Proof.
  intros Hchoices.
  unfold LlmProvider.parseGenerateContentResponse, LlmProvider.parseCandidates.
  simpl. rewrite Hchoices. simpl. destruct chat; by eexists.
Qed.

Lemma parseGenerateContentResponse_null_choice_witness :
  exists m,
    LlmProvider.parseGenerateContentResponse (JObj [("choices", JArr [JNull])]) true
    = Thrown (TypeError m).
Proof.
  exact (parseGenerateContentResponse_null_choice [("choices", JArr [JNull])] [] true
           eq_refl).
Defined.

(** X15: from the request to the text: when the server answers with a
    status in 200-299 and a body that parses to an answer whose first
    choice holds the string [s], [generateContent] returns a response
    whose extracted text is [s] with its code fences stripped, and
    nothing but the one request has been sent. *)
Theorem generateContent_text
    (this : LlmProvider.OpenAICompatibleProvider)
    (request : LlmProvider.GenerateContentParameters)
    (rt : Runtime) (log : list Request)
    (resp : Response) (t : string) (answer : json) (s : string) :
  let url := LlmProvider.apiUrl (LlmProvider.this_config this) in
  let chat := JsString.includes url "chat/completions" in
  let sent :=
    post_of this url (LlmProvider.prepareGenerateContentRequest this request chat) in
  fetch rt log sent = Resolved resp ->
  ok resp = true ->
  body resp = BodyText t ->
  JsonParser.parse t = Some answer ->
  first_choice_text chat answer = Some (JStr s) ->
  exists response,
    LlmProvider.generateContent this request rt log = (Returned response, log ++ [sent]) /\
    getResponseText response = Some (stripMarkdownCodeBlocks s).
Proof.
  intros url chat sent Hfetch Hok Hbody Hparse Htext.
  destruct answer as [| | | | |props]; try done.
  destruct (parseGenerateContentResponse_text_aux props chat s Htext) as (usage & Hread).
  exists (model_text_response s usage). split; [|done].
  unfold LlmProvider.generateContent, bind, lift. fold url chat.
  rewrite (makeApiRequest_ok _ _ _ _ _ _ Hfetch Hok), Hbody, Hparse. simpl.
  by rewrite Hread.
Qed.

Lemma generateContent_text_witness :
  exists response,
    fst (LlmProvider.generateContent local_provider hi_request echo_chat [])
    = Returned response /\
    getResponseText response = Some "hi".
Proof.
  destruct (generateContent_text local_provider hi_request echo_chat []
              {| status := 200;
                 body := BodyText (dq "{'choices':[{'message':{'content':'hi'}}]}") |}
              (dq "{'choices':[{'message':{'content':'hi'}}]}")
              (JObj [("choices",
                      JArr [JObj [("message", JObj [("content", JStr "hi")])]])])
              "hi" eq_refl eq_refl eq_refl eq_refl eq_refl)
    as (response & Hrun & Htext).
  exists response. split; [exact (f_equal fst Hrun) | exact Htext].
Defined.

(** ** The configuration and the factory together *)

Section Builder.

Import ContentGenerator.

Lemma authType_is_auth_eq m k v a p x :
  authType_is {| model := m; apiKey := k; vertexai := v; authType := a; proxy := p |} x
  = auth_eq a x.
Proof. reflexivity. Qed.

(** Without the generic settings the builder keeps the auth type and the
    proxy, and resolves the model. *)
Lemma createContentGeneratorConfig_vendor D process config a :
  genericConfigured process = false ->
  let built := createContentGeneratorConfig D process config a in
  authType built = a /\
  proxy built = getProxy config /\
  model built = (if JsString.truthy (getModel config) then getModel config else D).
Proof.
  unfold genericConfigured, createContentGeneratorConfig. intros ->. simpl.
  rewrite !authType_is_auth_eq.
  destruct (auth_eq a LOGIN_WITH_GOOGLE || auth_eq a CLOUD_SHELL); [done|].
  destruct (auth_eq a USE_GEMINI && _); [done|].
  by destruct (auth_eq a USE_VERTEX_AI && _).
Qed.

Lemma auth_eq_exclusive a x y : x <> y -> auth_eq a x = true -> auth_eq a y = false.
Proof.
  unfold auth_eq. destruct a as [s|]; [|done].
  intros Hne ->%String.eqb_eq. by destruct x, y.
Qed.

End Builder.

(** X16: with the three generic settings, the configuration is built
    from them whatever the auth type asked for and whatever vendor keys
    the environment holds: the model and the key are the generic ones and
    the auth type is recorded as [gemini-api-key]; the factory, given
    this configuration, builds the OpenAI-compatible provider with the
    same model, key and proxy. *)
Theorem createContentGeneratorConfig_generic
    (D : string) (process : ContentGenerator.Process)
    (config : ContentGenerator.Config) (a : option string)
    (libs : ContentGenerator.Libraries) (sessionId : option string) :
  genericConfigured process = true ->
  let built := ContentGenerator.createContentGeneratorConfig D process config a in
  ContentGenerator.env process !! "LLM_MODEL" = Some (ContentGenerator.model built) /\
  ContentGenerator.env process !! "LLM_API_KEY" = ContentGenerator.apiKey built /\
  ContentGenerator.authType built = Some "gemini-api-key" /\
  ContentGenerator.proxy built = ContentGenerator.getProxy config /\
  exists p,
    ContentGenerator.createContentGenerator libs process built sessionId
    = Returned (ContentGenerator.Fulfilled (ContentGenerator.OpenAICompatible p)) /\
    LlmProvider.model (LlmProvider.this_config p) = ContentGenerator.model built /\
    LlmProvider.apiKey (LlmProvider.this_config p) = ContentGenerator.apiKey built /\
    LlmProvider.proxy (LlmProvider.this_config p) = ContentGenerator.proxy built.
Proof.
  intros Hgen built.
  assert (built = {| ContentGenerator.model :=
                       default "" (ContentGenerator.env process !! "LLM_MODEL");
                     ContentGenerator.apiKey := ContentGenerator.env process !! "LLM_API_KEY";
                     ContentGenerator.vertexai := None;
                     ContentGenerator.authType := Some "gemini-api-key";
                     ContentGenerator.proxy := ContentGenerator.getProxy config |}) as Hbuilt.
  { subst built. unfold ContentGenerator.createContentGeneratorConfig.
    unfold genericConfigured in Hgen. by rewrite Hgen. }
  destruct (createContentGenerator_generic libs process built sessionId Hgen)
    as (p & Hrun & _ & Hkey & Hmodel).
  assert (LlmProvider.proxy (LlmProvider.this_config p) = ContentGenerator.proxy built)
    as Hproxy.
  { revert Hrun.
    unfold ContentGenerator.createContentGenerator,
      ContentGenerator.createContentGenerator_body.
    unfold genericConfigured in Hgen. rewrite Hgen. by intros [= <-]. }
  rewrite Hbuilt in *. simpl in *. rewrite Hmodel. simpl.
  repeat split; try done. exists p. by rewrite Hmodel in *.
Qed.

Lemma createContentGeneratorConfig_generic_witness :
  ContentGenerator.authType
    (ContentGenerator.createContentGeneratorConfig "gemini-2.5-pro" generic_process
       some_config (Some "vertex-ai"))
  = Some "gemini-api-key".
Proof.
  exact (proj1 (proj2 (proj2
           (createContentGeneratorConfig_generic "gemini-2.5-pro" generic_process
              some_config (Some "vertex-ai") working_libraries None eq_refl)))).
Defined.

(** X17: the factory, given the configuration that the builder makes
    from the same environment, gives a promise and never throws; when
    the generic settings are not all there and the auth type is none of
    [oauth-personal], [cloud-shell], [gemini-api-key] and [vertex-ai],
    the promise is rejected with the configuration error that names the
    auth type given to the builder, whatever the libraries of the
    vendors do; with libraries that do not fail this is the only way for
    the promise to be rejected, so a missing vendor key does not make
    the factory itself fail. *)
Theorem createContentGenerator_after_config
    (D : string) (process : ContentGenerator.Process)
    (config : ContentGenerator.Config) (a : option string)
    (sessionId : option string) :
  let made libs :=
    ContentGenerator.createContentGenerator libs process
      (ContentGenerator.createContentGeneratorConfig D process config a) sessionId in
  (forall libs, exists promise, made libs = Returned promise) /\
  (genericConfigured process = false -> vendor_auth a = false ->
   forall libs,
     made libs = Returned (ContentGenerator.Rejected (unsupported_auth_error a))) /\
  (forall libs, reliable libs ->
     (exists e, made libs = Returned (ContentGenerator.Rejected e)) <->
     genericConfigured process = false /\ vendor_auth a = false).
Proof.
  cbv zeta.
  set (built := ContentGenerator.createContentGeneratorConfig D process config a).
  split; [intros libs; apply async_returns|].
  destruct (genericConfigured process) eqn:Hgen.
  - split; [done|]. intros libs _.
    destruct (createContentGenerator_generic libs process built sessionId Hgen)
      as (p & -> & _).
    split; [by intros [e [=]] | by intros [[=] _]].
  - assert (ContentGenerator.authType built = a) as Hauth.
    { by destruct (createContentGeneratorConfig_vendor D process config a Hgen)
        as (? & _). }
    pose proof (vendor_auth_branches built) as Hb. rewrite Hauth in Hb.
    pose proof (fun libs =>
                  createContentGenerator_vendor libs process built sessionId Hgen) as Hrun.
    pose proof (authType_text_name built) as Htext. rewrite Hauth in Htext.
    destruct (ContentGenerator.authType_is built ContentGenerator.LOGIN_WITH_GOOGLE
              || ContentGenerator.authType_is built ContentGenerator.CLOUD_SHELL).
    { rewrite orb_true_l in Hb. rewrite Hb. split; [done|].
      intros libs [Hlib _]. rewrite Hrun.
      unfold ContentGenerator.createCodeAssistContentGenerator. rewrite Hlib. simpl.
      split; [by intros [e [=]] | by intros [_ [=]]]. }
    destruct (ContentGenerator.authType_is built ContentGenerator.USE_GEMINI
              || ContentGenerator.authType_is built ContentGenerator.USE_VERTEX_AI).
    { rewrite orb_true_r in Hb. rewrite Hb. split; [done|].
      intros libs [_ Hlib]. rewrite Hrun.
      unfold ContentGenerator.new_GoogleGenAIWrapper. rewrite Hlib. simpl.
      split; [by intros [e [=]] | by intros [_ [=]]]. }
    split.
    + intros _ _ libs. by rewrite Hrun, Htext.
    + intros libs _. rewrite Hrun, Hb. split; [done | by eexists].
Qed.

(** X18: without the generic settings, the configuration keeps the auth
    type and the proxy it is given; its model is the model of the
    settings, or the default model when that one is empty; a key is
    attached only for [gemini-api-key] (the Gemini key of the
    environment) and for [vertex-ai] (the Google key), never for the
    other auth types whatever the environment holds, and the key
    attached is never the empty string. *)
Theorem createContentGeneratorConfig_vendor_fields
    (D : string) (process : ContentGenerator.Process)
    (config : ContentGenerator.Config) (a : option string) :
  genericConfigured process = false ->
  let built := ContentGenerator.createContentGeneratorConfig D process config a in
  ContentGenerator.authType built = a /\
  ContentGenerator.proxy built = ContentGenerator.getProxy config /\
  ContentGenerator.model built
    = (if JsString.truthy (ContentGenerator.getModel config)
       then ContentGenerator.getModel config else D) /\
  ContentGenerator.apiKey built
    = (if auth_eq a ContentGenerator.USE_GEMINI
       then ContentGenerator.env_or_undefined process "GEMINI_API_KEY"
       else if auth_eq a ContentGenerator.USE_VERTEX_AI
       then ContentGenerator.env_or_undefined process "GOOGLE_API_KEY"
       else None) /\
  ContentGenerator.apiKey built <> Some "".
Proof.
  intros Hgen built.
  destruct (createContentGeneratorConfig_vendor D process config a Hgen)
    as (Hauth & Hproxy & Hmodel).
  split; [done|]. split; [done|]. split; [done|].
  assert (ContentGenerator.apiKey built
          = (if auth_eq a ContentGenerator.USE_GEMINI
             then ContentGenerator.env_or_undefined process "GEMINI_API_KEY"
             else if auth_eq a ContentGenerator.USE_VERTEX_AI
             then ContentGenerator.env_or_undefined process "GOOGLE_API_KEY"
             else None)) as Hkey.
  { subst built. unfold ContentGenerator.createContentGeneratorConfig.
    unfold genericConfigured in Hgen. rewrite Hgen. cbv zeta.
    rewrite !authType_is_auth_eq.
    destruct (auth_eq a ContentGenerator.LOGIN_WITH_GOOGLE) eqn:Hlogin.
    { rewrite (auth_eq_exclusive a ContentGenerator.LOGIN_WITH_GOOGLE
                 ContentGenerator.USE_GEMINI), 
              (auth_eq_exclusive a ContentGenerator.LOGIN_WITH_GOOGLE
                 ContentGenerator.USE_VERTEX_AI) by done. done. }
    destruct (auth_eq a ContentGenerator.CLOUD_SHELL) eqn:Hshell.
    { rewrite (auth_eq_exclusive a ContentGenerator.CLOUD_SHELL
                 ContentGenerator.USE_GEMINI), 
              (auth_eq_exclusive a ContentGenerator.CLOUD_SHELL
                 ContentGenerator.USE_VERTEX_AI) by done. done. }
    cbn [orb].
    destruct (auth_eq a ContentGenerator.USE_GEMINI) eqn:Hgemini.
    { rewrite (auth_eq_exclusive a ContentGenerator.USE_GEMINI
                 ContentGenerator.USE_VERTEX_AI) by done.
      by destruct (ContentGenerator.env_or_undefined process "GEMINI_API_KEY"). }
    cbn [andb].
    destruct (auth_eq a ContentGenerator.USE_VERTEX_AI); [|done]. cbn [andb].
    destruct (ContentGenerator.env_or_undefined process "GOOGLE_API_KEY"); [done|].
    by destruct (_ || _). }
  split; [done|]. rewrite Hkey.
  assert (forall name, ContentGenerator.env_or_undefined process name <> Some "") as Hne.
  { intros name. unfold ContentGenerator.env_or_undefined.
    destruct (ContentGenerator.env process !! name) as [[|c v]|]; done. }
  destruct (auth_eq a ContentGenerator.USE_GEMINI); [apply Hne|].
  destruct (auth_eq a ContentGenerator.USE_VERTEX_AI); [apply Hne|done].
Qed.

Lemma createContentGeneratorConfig_vendor_fields_witness :
  ContentGenerator.apiKey
    (ContentGenerator.createContentGeneratorConfig "gemini-2.5-pro" vendor_process
       some_config (Some "oauth-personal")) = None /\
  ContentGenerator.model
    (ContentGenerator.createContentGeneratorConfig "gemini-2.5-pro" vendor_process
       some_config (Some "oauth-personal")) = "gemini-2.5-pro".
Proof.
  destruct (createContentGeneratorConfig_vendor_fields "gemini-2.5-pro" vendor_process
              some_config (Some "oauth-personal") eq_refl)
    as (_ & _ & Hmodel & Hkey & _).
  split; [exact Hkey | exact Hmodel].
Defined.

(** ** The dialog of the generic provider *)

Section Dialog.

Import MultiLLMConfigDialog.

Lemma dropLast_app_char s c : dropLast (s +:+ String c EmptyString) = s.
Proof.
  induction s as [|x s IH]; [done|]. rewrite app_cons. simpl. rewrite IH.
  by destruct s.
Qed.

Lemma complete_fields st :
  complete st = true ->
  JsString.truthy (llmApiUrl st) = true /\
  JsString.truthy (llmApiKey st) = true /\
  JsString.truthy (llmModel st) = true.
Proof. unfold complete. by intros [[? ?]%andb_true_iff ?]%andb_true_iff. Qed.

(** What [handleSave] does, by the state of the three fields. *)
Lemma handleSave_cases writeFails st :
  handleSave writeFails st =
  if complete st then
    ((if writeFails (envContent st)
      then setErrorMessage
             "Failed to save configuration to .env file. Configuration will only persist for this session."
             st
      else st),
     [SetEnv "LLM_API_URL" (llmApiUrl st); SetEnv "LLM_API_KEY" (llmApiKey st);
      SetEnv "LLM_MODEL" (llmModel st); WriteEnvFile (envContent st);
      OnSelect None])
  else (setErrorMessage "All fields are required to configure Multi-LLM provider." st, []).
Proof.
  unfold handleSave, complete.
  by destruct (JsString.truthy (llmApiUrl st)), (JsString.truthy (llmApiKey st)),
             (JsString.truthy (llmModel st)).
Qed.

End Dialog.

(** X19: the Tab key moves the focus around the three fields: it always
    changes the field, three presses bring the dialog back to the state
    it was in, and no press does anything outside the dialog. *)
Theorem handleInput_tab_cycle
    (writeFails : string -> bool) (st : MultiLLMConfigDialog.State)
    (input : string) (k : MultiLLMConfigDialog.Key) :
  MultiLLMConfigDialog.escape k = false ->
  MultiLLMConfigDialog.tab k = true ->
  let press s := MultiLLMConfigDialog.handleInput writeFails s input k in
  fst (press (fst (press (fst (press st))))) = st /\
  MultiLLMConfigDialog.currentField (fst (press st))
    <> MultiLLMConfigDialog.currentField st /\
  snd (press st) = [].
Proof.
  intros Hesc Htab press. subst press.
  unfold MultiLLMConfigDialog.handleInput. rewrite Hesc, Htab.
  by destruct st as [u ky m [] e].
Qed.

Lemma handleInput_tab_cycle_witness :
  fst (MultiLLMConfigDialog.handleInput (fun _ => false)
         (fst (MultiLLMConfigDialog.handleInput (fun _ => false)
                 (fst (MultiLLMConfigDialog.handleInput (fun _ => false)
                         filled_dialog "" tabKey)) "" tabKey)) "" tabKey)
  = filled_dialog.
Proof.
  exact (proj1 (handleInput_tab_cycle (fun _ => false) filled_dialog "" tabKey
                  eq_refl eq_refl)).
Defined.

(** X20: the Escape key cancels whatever else the key press carries and
    whatever the fields hold: [onSelect] is called once, with no auth
    method; nothing is written and the state of the dialog is kept. *)
Theorem handleInput_escape
    (writeFails : string -> bool) (st : MultiLLMConfigDialog.State)
    (input : string) (k : MultiLLMConfigDialog.Key) :
  MultiLLMConfigDialog.escape k = true ->
  MultiLLMConfigDialog.handleInput writeFails st input k
  = (st, [MultiLLMConfigDialog.OnSelect None]).
Proof. intros Hesc. unfold MultiLLMConfigDialog.handleInput. by rewrite Hesc. Qed.

Lemma handleInput_escape_witness :
  MultiLLMConfigDialog.handleInput (fun _ => false) filled_dialog "x"
    {| MultiLLMConfigDialog.escape := true; MultiLLMConfigDialog.tab := true;
       MultiLLMConfigDialog.return_ := true; MultiLLMConfigDialog.backspace := true |}
  = (filled_dialog, [MultiLLMConfigDialog.OnSelect None]).
Proof.
  exact (handleInput_escape (fun _ => false) filled_dialog "x"
           {| MultiLLMConfigDialog.escape := true; MultiLLMConfigDialog.tab := true;
              MultiLLMConfigDialog.return_ := true;
              MultiLLMConfigDialog.backspace := true |} eq_refl).
Defined.

(** X21: a key press does something outside the dialog only when it is
    Escape, or Enter (without Tab) on the model field with the three
    fields filled; and no key press hands an auth method to [onSelect]:
    the member [USE_MULTI_LLM] that the save passes is not one of the
    enumeration, so the save passes [undefined] as the cancel does. *)
Theorem handleInput_effects
    (writeFails : string -> bool) (st : MultiLLMConfigDialog.State)
    (input : string) (k : MultiLLMConfigDialog.Key) :
  (snd (MultiLLMConfigDialog.handleInput writeFails st input k) <> [] <->
   MultiLLMConfigDialog.escape k = true \/
   (MultiLLMConfigDialog.tab k = false /\
    MultiLLMConfigDialog.return_ k = true /\
    MultiLLMConfigDialog.currentField st = MultiLLMConfigDialog.model /\
    complete st = true)) /\
  (forall m,
     ~ In (MultiLLMConfigDialog.OnSelect (Some m))
          (snd (MultiLLMConfigDialog.handleInput writeFails st input k))).
Proof.
  unfold MultiLLMConfigDialog.handleInput.
  destruct (MultiLLMConfigDialog.escape k).
  { split; [split; [by left | done]|]. simpl. by intros m [[=]|[]]. }
  destruct (MultiLLMConfigDialog.tab k).
  { destruct (MultiLLMConfigDialog.currentField st); simpl;
      (split; [split; [done | by intros [|(? & _)]] | by intros m []]). }
  destruct (MultiLLMConfigDialog.return_ k).
  - destruct (MultiLLMConfigDialog.currentField st) eqn:Hfield; simpl;
      try (split; [split; [done | by intros [|(_ & _ & ? & _)]] | by intros m []]).
    rewrite handleSave_cases. destruct (complete st); simpl.
    + split; [split; [by right | done]|].
      by intros m [[=]|[[=]|[[=]|[[=]|[[=]|[]]]]]].
    + split; [split; [done | by intros [|(_ & _ & _ & ?)]] | by intros m []].
  - destruct (MultiLLMConfigDialog.currentField st); simpl;
      (split; [split; [done | by intros [|(_ & ? & _)]] | by intros m []]).
Qed.

(** X22: Enter on the model field with a field left empty saves nothing:
    no variable is set, no file is written, [onSelect] is not called; the
    three fields and the focus stay as they are and the message that all
    fields are required is shown. *)
Theorem handleInput_incomplete
    (writeFails : string -> bool) (st : MultiLLMConfigDialog.State)
    (input : string) (k : MultiLLMConfigDialog.Key) :
  MultiLLMConfigDialog.escape k = false ->
  MultiLLMConfigDialog.tab k = false ->
  MultiLLMConfigDialog.return_ k = true ->
  MultiLLMConfigDialog.currentField st = MultiLLMConfigDialog.model ->
  complete st = false ->
  MultiLLMConfigDialog.handleInput writeFails st input k
  = ({| MultiLLMConfigDialog.llmApiUrl := MultiLLMConfigDialog.llmApiUrl st;
        MultiLLMConfigDialog.llmApiKey := MultiLLMConfigDialog.llmApiKey st;
        MultiLLMConfigDialog.llmModel := MultiLLMConfigDialog.llmModel st;
        MultiLLMConfigDialog.currentField := MultiLLMConfigDialog.model;
        MultiLLMConfigDialog.errorMessage :=
          Some "All fields are required to configure Multi-LLM provider." |}, []).
Proof.
  intros Hesc Htab Hret Hfield Hcomplete. unfold MultiLLMConfigDialog.handleInput.
  rewrite Hesc, Htab, Hret, Hfield, handleSave_cases, Hcomplete.
  unfold MultiLLMConfigDialog.setErrorMessage. by rewrite Hfield.
Qed.

Lemma handleInput_incomplete_witness :
  snd (MultiLLMConfigDialog.handleInput (fun _ => false)
         {| MultiLLMConfigDialog.llmApiUrl := local_url;
            MultiLLMConfigDialog.llmApiKey := "";
            MultiLLMConfigDialog.llmModel := "llama-3";
            MultiLLMConfigDialog.currentField := MultiLLMConfigDialog.model;
            MultiLLMConfigDialog.errorMessage := None |} "" returnKey) = [].
Proof.
  exact (f_equal snd
           (handleInput_incomplete (fun _ => false)
              {| MultiLLMConfigDialog.llmApiUrl := local_url;
                 MultiLLMConfigDialog.llmApiKey := "";
                 MultiLLMConfigDialog.llmModel := "llama-3";
                 MultiLLMConfigDialog.currentField := MultiLLMConfigDialog.model;
                 MultiLLMConfigDialog.errorMessage := None |} "" returnKey
              eq_refl eq_refl eq_refl eq_refl eq_refl)).
Defined.

(** X23: Enter on the model field with the three fields filled sets the
    three variables, calls the write of the [.env] text and calls
    [onSelect], in this order and also when the write fails; [onSelect]
    gets no auth method, the member [USE_MULTI_LLM] not being one of the
    enumeration; with the environment so changed, the factory builds the
    OpenAI-compatible provider for the endpoint, the key and the model of
    the dialog, whatever configuration it is given and whatever the
    libraries of the vendors do. *)
Theorem handleInput_save
    (writeFails : string -> bool) (st : MultiLLMConfigDialog.State)
    (input : string) (k : MultiLLMConfigDialog.Key)
    (libs : ContentGenerator.Libraries) (process : ContentGenerator.Process)
    (config : ContentGenerator.ContentGeneratorConfig) (sessionId : option string) :
  MultiLLMConfigDialog.escape k = false ->
  MultiLLMConfigDialog.tab k = false ->
  MultiLLMConfigDialog.return_ k = true ->
  MultiLLMConfigDialog.currentField st = MultiLLMConfigDialog.model ->
  complete st = true ->
  let effects := snd (MultiLLMConfigDialog.handleInput writeFails st input k) in
  effects =
    [MultiLLMConfigDialog.SetEnv "LLM_API_URL" (MultiLLMConfigDialog.llmApiUrl st);
     MultiLLMConfigDialog.SetEnv "LLM_API_KEY" (MultiLLMConfigDialog.llmApiKey st);
     MultiLLMConfigDialog.SetEnv "LLM_MODEL" (MultiLLMConfigDialog.llmModel st);
     MultiLLMConfigDialog.WriteEnvFile (MultiLLMConfigDialog.envContent st);
     MultiLLMConfigDialog.OnSelect None] /\
  exists p,
    ContentGenerator.createContentGenerator libs (process_after effects process)
      config sessionId
    = Returned (ContentGenerator.Fulfilled (ContentGenerator.OpenAICompatible p)) /\
    LlmProvider.apiUrl (LlmProvider.this_config p) = MultiLLMConfigDialog.llmApiUrl st /\
    LlmProvider.apiKey (LlmProvider.this_config p)
      = Some (MultiLLMConfigDialog.llmApiKey st) /\
    LlmProvider.model (LlmProvider.this_config p) = MultiLLMConfigDialog.llmModel st.
Proof.
  intros Hesc Htab Hret Hfield Hcomplete effects.
  assert (effects =
    [MultiLLMConfigDialog.SetEnv "LLM_API_URL" (MultiLLMConfigDialog.llmApiUrl st);
     MultiLLMConfigDialog.SetEnv "LLM_API_KEY" (MultiLLMConfigDialog.llmApiKey st);
     MultiLLMConfigDialog.SetEnv "LLM_MODEL" (MultiLLMConfigDialog.llmModel st);
     MultiLLMConfigDialog.WriteEnvFile (MultiLLMConfigDialog.envContent st);
     MultiLLMConfigDialog.OnSelect None]) as ->.
  { subst effects. unfold MultiLLMConfigDialog.handleInput.
    by rewrite Hesc, Htab, Hret, Hfield, handleSave_cases, Hcomplete. }
  split; [done|].
  destruct (complete_fields _ Hcomplete) as (Hurl & Hkey & Hmodel).
  unfold ContentGenerator.createContentGenerator,
    ContentGenerator.createContentGenerator_body, process_after. simpl.
  rewrite lookup_insert_eq.
  rewrite (lookup_insert_ne _ "LLM_MODEL" "LLM_API_URL") by done.
  rewrite (lookup_insert_ne _ "LLM_MODEL" "LLM_API_KEY") by done.
  rewrite lookup_insert_eq.
  rewrite (lookup_insert_ne _ "LLM_API_KEY" "LLM_API_URL") by done.
  rewrite lookup_insert_eq. simpl. rewrite Hurl, Hkey, Hmodel. simpl.
  by eexists.
Qed.

Lemma handleInput_save_witness :
  exists p,
    ContentGenerator.createContentGenerator working_libraries
      (process_after
         (snd (MultiLLMConfigDialog.handleInput (fun _ => true) filled_dialog ""
                 returnKey)) bare_process)
      {| ContentGenerator.model := "gemini"; ContentGenerator.apiKey := None;
         ContentGenerator.vertexai := None; ContentGenerator.authType := None;
         ContentGenerator.proxy := None |} None
    = Returned (ContentGenerator.Fulfilled (ContentGenerator.OpenAICompatible p)) /\
    LlmProvider.model (LlmProvider.this_config p) = "llama-3".
Proof.
  destruct (handleInput_save (fun _ => true) filled_dialog "" returnKey
              working_libraries bare_process
              {| ContentGenerator.model := "gemini"; ContentGenerator.apiKey := None;
                 ContentGenerator.vertexai := None; ContentGenerator.authType := None;
                 ContentGenerator.proxy := None |} None
              eq_refl eq_refl eq_refl eq_refl eq_refl)
    as (_ & p & Hrun & _ & _ & Hmodel).
  exists p. split; [exact Hrun | exact Hmodel].
Defined.

(** X24: a character typed goes to the end of the field that has the
    focus, and Backspace takes it away again: the two key presses leave
    the dialog as it was, and neither does anything outside it;
    Backspace on an empty field changes nothing. *)
Theorem handleInput_type_backspace
    (writeFails : string -> bool) (st : MultiLLMConfigDialog.State) (c : ascii) :
  let typed :=
    MultiLLMConfigDialog.handleInput writeFails st (String c EmptyString) plainKey in
  focused (fst typed) = focused st +:+ String c EmptyString /\
  snd typed = [] /\
  MultiLLMConfigDialog.handleInput writeFails (fst typed) "" backspaceKey = (st, []) /\
  (focused st = "" ->
   MultiLLMConfigDialog.handleInput writeFails st "" backspaceKey = (st, [])).
Proof.
  destruct st as [u ky m [] e]; cbn;
    unfold MultiLLMConfigDialog.setLlmApiUrl, MultiLLMConfigDialog.setLlmApiKey,
      MultiLLMConfigDialog.setLlmModel, MultiLLMConfigDialog.edit; cbn;
    rewrite ?dropLast_app_char;
    (split; [done|]); (split; [done|]); (split; [done|]); by intros ->.
Qed.

(** X25: no key press takes the error message away once it is shown. *)
Theorem handleInput_error_stays
    (writeFails : string -> bool) (st : MultiLLMConfigDialog.State)
    (input : string) (k : MultiLLMConfigDialog.Key) :
  is_Some (MultiLLMConfigDialog.errorMessage st) ->
  is_Some (MultiLLMConfigDialog.errorMessage
             (fst (MultiLLMConfigDialog.handleInput writeFails st input k))).
Proof.
  intros Herr. unfold MultiLLMConfigDialog.handleInput.
  destruct (MultiLLMConfigDialog.escape k); [done|].
  destruct (MultiLLMConfigDialog.tab k);
    [by destruct (MultiLLMConfigDialog.currentField st)|].
  destruct (MultiLLMConfigDialog.return_ k).
  - destruct (MultiLLMConfigDialog.currentField st); try done.
    rewrite handleSave_cases. destruct (complete st); simpl; [|by eexists].
    destruct (writeFails _); [by eexists | done].
  - by destruct (MultiLLMConfigDialog.currentField st).
Qed.

Lemma handleInput_error_stays_witness :
  is_Some (MultiLLMConfigDialog.errorMessage
             (fst (MultiLLMConfigDialog.handleInput (fun _ => false)
                     (MultiLLMConfigDialog.setErrorMessage "e" filled_dialog)
                     "x" plainKey))).
Proof.
  exact (handleInput_error_stays (fun _ => false)
           (MultiLLMConfigDialog.setErrorMessage "e" filled_dialog) "x" plainKey
           (ex_intro _ "e" eq_refl)).
Defined.

Lemma textSegments_app ps1 ps2 :
  textSegments (ps1 ++ ps2) = textSegments ps1 ++ textSegments ps2.
Proof.
  induction ps1 as [|p ps1 IH]; [done|]. simpl.
  destruct (text p); simpl; by rewrite IH.
Qed.

(** X26: a part without text, anywhere among the parts, changes nothing
    in the extracted text, and a part without a function call changes
    nothing in the function calls. *)
Theorem parts_do_not_interfere (ps1 ps2 : list Part) (p : Part) :
  (text p = None ->
   getResponseTextFromParts (Some (ps1 ++ p :: ps2))
   = getResponseTextFromParts (Some (ps1 ++ ps2))) /\
  (has_call p = false ->
   getFunctionCallsFromParts (Some (ps1 ++ p :: ps2))
   = getFunctionCallsFromParts (Some (ps1 ++ ps2))).
Proof.
  split.
  - intros Hp. unfold getResponseTextFromParts.
    rewrite !textSegments_app. simpl. by rewrite Hp.
  - intros Hp. unfold getFunctionCallsFromParts.
    rewrite !functionCallParts_app. simpl. unfold has_call in Hp.
    destruct (functionCall p) as [fc|]; [by rewrite Hp | done].
Qed.

(** X27: a dialog opened when the three settings are already there
    starts with its fields filled from them, and confirming it as it is
    (Tab, Tab, Enter) calls [onSelect], without an auth method, and
    leaves the environment as it was. *)
Theorem dialog_confirm_unchanged
    (writeFails : string -> bool) (process : ContentGenerator.Process) :
  genericConfigured process = true ->
  let st0 := MultiLLMConfigDialog.initialState (ContentGenerator.env process) in
  let st1 := fst (MultiLLMConfigDialog.handleInput writeFails st0 "" tabKey) in
  let st2 := fst (MultiLLMConfigDialog.handleInput writeFails st1 "" tabKey) in
  let effects := snd (MultiLLMConfigDialog.handleInput writeFails st2 "" returnKey) in
  complete st0 = true /\
  In (MultiLLMConfigDialog.OnSelect None) effects /\
  MultiLLMConfigDialog.applyEnv effects (ContentGenerator.env process)
  = ContentGenerator.env process.
Proof.
  intros Hgen st0 st1 st2 effects. unfold genericConfigured in Hgen.
  apply andb_true_iff in Hgen as [[Hurl Hkey]%andb_true_iff Hmodel].
  destruct (truthy_opt_Some _ Hurl) as (u & Hu & _).
  destruct (truthy_opt_Some _ Hkey) as (k & Hk & _).
  destruct (truthy_opt_Some _ Hmodel) as (m & Hm & _).
  rewrite Hu in Hurl. rewrite Hk in Hkey. rewrite Hm in Hmodel.
  simpl in Hurl, Hkey, Hmodel.
  assert (st2 = {| MultiLLMConfigDialog.llmApiUrl := u;
                   MultiLLMConfigDialog.llmApiKey := k;
                   MultiLLMConfigDialog.llmModel := m;
                   MultiLLMConfigDialog.currentField := MultiLLMConfigDialog.model;
                   MultiLLMConfigDialog.errorMessage := None |}) as Hst2.
  { subst st2 st1 st0. unfold MultiLLMConfigDialog.initialState.
    by rewrite Hu, Hk, Hm. }
  assert (complete st0 = true) as Hc0.
  { subst st0. unfold complete, MultiLLMConfigDialog.initialState.
    rewrite Hu, Hk, Hm. simpl. by rewrite Hurl, Hkey, Hmodel. }
  split; [done|].
  assert (effects =
    [MultiLLMConfigDialog.SetEnv "LLM_API_URL" u;
     MultiLLMConfigDialog.SetEnv "LLM_API_KEY" k;
     MultiLLMConfigDialog.SetEnv "LLM_MODEL" m;
     MultiLLMConfigDialog.WriteEnvFile (MultiLLMConfigDialog.envContent st2);
     MultiLLMConfigDialog.OnSelect None]) as ->.
  { subst effects. rewrite Hst2. unfold MultiLLMConfigDialog.handleInput. simpl.
    rewrite handleSave_cases. unfold complete. simpl. by rewrite Hurl, Hkey, Hmodel. }
  split; [simpl; tauto|]. simpl.
  rewrite (insert_id _ "LLM_API_URL" u Hu), (insert_id _ "LLM_API_KEY" k Hk).
  by apply insert_id.
Qed.

Lemma dialog_confirm_unchanged_witness :
  MultiLLMConfigDialog.applyEnv
    (snd (MultiLLMConfigDialog.handleInput (fun _ => false)
            (fst (MultiLLMConfigDialog.handleInput (fun _ => false)
                    (fst (MultiLLMConfigDialog.handleInput (fun _ => false)
                            (MultiLLMConfigDialog.initialState
                               (ContentGenerator.env generic_process)) "" tabKey))
                    "" tabKey)) "" returnKey))
    (ContentGenerator.env generic_process)
  = ContentGenerator.env generic_process.
Proof.
  exact (proj2 (proj2 (dialog_confirm_unchanged (fun _ => false) generic_process
                         eq_refl))).
Defined.
